(** * backtest-lab: the file-based symbol/timeframe catalog and request router

    A shallow embedding of [backtest_lab/data/base.py],
    [backtest_lab/data/providers/file_provider.py] and
    [backtest_lab/data/loaders/stock_loader.py], with the properties of the
    filename codec, the request validator, the date-range filter, the
    persistence checks, the directory catalog and the batch loader.

    Conventions of the embedding.
    - Python [str] values are Rocq strings read as ASCII text: case mapping
      and white space follow Python on code points below 128 and leave the
      other bytes alone.
    - Exceptions are values of [exn]; a Python function that may raise
      returns a [result].
    - Paths are POSIX paths. *)

From Stdlib Require Import ZArith Ascii List Bool Lia Permutation.
From Stdlib Require Import Sorting.Sorted.
From Stdlib Require String.
From stdpp Require Import base gmap strings list.

(** ** Exceptions *)

Inductive exn : Type :=
  | ValueError (msg : string)
  | FileNotFoundError (msg : string)
  | ValidationError (msg : string)
  | TypeError (msg : string)
  | OtherError (msg : string).

Inductive result (A : Type) : Type :=
  | Ok (a : A)
  | Err (e : exn).
Arguments Ok {A} a.
Arguments Err {A} e.

Definition is_Ok {A} (r : result A) : bool :=
  match r with Ok _ => true | Err _ => false end.

Global Instance result_ret : MRet result := fun _ a => Ok a.
Global Instance result_bind : MBind result := fun _ _ f r =>
  match r with Ok a => f a | Err e => Err e end.

Global Instance result_fmap : FMap result := fun _ _ f r =>
  match r with Ok a => Ok (f a) | Err e => Err e end.

(** [str(e)]: the message of an exception. *)
Definition exn_str (e : exn) : string :=
  match e with
  | ValueError m | FileNotFoundError m | ValidationError m
  | TypeError m | OtherError m => m
  end.

(** ** Python strings *)

Module PyStr.

Abbreviation chars := String.list_ascii_of_string.
Abbreviation str := String.string_of_list_ascii.

(** [c.upper()] and [c.lower()] on one ASCII character. *)
Definition upper_char (c : ascii) : ascii :=
  let n := nat_of_ascii c in
  if (97 <=? n)%nat && (n <=? 122)%nat then ascii_of_nat (n - 32) else c.

Definition lower_char (c : ascii) : ascii :=
  let n := nat_of_ascii c in
  if (65 <=? n)%nat && (n <=? 90)%nat then ascii_of_nat (n + 32) else c.

(** The ASCII characters that [str.strip()] removes: TAB, LF, VT, FF, CR,
    FS, GS, RS, US and the space. *)
Definition is_space (c : ascii) : bool :=
  let n := nat_of_ascii c in
  ((9 <=? n)%nat && (n <=? 13)%nat) || ((28 <=? n)%nat && (n <=? 32)%nat).

Definition upper (s : string) : string := str (map upper_char (chars s)).
Definition lower (s : string) : string := str (map lower_char (chars s)).

(** [s.replace(a, b)] for one-character [a] and [b]. *)
Definition replace_char (a b : ascii) (s : string) : string :=
  str (map (fun c => if Ascii.eqb c a then b else c) (chars s)).

(** [s.strip()]: the white space is removed from the left end, then
    from the right end. *)
Fixpoint lstrip_chars (l : list ascii) : list ascii :=
  match l with
  | [] => []
  | c :: t => if is_space c then lstrip_chars t else l
  end.

Fixpoint rstrip_chars (l : list ascii) : list ascii :=
  match l with
  | [] => []
  | c :: t =>
      match rstrip_chars t with
      | [] => if is_space c then [] else [c]
      | t' => c :: t'
      end
  end.

Definition strip (s : string) : string :=
  str (rstrip_chars (lstrip_chars (chars s))).

(** [s.endswith(suffix)]. *)
Definition endswith (s suffix : string) : bool :=
  let l := chars s in
  let k := chars suffix in
  (length k <=? length l)%nat
  && bool_decide (drop (length l - length k) l = k).

(** [s[:-n]] for [n > 0]. *)
Definition drop_last (n : nat) (s : string) : string :=
  let l := chars s in str (take (length l - n) l).

Definition contains_char (c : ascii) (s : string) : bool :=
  existsb (Ascii.eqb c) (chars s).

(** [repr(s)] for a string without quotes or escapes. *)
Definition repr (s : string) : string := "'" +:+ s +:+ "'".

(** [repr(l)] for a list of such strings. *)
Fixpoint repr_items (l : list string) : string :=
  match l with
  | [] => ""
  | [x] => repr x
  | x :: t => repr x +:+ ", " +:+ repr_items t
  end.
Definition repr_list (l : list string) : string :=
  "[" +:+ repr_items l +:+ "]".

(** Decimal text of a natural number, [str(n)]. *)
Definition digit (n : nat) : ascii := ascii_of_nat (48 + n mod 10).

Fixpoint of_nat_go (fuel n : nat) (acc : list ascii) : list ascii :=
  match fuel with
  | 0%nat => acc
  | S fuel' =>
      if (n <? 10)%nat then digit n :: acc
      else of_nat_go fuel' (n / 10) (digit n :: acc)
  end.
Definition of_nat (n : nat) : string := str (of_nat_go (S n) n []).

(** [f"{n:0{w}d}"] for a natural number. *)
Definition zfill (w : nat) (n : nat) : string :=
  let d := of_nat_go (S n) n [] in
  str (repeat "0"%char (w - length d) ++ d).

End PyStr.

(** ** pathlib.PurePosixPath: [name], [suffix], [stem] *)

Module PyPath.
Import PyStr.

(** Split on ['/']. *)
Fixpoint split_sep (l : list ascii) (cur : list ascii) : list (list ascii) :=
  match l with
  | [] => [rev cur]
  | c :: t =>
      if Ascii.eqb c "/"%char then rev cur :: split_sep t []
      else split_sep t (c :: cur)
  end.

(** The parts that pathlib keeps: empty parts and ["."] are dropped. *)
Definition kept_part (p : list ascii) : bool :=
  negb (bool_decide (p = [])) && negb (bool_decide (p = ["."%char])).

(** [Path(p).name]: the last kept part, or [""] when there is none. *)
Definition name (p : string) : string :=
  str (List.last (List.filter kept_part (split_sep (chars p) [])) []).

(** Index of the last ['.'] of a name, [name.rfind('.')]. *)
Fixpoint rfind_dot (l : list ascii) : option nat :=
  match l with
  | [] => None
  | c :: t =>
      match rfind_dot t with
      | Some i => Some (S i)
      | None => if Ascii.eqb c "."%char then Some 0%nat else None
      end
  end.

(** [PurePath.suffix]: [name[i:]] when [0 < i < len(name) - 1], where [i]
    is the index of the last dot, and [""] otherwise. *)
Definition suffix_of_name (n : string) : string :=
  let l := chars n in
  match rfind_dot l with
  | Some i =>
      if (0 <? i)%nat && (i <? length l - 1)%nat then str (drop i l) else ""
  | None => ""
  end.

Definition stem_of_name (n : string) : string :=
  let l := chars n in
  match rfind_dot l with
  | Some i =>
      if (0 <? i)%nat && (i <? length l - 1)%nat then str (take i l) else n
  | None => n
  end.

Definition suffix (p : string) : string := suffix_of_name (name p).
Definition stem (p : string) : string := stem_of_name (name p).

(** [p.with_suffix(s)] for a path whose name is not empty. *)
Definition with_suffix (p s : string) : string :=
  let l := chars p in
  str (take (length l - String.length (suffix p)) l) +:+ s.

End PyPath.

(** ** base.py: frequencies and the filename codec *)

Inductive DataFrequency : Type :=
  | MINUTE_1 | MINUTE_5 | MINUTE_15 | MINUTE_30
  | HOUR_1 | HOUR_4 | DAILY | WEEKLY | MONTHLY.

Global Instance DataFrequency_eq_dec : EqDecision DataFrequency.
Proof. solve_decision. Defined.

(** [freq.value] *)
Definition value (f : DataFrequency) : string :=
  match f with
  | MINUTE_1 => "1m" | MINUTE_5 => "5m" | MINUTE_15 => "15m"
  | MINUTE_30 => "30m" | HOUR_1 => "1h" | HOUR_4 => "4h"
  | DAILY => "1d" | WEEKLY => "1wk" | MONTHLY => "1mo"
  end.

(** [for freq in DataFrequency]: the members in definition order. *)
Definition all_frequencies : list DataFrequency :=
  [MINUTE_1; MINUTE_5; MINUTE_15; MINUTE_30; HOUR_1; HOUR_4;
   DAILY; WEEKLY; MONTHLY].

Definition generate_filename (symbol : string) (frequency : DataFrequency)
    (extension : string) : string :=
  let safe_symbol :=
    PyStr.replace_char ":"%char "_"%char
      (PyStr.replace_char "\"%char "_"%char
         (PyStr.replace_char "/"%char "_"%char symbol)) in
  PyStr.lower safe_symbol +:+ "_" +:+ value frequency +:+ extension.

(** The loop of [parse_filename] over the frequencies still to try. *)
Fixpoint parse_stem (name_without_ext : string) (freqs : list DataFrequency)
    : string * option DataFrequency :=
  match freqs with
  | [] => (PyStr.upper name_without_ext, None)
  | freq :: rest =>
      let suffix := "_" +:+ value freq in
      if PyStr.endswith name_without_ext suffix
      then (PyStr.upper
              (PyStr.drop_last (String.length suffix) name_without_ext),
            Some freq)
      else parse_stem name_without_ext rest
  end.

Definition parse_filename (filename : string) : string * option DataFrequency :=
  parse_stem (PyPath.stem filename) all_frequencies.

(** [MarketDataRequest.validate_symbol] *)
Definition validate_symbol (v : string) : result string :=
  if bool_decide (v = "") then Err (ValueError "Symbol cannot be empty")
  else
    let cleaned := PyStr.upper (PyStr.strip v) in
    if bool_decide (cleaned = "")
    then Err (ValueError "Symbol cannot be empty after cleaning")
    else Ok cleaned.

(** The normal form of a symbol: trimmed and upper-cased. *)
Definition normalize (s : string) : string := PyStr.upper (PyStr.strip s).

(** The characters that [generate_filename] replaces. *)
Definition path_hostile (c : ascii) : bool :=
  Ascii.eqb c "/"%char || Ascii.eqb c "\"%char || Ascii.eqb c ":"%char.

Definition no_path_hostile (s : string) : Prop :=
  Forall (fun c => path_hostile c = false) (PyStr.chars s).

(** [FileDataProvider.supported_formats] *)
Definition supported_formats : list string := [".parquet"; ".csv"].

(** ** datetime *)

Module PyDatetime.

(** [datetime.timezone]: a fixed offset from UTC, in minutes. *)
Record timezone : Type := { utcoffset_minutes : Z }.

(** A [datetime] is its wall-clock reading, in microseconds since
    1970-01-01T00:00:00 on its own clock, and its [tzinfo]. *)
Record datetime : Type := { wall : Z; tzinfo : option timezone }.

Definition offset_us (tz : timezone) : Z :=
  (utcoffset_minutes tz * 60000000)%Z.

(** [d.replace(tzinfo=tz)]: the reading is kept. *)
Definition replace_tzinfo (tz : option timezone) (d : datetime) : datetime :=
  {| wall := wall d; tzinfo := tz |}.

(** [d.astimezone(tz)] for an aware [d] whose own zone is [own]: the
    instant is kept and read on the clock of [tz]. *)
Definition astimezone (own tz : timezone) (d : datetime) : datetime :=
  {| wall := (wall d - offset_us own + offset_us tz)%Z; tzinfo := Some tz |}.

(** The instant of an aware datetime, in microseconds since the epoch. *)
Definition instant (tz : timezone) (d : datetime) : Z :=
  (wall d - offset_us tz)%Z.

(** Days since 1970-01-01 of a proleptic Gregorian date, and back. *)
Definition days_from_civil (y m d : Z) : Z :=
  let y' := (if m <=? 2 then y - 1 else y)%Z in
  let era := (y' / 400)%Z in
  let yoe := (y' - era * 400)%Z in
  let mp := (if 2 <? m then m - 3 else m + 9)%Z in
  let doy := ((153 * mp + 2) / 5 + d - 1)%Z in
  let doe := (yoe * 365 + yoe / 4 - yoe / 100 + doy)%Z in
  (era * 146097 + doe - 719468)%Z.

Definition civil_from_days (z : Z) : Z * Z * Z :=
  let z' := (z + 719468)%Z in
  let era := (z' / 146097)%Z in
  let doe := (z' - era * 146097)%Z in
  let yoe := ((doe - doe / 1460 + doe / 36524 - doe / 146096) / 365)%Z in
  let doy := (doe - (365 * yoe + yoe / 4 - yoe / 100))%Z in
  let mp := ((5 * doy + 2) / 153)%Z in
  let d := (doy - (153 * mp + 2) / 5 + 1)%Z in
  let m := (if mp <? 10 then mp + 3 else mp - 9)%Z in
  let y := (yoe + era * 400)%Z in
  ((if m <=? 2 then y + 1 else y)%Z, m, d).

(** [datetime(y, m, d, hh, mi, ss, us, tzinfo=tz)] *)
Definition mk_datetime (y m d hh mi ss us : Z) (tz : option timezone)
    : datetime :=
  {| wall := ((((days_from_civil y m d * 24 + hh) * 60 + mi) * 60 + ss)
              * 1000000 + us)%Z;
     tzinfo := tz |}.

Definition pad (w : nat) (z : Z) : string := PyStr.zfill w (Z.to_nat z).

Definition offset_str (tz : timezone) : string :=
  let m := utcoffset_minutes tz in
  let a := Z.abs m in
  (if (m <? 0)%Z then "-" else "+")
    +:+ pad 2 (a / 60) +:+ ":" +:+ pad 2 (a mod 60).

(** [d.isoformat()] *)
Definition isoformat (d : datetime) : string :=
  let day_us := 86400000000%Z in
  let '(y, m, dd) := civil_from_days (wall d / day_us) in
  let t := (wall d mod day_us)%Z in
  let us := (t mod 1000000)%Z in
  let s := (t / 1000000)%Z in
  pad 4 y +:+ "-" +:+ pad 2 m +:+ "-" +:+ pad 2 dd +:+ "T"
    +:+ pad 2 (s / 3600) +:+ ":" +:+ pad 2 (s / 60 mod 60) +:+ ":"
    +:+ pad 2 (s mod 60)
    +:+ (if (us =? 0)%Z then "" else "." +:+ pad 6 us)
    +:+ match tzinfo d with Some tz => offset_str tz | None => "" end.

End PyDatetime.
Export PyDatetime.

(** ** Values of a metadata bag *)

Inductive pyval : Type :=
  | VNone
  | VBool (b : bool)
  | VInt (z : Z)
  | VStr (s : string).

(** [v.isoformat() if v else None] in a metadata entry *)
Definition iso_or_none (d : option datetime) : pyval :=
  match d with Some x => VStr (isoformat x) | None => VNone end.

(** ** pandas tables *)

Inductive dtype : Type :=
  | Float64
  | Int64
  | Datetime64 (tz : option timezone)
  | Object.

Record Column : Type := { col_name : string; col_dtype : dtype }.

(** A row is its index label and its cells, both as integer codes; the
    label of a row under a [DatetimeIndex] is its time in nanoseconds since
    the epoch (the instant when the index has a time zone, the wall-clock
    reading when it has none). *)
Record Row : Type := { label : Z; cells : list Z }.

Record DataFrame : Type :=
  { idx_dtype : dtype; df_columns : list Column; df_rows : list Row }.

(** [df.columns], [len(df)] and [isinstance(df.index, pd.DatetimeIndex)] *)
Definition columns (df : DataFrame) : list string :=
  map col_name (df_columns df).

Definition len (df : DataFrame) : nat := length (df_rows df).

Definition is_datetime_index (df : DataFrame) : bool :=
  match idx_dtype df with Datetime64 _ => true | _ => false end.

(** [df.index.tz] when the index has that attribute and it is not [None] *)
Definition index_tz (df : DataFrame) : option timezone :=
  match idx_dtype df with Datetime64 tz => tz | _ => None end.

(** [c in df.columns] *)
Definition has_column (c : string) (df : DataFrame) : bool :=
  bool_decide (c ∈ columns df).

Fixpoint column_position (c : string) (cols : list Column) : option nat :=
  match cols with
  | [] => None
  | x :: t =>
      if bool_decide (col_name x = c) then Some 0%nat
      else S <$> column_position c t
  end.

(** [df.set_index(c)] for a column [c] of [df]: the column becomes the
    index and leaves the table. *)
Definition set_index (c : string) (df : DataFrame) : DataFrame :=
  match column_position c (df_columns df) with
  | Some k =>
      {| idx_dtype := from_option col_dtype Object (df_columns df !! k);
         df_columns := delete k (df_columns df);
         df_rows :=
           map (fun r => {| label := nth k (cells r) 0%Z;
                            cells := delete k (cells r) |}) (df_rows df) |}
  | None => df
  end.

(** [df.sort_index()]: a stable sort of the rows by label. *)
Fixpoint insert_row (r : Row) (l : list Row) : list Row :=
  match l with
  | [] => [r]
  | x :: t =>
      if (label r <=? label x)%Z then r :: l else x :: insert_row r t
  end.

Definition sort_index (df : DataFrame) : DataFrame :=
  {| idx_dtype := idx_dtype df;
     df_columns := df_columns df;
     df_rows := foldr insert_row [] (df_rows df) |}.

(** [df[mask]] for a mask computed from the index *)
Definition select_rows (keep : Z → bool) (df : DataFrame) : DataFrame :=
  {| idx_dtype := idx_dtype df;
     df_columns := df_columns df;
     df_rows := List.filter (fun r => keep (label r)) (df_rows df) |}.

(** The value of a datetime on the scale of the index it is compared
    with. pandas refuses to compare an aware index with a naive datetime
    and a naive index with an aware one, and an index that holds no
    timestamps with any datetime. *)
Definition index_key (df : DataFrame) (d : datetime) : result Z :=
  match idx_dtype df with
  | Datetime64 (Some _) =>
      match tzinfo d with
      | Some tz => Ok (instant tz d * 1000)%Z
      | None => Err (TypeError "Cannot compare tz-naive and tz-aware datetime-like objects")
      end
  | Datetime64 None =>
      match tzinfo d with
      | None => Ok (wall d * 1000)%Z
      | Some _ => Err (TypeError "Cannot compare tz-naive and tz-aware datetime-like objects")
      end
  | _ => Err (TypeError "Invalid comparison between an index and a datetime")
  end.

(** [df[df.index >= d]] and [df[df.index <= d]] *)
Definition index_ge (df : DataFrame) (d : datetime) : result DataFrame :=
  k ← index_key df d; Ok (select_rows (fun t => (k <=? t)%Z) df).

Definition index_le (df : DataFrame) (d : datetime) : result DataFrame :=
  k ← index_key df d; Ok (select_rows (fun t => (t <=? k)%Z) df).

(** ** base.py: requests and records *)

Record MarketDataRequest : Type :=
  { req_symbol : string;
    start_date : option datetime;
    end_date : option datetime;
    frequency : DataFrequency;
    provider_specific_params : option (gmap string pyval) }.

(** [MarketDataRequest(symbol=..., ...)]: pydantic runs the symbol
    validator and reports its [ValueError] as a validation error. *)
Definition new_MarketDataRequest (symbol : string)
    (start_date end_date : option datetime) (frequency : DataFrequency)
    (params : option (gmap string pyval)) : result MarketDataRequest :=
  match validate_symbol symbol with
  | Ok cleaned =>
      Ok {| req_symbol := cleaned; start_date := start_date;
            end_date := end_date; frequency := frequency;
            provider_specific_params := params |}
  | Err e => Err (ValidationError (exn_str e))
  end.

Record MarketData : Type :=
  { symbol : string;
    data : DataFrame;
    metadata : option (gmap string pyval) }.

(** [MarketData(symbol=..., data=..., metadata=...)]: the symbol has
    [min_length=1]. *)
Definition new_MarketData (symbol : string) (data : DataFrame)
    (metadata : option (gmap string pyval)) : result MarketData :=
  if bool_decide (symbol = "")
  then Err (ValidationError "String should have at least 1 character")
  else Ok {| symbol := symbol; data := data; metadata := metadata |}.

(** Truth value of an optional dict: [None] and [{}] are false. *)
Definition truthy_dict (m : option (gmap string pyval)) : bool :=
  match m with
  | Some d => negb (bool_decide (d = ∅))
  | None => false
  end.

(** ** Sorting with a string key *)

(** [sorted(l, key=key)]: Python's sort is stable and compares the keys as
    strings, code point by code point. *)
Section Sorted.
Context {A : Type} (key : A → string).

Fixpoint insert_by (x : A) (l : list A) : list A :=
  match l with
  | [] => [x]
  | y :: t =>
      if String.leb (key x) (key y) then x :: l else y :: insert_by x t
  end.

Definition py_sorted (l : list A) : list A := foldr insert_by [] l.

(** The order of the keys. *)
Definition key_le (a b : A) : Prop := String.leb (key a) (key b) = true.
End Sorted.

(** ** Files written by a record *)

Inductive file : Type :=
  | FParquet (df : DataFrame)
  | FCsv (df : DataFrame)
  | FJson (m : gmap string pyval).

Definition required_columns : list string :=
  ["open"; "high"; "low"; "close"; "volume"].

Section Records.

(** What the embedding takes from pandas and the disk when a record is
    read: [pd.to_datetime] on an index of a given dtype and labels (the
    time zone and labels of the resulting [DatetimeIndex], or the
    exception), [pd.read_parquet], [pd.read_csv(.., index_col=0,
    parse_dates=True)], and the content of a JSON file ([None] when the
    file does not exist). *)
Variable to_datetime : dtype → list Z → result (option timezone * list Z).
Variable read_parquet : string → result DataFrame.
Variable read_csv : string → result DataFrame.
Variable read_json : string → option (gmap string pyval).

(** [df.index = idx] for a [DatetimeIndex] *)
Definition set_datetime_index (df : DataFrame)
    (idx : option timezone * list Z) : DataFrame :=
  {| idx_dtype := Datetime64 (fst idx);
     df_columns := df_columns df;
     df_rows :=
       zip_with (fun r t => {| label := t; cells := cells r |})
         (df_rows df) (snd idx) |}.

(** [MarketData._prepare_data_for_save] *)
Definition _prepare_data_for_save (self : MarketData) : result DataFrame :=
  let df := data self in
  df ← (if is_datetime_index df then Ok df
        else if has_column "date" df then Ok (set_index "date" df)
        else if has_column "datetime" df then Ok (set_index "datetime" df)
        else
          match to_datetime (idx_dtype df) (map label (df_rows df)) with
          | Ok idx => Ok (set_datetime_index df idx)
          | Err _ =>
              Err (ValueError "Cannot convert index to datetime. Data must have a datetime index or 'date'/'datetime' column.")
          end);
  let missing_columns :=
    List.filter (fun col => negb (has_column col df)) required_columns in
  if bool_decide (missing_columns = [])
  then Ok (sort_index df)
  else Err (ValueError ("Missing required columns: "
                        +:+ PyStr.repr_list missing_columns)).

(** [MarketData._save_metadata]: the store maps a path to the file
    written there. *)
Definition _save_metadata (self : MarketData) (filepath : string)
    (disk : gmap string file) : gmap string file :=
  if truthy_dict (metadata self)
  then <[PyPath.with_suffix filepath ".metadata.json" :=
           FJson (default ∅ (metadata self))]> disk
  else disk.

(** [MarketData.save_to_parquet] and [MarketData.save_to_csv]: the
    outcome and the store afterwards. *)
Definition save_to_parquet (self : MarketData) (filepath : string)
    (disk : gmap string file) : result unit * gmap string file :=
  match _prepare_data_for_save self with
  | Err e => (Err e, disk)
  | Ok df =>
      (Ok (), _save_metadata self filepath (<[filepath := FParquet df]> disk))
  end.

Definition save_to_csv (self : MarketData) (filepath : string)
    (disk : gmap string file) : result unit * gmap string file :=
  match _prepare_data_for_save self with
  | Err e => (Err e, disk)
  | Ok df =>
      (Ok (), _save_metadata self filepath (<[filepath := FCsv df]> disk))
  end.

(** [MarketData._load_metadata] *)
Definition _load_metadata (filepath : string) : option (gmap string pyval) :=
  read_json (PyPath.with_suffix filepath ".metadata.json").

(** [MarketData._extract_symbol_from_metadata_or_filename] *)
Definition _extract_symbol_from_metadata_or_filename
    (metadata : option (gmap string pyval)) (filepath : string) : pyval :=
  match (if truthy_dict metadata then default ∅ metadata !! "symbol" else None) with
  | Some v => v
  | None => VStr (PyStr.upper (PyPath.stem filepath))
  end.

(** [MarketData._create_from_loaded_data] *)
Definition _create_from_loaded_data (df : DataFrame) (filepath : string)
    (symbol : option string) : result MarketData :=
  let metadata := _load_metadata filepath in
  let symbol :=
    match symbol with
    | Some s => VStr s
    | None => _extract_symbol_from_metadata_or_filename metadata filepath
    end in
  df ← (if is_datetime_index df then Ok df
        else idx ← to_datetime (idx_dtype df) (map label (df_rows df));
             Ok (set_datetime_index df idx));
  match symbol with
  | VStr s => new_MarketData s df metadata
  | _ => Err (ValidationError "Input should be a valid string")
  end.

Definition load_from_parquet (filepath : string) (symbol : option string)
    : result MarketData :=
  df ← read_parquet filepath; _create_from_loaded_data df filepath symbol.

Definition load_from_csv (filepath : string) (symbol : option string)
    : result MarketData :=
  df ← read_csv filepath; _create_from_loaded_data df filepath symbol.

End Records.

(** ** file_provider.py *)

(** An entry of the data directory as [iterdir] yields it. *)
Record dirent : Type :=
  { d_name : string; d_is_file : bool; d_mtime : Z; d_size : Z }.

(** The disk as the provider sees it: the entries of [data_directory] in
    [iterdir] order ([None] when the directory does not exist), and whether
    a path that leaves the directory exists. File names are compared
    exactly, as on a case-sensitive file system, and [data_directory], when
    it exists, is a directory. The times and sizes of the entries are
    there to say that the provider does not look at them. *)
Record filesystem : Type :=
  { listing : option (list dirent); elsewhere : string → bool }.

Module FileDataProvider.

Definition provider_name : string := "File Data Provider".

(** The time-zone adjustment of a bound (lines 195-204 and 210-219). *)
Definition match_index_tz (df : DataFrame) (d : datetime) : datetime :=
  match index_tz df with
  | Some tz =>
      match tzinfo d with
      | None => replace_tzinfo (Some tz) d
      | Some own => astimezone own tz d
      end
  | None =>
      match tzinfo d with
      | Some _ => replace_tzinfo None d
      | None => d
      end
  end.

Definition _filter_by_date_range (market_data : MarketData)
    (start_date end_date : option datetime) : result MarketData :=
  let df := data market_data in
  '(df, start_date) ←
    match start_date with
    | Some d =>
        let d := match_index_tz df d in
        df ← index_ge df d; Ok (df, Some d)
    | None => Ok (df, None)
    end;
  '(df, end_date) ←
    match end_date with
    | Some d =>
        let d := match_index_tz df d in
        df ← index_le df d; Ok (df, Some d)
    | None => Ok (df, None)
    end;
  let metadata :=
    if truthy_dict (metadata market_data)
    then default ∅ (metadata market_data) else ∅ in
  let metadata :=
    <["filtered_rows" := VInt (Z.of_nat (len df))]>
      (<["original_rows" := VInt (Z.of_nat (len (data market_data)))]>
         (<["filter_end_date" := iso_or_none end_date]>
            (<["filter_start_date" := iso_or_none start_date]>
               (<["filtered" := VBool true]> metadata)))) in
  new_MarketData (symbol market_data) df (Some metadata).

(** [entry.is_file() and entry.suffix.lower() in self.supported_formats] *)
Definition supported_file (e : dirent) : bool :=
  d_is_file e
  && bool_decide (PyStr.lower (PyPath.suffix (d_name e)) ∈ supported_formats).

Section Provider.
Variable to_datetime : dtype → list Z → result (option timezone * list Z).
Variable read_parquet : string → result DataFrame.
Variable read_csv : string → result DataFrame.
Variable read_json : string → option (gmap string pyval).
(** The disk, [self.data_directory] and [datetime.now()]. *)
Variable fs : filesystem.
Variable data_directory : string.
Variable now : datetime.

(** [self.data_directory / name] *)
Definition joinpath (name : string) : string :=
  match name with
  | String "/" _ => name
  | _ => data_directory +:+ "/" +:+ name
  end.

(** [(self.data_directory / name).exists()] in an existing directory
    with the given entries. *)
Definition path_exists (entries : list dirent) (name : string) : bool :=
  if PyStr.contains_char "/" name then elsewhere fs name
  else existsb (fun e => bool_decide (d_name e = name)) entries.

(** The first loop, [for extension in self.supported_formats] over the
    canonical file names. *)
Fixpoint probe_exact (entries : list dirent) (symbol : string)
    (frequency : DataFrequency) (formats : list string) : option string :=
  match formats with
  | [] => None
  | extension :: rest =>
      let filename := generate_filename symbol frequency extension in
      if path_exists entries filename then Some (joinpath filename)
      else probe_exact entries symbol frequency rest
  end.

(** The inner loop of the second stage, for one naming convention. *)
Fixpoint probe_formats (entries : list dirent) (base : string)
    (formats : list string) : option string :=
  match formats with
  | [] => None
  | extension :: rest =>
      if path_exists entries (base +:+ extension)
      then Some (joinpath (base +:+ extension))
      else probe_formats entries base rest
  end.

(** [for file_pattern in [...]: for extension in ...] *)
Fixpoint probe_patterns (entries : list dirent) (patterns : list string)
    : option string :=
  match patterns with
  | [] => None
  | file_pattern :: rest =>
      match probe_formats entries file_pattern supported_formats with
      | Some p => Some p
      | None => probe_patterns entries rest
      end
  end.

(** The last loop, over [self.data_directory.iterdir()]. *)
Fixpoint scan_for_symbol (symbol_upper : string) (entries : list dirent)
    : option string :=
  match entries with
  | [] => None
  | e :: rest =>
      if supported_file e
         && bool_decide (fst (parse_filename (d_name e)) = symbol_upper)
      then Some (joinpath (d_name e))
      else scan_for_symbol symbol_upper rest
  end.

Definition _find_file_for_symbol (symbol : string)
    (frequency : option DataFrequency) : option string :=
  match listing fs with
  | None => None
  | Some entries =>
      let exact :=
        match frequency with
        | Some f => probe_exact entries symbol f supported_formats
        | None => None
        end in
      match exact with
      | Some p => Some p
      | None =>
          let symbol_lower := PyStr.lower symbol in
          let symbol_upper := PyStr.upper symbol in
          match probe_patterns entries [symbol_lower; symbol_upper; symbol] with
          | Some p => Some p
          | None => scan_for_symbol (PyStr.upper symbol) entries
          end
      end
  end.

Definition _load_market_data_from_file (file_path symbol : string)
    : result MarketData :=
  let file_extension := PyStr.lower (PyPath.suffix file_path) in
  if bool_decide (file_extension = ".parquet")
  then load_from_parquet to_datetime read_parquet read_json file_path (Some symbol)
  else if bool_decide (file_extension = ".csv")
  then load_from_csv to_datetime read_csv read_json file_path (Some symbol)
  else Err (ValueError ("Unsupported file format: " +:+ file_extension)).

Definition _add_provider_metadata (market_data : MarketData)
    (file_path : string) (frequency : option DataFrequency) : MarketData :=
  let metadata := default ∅ (metadata market_data) in
  let frequency :=
    match frequency with
    | Some f => Some f
    | None => snd (parse_filename (PyPath.name file_path))
    end in
  {| symbol := symbol market_data;
     data := data market_data;
     metadata :=
       Some (<["loaded_at" := VStr (isoformat now)]>
               (<["frequency" :=
                    match frequency with
                    | Some f => VStr (value f)
                    | None => VNone
                    end]>
                  (<["source_file" := VStr file_path]>
                     (<["provider" := VStr provider_name]> metadata)))) |}.

Definition get_data (request : MarketDataRequest) : result MarketData :=
  let symbol := req_symbol request in
  let frequency := frequency request in
  match _find_file_for_symbol symbol (Some frequency) with
  | None =>
      Err (FileNotFoundError
             ("No data file found for symbol " +:+ symbol
              +:+ " with frequency " +:+ value frequency
              +:+ " in " +:+ data_directory))
  | Some file_path =>
      market_data ← _load_market_data_from_file file_path symbol;
      market_data ←
        (if bool_decide (is_Some (start_date request))
            || bool_decide (is_Some (end_date request))
         then _filter_by_date_range market_data
                (start_date request) (end_date request)
         else Ok market_data);
      Ok (_add_provider_metadata market_data file_path (Some frequency))
  end.

Definition validate_symbol (symbol : string)
    (frequency : option DataFrequency) : bool :=
  bool_decide (is_Some (_find_file_for_symbol symbol frequency)).

Definition get_available_symbols : list string :=
  match listing fs with
  | None => []
  | Some entries =>
      let symbols : gset string :=
        foldl (fun symbols e =>
                 if supported_file e
                 then symbols ∪ {[fst (parse_filename (d_name e))]}
                 else symbols) ∅ entries in
      py_sorted id (elements symbols)
  end.

Definition get_available_timeframes (symbol : string)
    : list DataFrequency :=
  match listing fs with
  | None => []
  | Some entries =>
      let symbol_upper := PyStr.upper symbol in
      let timeframes :=
        foldl (fun timeframes e =>
                 if supported_file e then
                   let '(parsed_symbol, parsed_frequency) :=
                     parse_filename (d_name e) in
                   match parsed_frequency with
                   | Some f =>
                       if bool_decide (parsed_symbol = symbol_upper)
                       then timeframes ++ [f] else timeframes
                   | None => timeframes
                   end
                 else timeframes) [] entries in
      py_sorted value timeframes
  end.

(** One turn of the scan of [get_symbol_timeframe_combinations]. *)
Definition add_combination (combinations : gmap string (list DataFrequency))
    (e : dirent) : gmap string (list DataFrequency) :=
  if supported_file e then
    let '(symbol, frequency) := parse_filename (d_name e) in
    let combinations :=
      match combinations !! symbol with
      | Some _ => combinations
      | None => <[symbol := []]> combinations
      end in
    match frequency with
    | Some f =>
        let known := default [] (combinations !! symbol) in
        if bool_decide (f ∈ known) then combinations
        else <[symbol := known ++ [f]]> combinations
    | None => combinations
    end
  else combinations.

Definition get_symbol_timeframe_combinations
    : gmap string (list DataFrequency) :=
  match listing fs with
  | None => ∅
  | Some entries =>
      py_sorted value <$> foldl add_combination ∅ entries
  end.

End Provider.
End FileDataProvider.

(** ** stock_loader.py *)

Module StockDataLoader.
Section Loader.
(** The state of the outside world that a provider reads and changes
    (remote service, disk, clock). *)
Context {World : Type}.

(** The [DataProvider] interface, as far as the loader calls it. *)
Record DataProvider : Type :=
  { provider_get_data :
      MarketDataRequest → World → result MarketData * World }.

Record StockDataLoader : Type :=
  { providers : gmap string DataProvider; default_provider : string }.

(** What a run of the loader has done so far: the lines printed, the
    symbols [self.get_data] was called with (a ghost record of the
    calls, oldest first), and the world. *)
Record run_state : Type :=
  { stdout : list string; calls : list string; world : World }.

(** Computations that may raise and act on the run state. *)
Definition M (A : Type) : Type := run_state → result A * run_state.

Definition ret {A} (a : A) : M A := fun st => (Ok a, st).

Definition bind {A B} (m : M A) (k : A → M B) : M B := fun st =>
  match m st with
  | (Ok a, st') => k a st'
  | (Err e, st') => (Err e, st')
  end.

(** [try: m  except Exception as e: handler(e)] *)
Definition try_except {A} (m : M A) (handler : exn → M A) : M A :=
  fun st =>
    match m st with
    | (Ok a, st') => (Ok a, st')
    | (Err e, st') => handler e st'
    end.

Definition print (line : string) : M () := fun st =>
  (Ok (), {| stdout := stdout st ++ [line];
             calls := calls st; world := world st |}).

(** [provider or self.default_provider] *)
Definition or_default (provider : option string) (default : string)
    : string :=
  match provider with
  | Some p => if bool_decide (p = "") then default else p
  | None => default
  end.

Definition get_data (self : StockDataLoader) (symbol : string)
    (start_date end_date : option datetime) (frequency : DataFrequency)
    (provider : option string) (kwargs : gmap string pyval)
    : M MarketData := fun st =>
  let st := {| stdout := stdout st; calls := calls st ++ [symbol];
               world := world st |} in
  let provider_name := or_default provider (default_provider self) in
  match providers self !! provider_name with
  | None =>
      (Err (ValueError ("Provider '" +:+ provider_name +:+ "' not found")),
       st)
  | Some p =>
      match new_MarketDataRequest symbol start_date end_date frequency
              (Some kwargs) with
      | Err e => (Err e, st)
      | Ok request =>
          let '(r, w) := provider_get_data p request (world st) in
          (r, {| stdout := stdout st; calls := calls st; world := w |})
      end
  end.

(** The loop of [get_multiple_symbols] with its [results] dict. *)
Fixpoint fetch_each (self : StockDataLoader) (symbols : list string)
    (start_date end_date : option datetime) (frequency : DataFrequency)
    (provider : option string) (kwargs : gmap string pyval)
    (results : gmap string MarketData) : M (gmap string MarketData) :=
  match symbols with
  | [] => ret results
  | symbol :: rest =>
      bind
        (try_except
           (bind (get_data self symbol start_date end_date frequency
                    provider kwargs)
                 (fun data => ret (<[symbol := data]> results)))
           (fun e =>
              bind (print ("Error loading " +:+ symbol +:+ ": "
                           +:+ exn_str e))
                   (fun _ => ret results)))
        (fetch_each self rest start_date end_date frequency provider
           kwargs)
  end.

Definition get_multiple_symbols (self : StockDataLoader)
    (symbols : list string) (start_date end_date : option datetime)
    (frequency : DataFrequency) (provider : option string)
    (kwargs : gmap string pyval) : M (gmap string MarketData) :=
  fetch_each self symbols start_date end_date frequency provider kwargs ∅.

End Loader.
Arguments DataProvider : clear implicits.
Arguments StockDataLoader : clear implicits.
Arguments run_state : clear implicits.
End StockDataLoader.

(** ** Vocabulary of the statements *)

(** The characters of ["_" + freq.value]. *)
Definition code_suffix (f : DataFrequency) : list ascii :=
  PyStr.chars ("_" +:+ value f).

(** The sanitising of [generate_filename], character by character. *)
Definition safe_char (c : ascii) : ascii :=
  let c := if Ascii.eqb c "/"%char then "_"%char else c in
  let c := if Ascii.eqb c "\"%char then "_"%char else c in
  if Ascii.eqb c ":"%char then "_"%char else c.

Definition safe_symbol_chars (symbol : string) : list ascii :=
  map PyStr.lower_char (map safe_char (PyStr.chars symbol)).

(** The time of a datetime in nanoseconds since the epoch: its instant
    when it is aware, its wall-clock reading when it is naive. *)
Definition time_ns (d : datetime) : Z :=
  match tzinfo d with
  | Some tz => (instant tz d * 1000)%Z
  | None => (wall d * 1000)%Z
  end.

(** [lo <= t <= hi], each bound only when it is given. *)
Definition within (lo hi : option Z) (t : Z) : bool :=
  match lo with Some a => (a <=? t)%Z | None => true end
  && match hi with Some b => (t <=? b)%Z | None => true end.

(** The five-row daily series 2024-01-01 .. 2024-01-05 of the examples. *)
Definition ohlcv : list Column :=
  map (fun n => {| col_name := n; col_dtype := Float64 |}) required_columns.

Definition january (day : Z) : datetime := mk_datetime 2024 1 day 0 0 0 0 None.

Definition five_days : MarketData :=
  {| symbol := "TEST";
     data :=
       {| idx_dtype := Datetime64 None;
          df_columns := ohlcv;
          df_rows :=
            map (fun day => {| label := time_ns (january day);
                               cells := [100; 105; 95; 102; 1000]%Z |})
              [1; 2; 3; 4; 5]%Z |};
     metadata := None |}.

Definition utc : timezone := {| utcoffset_minutes := 0 |}.
Definition est : timezone := {| utcoffset_minutes := -300 |}.

(** The same five rows under an index in UTC. *)
Definition five_days_utc : MarketData :=
  {| symbol := symbol five_days;
     data := {| idx_dtype := Datetime64 (Some utc);
                df_columns := df_columns (data five_days);
                df_rows := df_rows (data five_days) |};
     metadata := None |}.

(** A table with a text index, a [price] column only, and a
    [pd.to_datetime] that rejects the index. *)
Definition price_only : MarketData :=
  {| symbol := "TEST";
     data := {| idx_dtype := Object;
                df_columns := [{| col_name := "price"; col_dtype := Float64 |}];
                df_rows := [{| label := 0; cells := [100%Z] |}] |};
     metadata := Some {["source" := VStr "test"]} |}.

Definition no_datetime (_ : dtype) (_ : list Z)
    : result (option timezone * list Z) :=
  Err (ValueError "Unknown datetime string format").

(** The message of the index error of [_prepare_data_for_save]. *)
Definition index_error_message : string :=
  "Cannot convert index to datetime. Data must have a datetime index or 'date'/'datetime' column.".

(** The index step of [_prepare_data_for_save] passes: the index is a
    [DatetimeIndex], or there is a [date] or [datetime] column, or
    [pd.to_datetime] accepts the index. *)
Definition index_ready
    (to_datetime : dtype → list Z → result (option timezone * list Z))
    (df : DataFrame) : bool :=
  is_datetime_index df || has_column "date" df || has_column "datetime" df
  || is_Ok (to_datetime (idx_dtype df) (map label (df_rows df))).

(** The required columns that a table lacks, in the order of
    [required_columns]. *)
Definition missing_columns (df : DataFrame) : list string :=
  List.filter (fun col => negb (has_column col df)) required_columns.

(** The file names that the first two stages of the file search probe, in
    the order in which they are probed. *)
Definition resolve_candidates (symbol : string)
    (frequency : option DataFrequency) : list string :=
  match frequency with
  | Some f => map (generate_filename symbol f) supported_formats
  | None => []
  end
  ++ flat_map
       (fun file_pattern =>
          map (fun extension => file_pattern +:+ extension) supported_formats)
       [PyStr.lower symbol; PyStr.upper symbol; symbol].

(** The file search as the specification words it: the first candidate
    that exists, in the stated order; failing that, the first entry of the
    directory scan that is a supported file and decodes to the upper-cased
    symbol. *)
Definition resolve_file_spec (fs : filesystem) (data_directory : string)
    (symbol : string) (frequency : option DataFrequency) : option string :=
  match listing fs with
  | None => None
  | Some entries =>
      match List.find (FileDataProvider.path_exists fs entries)
              (resolve_candidates symbol frequency) with
      | Some name => Some (FileDataProvider.joinpath data_directory name)
      | None =>
          FileDataProvider.joinpath data_directory ∘ d_name
            <$> List.find
                  (fun e =>
                     FileDataProvider.supported_file e
                     && bool_decide (fst (parse_filename (d_name e))
                                     = PyStr.upper symbol))
                  entries
      end
  end.



(** A symbol without a path separator. *)
Definition plain_symbol (symbol : string) : Prop :=
  Forall (fun c => c ≠ "/"%char) (PyStr.chars symbol).

(** A regular file of the given name. *)
Definition regular (name : string) : dirent :=
  {| d_name := name; d_is_file := true; d_mtime := 0; d_size := 0 |}.


(** Readers that find a one-row table and no metadata file. *)
Definition one_row : DataFrame :=
  {| idx_dtype := Datetime64 None;
     df_columns := ohlcv;
     df_rows := [{| label := time_ns (january 1);
                    cells := [100; 105; 95; 102; 1000]%Z |}] |}.

Definition read_one_row (_ : string) : result DataFrame := Ok one_row.
Definition no_json (_ : string) : option (gmap string pyval) := None.

(** A directory that lists the [.csv] file before the [.parquet] one. *)
Definition both_formats : filesystem :=
  {| listing :=
       Some [regular "aapl_1d.csv"; regular "aapl_1d.parquet";
             regular "aapl_1h.csv"; regular "MSFT.csv"; regular "notes.txt"];
     elsewhere := fun _ => false |}.


(** The order of the frequency codes as strings. *)
Definition code_le : DataFrequency → DataFrequency → Prop := key_le value.

(** The entry is a supported file that decodes to the symbol and the
    frequency. *)
Definition decodes (symbol : string) (f : DataFrequency) (e : dirent) : bool :=
  FileDataProvider.supported_file e
  && bool_decide (parse_filename (d_name e) = (symbol, Some f)).

(** The frequencies that one entry contributes to the time frames of a
    symbol. *)
Definition contribution (symbol_upper : string) (e : dirent)
    : list DataFrequency :=
  if FileDataProvider.supported_file e then
    match parse_filename (d_name e) with
    | (parsed_symbol, Some f) =>
        if bool_decide (parsed_symbol = symbol_upper) then [f] else []
    | (_, None) => []
    end
  else [].

(** Some entry is a supported file that decodes to the symbol. *)
Definition has_file (entries : list dirent) (symbol : string) : Prop :=
  ∃ e, e ∈ entries ∧ FileDataProvider.supported_file e = true
       ∧ fst (parse_filename (d_name e)) = symbol.

(** A directory with three frequencies of one symbol and a legacy file. *)
Definition three_frames : filesystem :=
  {| listing :=
       Some [regular "aapl_1m.csv"; regular "aapl_1h.csv";
             regular "aapl_1d.csv"; regular "aapl_1h.parquet";
             regular "legacy.csv"];
     elsewhere := fun _ => false |}.

(** The state of the index after the scan of [entries]: the keys are the
    decoded symbols, and the list of a symbol holds, once each, the
    frequencies of its files. *)
Definition index_of (entries : list dirent)
    (m : gmap string (list DataFrequency)) : Prop :=
  (∀ s, is_Some (m !! s) ↔ has_file entries s)
  ∧ (∀ s known, m !! s = Some known →
       NoDup known
       ∧ ∀ f, f ∈ known ↔ ∃ e, e ∈ entries ∧ decodes s f e = true).

(** *** The batch loader *)

Section LoaderVocabulary.
Context {World : Type}.
Import StockDataLoader.
Variable self : StockDataLoader.StockDataLoader World.
Variable start_date end_date : option datetime.
Variable frequency : DataFrequency.
Variable provider : option string.
Variable kwargs : gmap string pyval.

(** One call of [self.get_data] in a given world: its outcome and the
    world afterwards. *)
Definition call (symbol : string) (w : World) : result MarketData * World :=
  let '(r, st) :=
    get_data self symbol start_date end_date frequency provider kwargs
      {| stdout := []; calls := []; world := w |} in
  (r, world st).

(** The outcomes of the calls for a list of symbols, made one after the
    other, and the world after the last of them. *)
Fixpoint outcomes (symbols : list string) (w : World)
    : list (string * result MarketData) :=
  match symbols with
  | [] => []
  | symbol :: rest =>
      (symbol, fst (call symbol w)) :: outcomes rest (snd (call symbol w))
  end.

Fixpoint final_world (symbols : list string) (w : World) : World :=
  match symbols with
  | [] => w
  | symbol :: rest => final_world rest (snd (call symbol w))
  end.

End LoaderVocabulary.

(** The records of the successful outcomes, later ones over earlier ones. *)
Definition collect (outs : list (string * result MarketData))
    (results : gmap string MarketData) : gmap string MarketData :=
  foldl (fun m o =>
           match snd o with
           | Ok data => <[fst o := data]> m
           | Err _ => m
           end) results outs.

(** The lines printed for the failed outcomes. *)
Definition error_lines (outs : list (string * result MarketData))
    : list string :=
  flat_map (fun o =>
              match snd o with
              | Ok _ => []
              | Err e => ["Error loading " +:+ fst o +:+ ": " +:+ exn_str e]
              end) outs.

Definition succeeded (o : string * result MarketData) : bool := is_Ok (snd o).

(** A provider over a world without state that has no data for [BAD], and
    a loader with that provider as its default. *)
Definition stub_provider : StockDataLoader.DataProvider () :=
  {| StockDataLoader.provider_get_data := fun request w =>
       (if bool_decide (req_symbol request = "BAD")
        then Err (FileNotFoundError "no data")
        else Ok {| symbol := req_symbol request; data := one_row;
                   metadata := None |}, w) |}.

Definition stub_loader : StockDataLoader.StockDataLoader () :=
  {| StockDataLoader.providers := {["stub" := stub_provider]};
     StockDataLoader.default_provider := "stub" |}.

Definition fresh_run : StockDataLoader.run_state () :=
  {| StockDataLoader.stdout := []; StockDataLoader.calls := [];
     StockDataLoader.world := () |}.

(** A record as the loaders build it: its index is a [DatetimeIndex] and
    its symbol is not empty. *)
Definition loaded (md : MarketData) : Prop :=
  is_datetime_index (data md) = true ∧ symbol md ≠ "".

(** Every symbol has one outcome, however often it is called. *)
Definition symbol_determined (outs : list (string * result MarketData))
    : Prop :=
  ∀ s r1 r2, (s, r1) ∈ outs → (s, r2) ∈ outs → r1 = r2.

(** The file provider as a [DataProvider]: the world is the disk, which a
    fetch leaves as it is. *)
Definition file_provider (data_directory : string) (now : datetime)
    : StockDataLoader.DataProvider filesystem :=
  {| StockDataLoader.provider_get_data := fun request fs =>
       (FileDataProvider.get_data no_datetime read_one_row read_one_row
          no_json fs data_directory now request, fs) |}.

Definition file_loader : StockDataLoader.StockDataLoader filesystem :=
  {| StockDataLoader.providers := {["file" := file_provider "data" (january 9)]};
     StockDataLoader.default_provider := "file" |}.

(** * Further code of the repository *)

(** ** base.py: the codec beyond the round trip *)

(** [symbol.replace('/', '_').replace('\\', '_').replace(':', '_')], the
    [safe_symbol] of [generate_filename]. *)
Definition safe_symbol (symbol : string) : string :=
  PyStr.replace_char ":"%char "_"%char
    (PyStr.replace_char "\"%char "_"%char
       (PyStr.replace_char "/"%char "_"%char symbol)).

(** ** file_provider.py: [list_files] *)

(** [FileDataProvider.list_files]: the dict starts with an empty list for
    each supported format, so the key of every [append] is present. *)
Definition list_files (fs : filesystem) (data_directory : string)
    : gmap string (list string) :=
  let files_by_format : gmap string (list string) :=
    list_to_map ((fun ext => (ext, [])) <$> supported_formats) in
  match listing fs with
  | None => files_by_format
  | Some entries =>
      foldl (fun files_by_format e =>
               if FileDataProvider.supported_file e
               then alter
                      (fun l => l ++ [FileDataProvider.joinpath data_directory
                                        (d_name e)])
                      (PyStr.lower (PyPath.suffix (d_name e))) files_by_format
               else files_by_format) files_by_format entries
  end.

(** The supported files of a format, in scan order. *)
Definition files_of_format (extension : string) (entries : list dirent)
    : list dirent :=
  List.filter
    (fun e => FileDataProvider.supported_file e
              && bool_decide (PyStr.lower (PyPath.suffix (d_name e)) = extension))
    entries.

(** The metadata keys that [_filter_by_date_range] and
    [_add_provider_metadata] write. *)
Definition filter_keys : list string :=
  ["filtered"; "filter_start_date"; "filter_end_date"; "original_rows";
   "filtered_rows"].

Definition provider_keys : list string :=
  ["provider"; "source_file"; "frequency"; "loaded_at"].

(** A sidecar as a record fetched from Yahoo and saved leaves it. *)
Definition yahoo_sidecar (_ : string) : option (gmap string pyval) :=
  Some (<["provider" := VStr "Yahoo Finance"]>
          (<["sector" := VStr "Technology"]> ∅)).

Definition january_request : MarketDataRequest :=
  {| req_symbol := "AAPL";
     start_date := Some (january 1);
     end_date := None;
     frequency := DAILY;
     provider_specific_params := None |}.

(** ** base.py: what a save leaves on the disk *)

(** The order of [sort_index]. *)
Definition label_le (a b : Row) : Prop := (label a ≤ label b)%Z.

(** [filepath.with_suffix('.metadata.json')] *)
Definition metadata_path (filepath : string) : string :=
  PyPath.with_suffix filepath ".metadata.json".

(** A reader of JSON files that agrees with a store: it returns what
    [json.dump] wrote (values of type [pyval] come back from JSON as they
    went in) and finds no file where the store has none. *)
Definition reads_json (read_json : string → option (gmap string pyval))
    (disk : gmap string file) : Prop :=
  ∀ p, match disk !! p with
       | Some (FJson m) => read_json p = Some m
       | Some _ => True
       | None => read_json p = None
       end.

(** The JSON files of a store. *)
Definition json_of (disk : gmap string file) (p : string)
    : option (gmap string pyval) :=
  match disk !! p with
  | Some (FJson m) => Some m
  | _ => None
  end.

(** The five rows of [five_days], latest first. *)
Definition five_days_reversed : MarketData :=
  {| symbol := "TEST";
     data := {| idx_dtype := Datetime64 None;
                df_columns := ohlcv;
                df_rows := rev (df_rows (data five_days)) |};
     metadata := Some {["source" := VStr "test"]} |}.

(** What a successful save of [md] at [filepath] leaves: the prepared
    table at [filepath], the metadata beside it when there are any (an
    older metadata file stays when there are none), and every other path
    as it was. *)
Definition save_leaves
    (to_datetime : dtype → list Z → result (option timezone * list Z))
    (as_file : DataFrame → file) (md : MarketData) (filepath : string)
    (disk disk' : gmap string file) : Prop :=
  ∃ df, _prepare_data_for_save to_datetime md = Ok df
    ∧ disk' !! filepath = Some (as_file df)
    ∧ disk' !! metadata_path filepath
      = (if truthy_dict (metadata md) then FJson <$> metadata md
         else disk !! metadata_path filepath)
    ∧ ∀ q, q ≠ filepath → q ≠ metadata_path filepath →
           disk' !! q = disk !! q.

(** ** stock_loader.py: the registry and the file operations *)

Module LoaderOps.
Import StockDataLoader.

Section Registry.
Context {World : Type}.

(** [YahooFinanceProvider()] and [FileDataProvider(data_directory)] as
    the loader holds them. *)
Variable new_YahooFinanceProvider : DataProvider World.
Variable new_FileDataProvider : string → DataProvider World.

(** [StockDataLoader.__init__], for a [data_directory] that is a [str] or
    [None]; the empty string is false. *)
Definition new_StockDataLoader (data_directory : option string)
    : StockDataLoader World :=
  let providers : gmap string (DataProvider World) :=
    {["yahoo" := new_YahooFinanceProvider]} in
  let providers :=
    match data_directory with
    | Some d =>
        if bool_decide (d = "") then providers
        else <["file" := new_FileDataProvider d]> providers
    | None => providers
    end in
  {| providers := providers; default_provider := "yahoo" |}.

Definition add_provider (self : StockDataLoader World) (name : string)
    (provider : DataProvider World) : StockDataLoader World :=
  {| providers := <[name := provider]> (providers self);
     default_provider := default_provider self |}.

Definition set_default_provider (self : StockDataLoader World)
    (provider_name : string) : result (StockDataLoader World) :=
  match providers self !! provider_name with
  | None => Err (ValueError ("Provider '" +:+ provider_name +:+ "' not found"))
  | Some _ =>
      Ok {| providers := providers self; default_provider := provider_name |}
  end.

Definition add_file_provider (self : StockDataLoader World)
    (data_directory : string) : StockDataLoader World :=
  {| providers := <["file" := new_FileDataProvider data_directory]>
                    (providers self);
     default_provider := default_provider self |}.

(** The loaders that the constructor and these methods produce. *)
Inductive built : StockDataLoader World → Prop :=
  | built_new data_directory : built (new_StockDataLoader data_directory)
  | built_add_provider self name provider :
      built self → built (add_provider self name provider)
  | built_set_default_provider self provider_name self' :
      built self → set_default_provider self provider_name = Ok self' →
      built self'
  | built_add_file_provider self data_directory :
      built self → built (add_file_provider self data_directory).

End Registry.

Section Files.
Variable to_datetime : dtype → list Z → result (option timezone * list Z).
Variable read_parquet : string → result DataFrame.
Variable read_csv : string → result DataFrame.
Variable read_json : string → option (gmap string pyval).
(** The exception that [data_dir.mkdir(exist_ok=True)] raises, if it
    raises; the call writes no file. *)
Variable mkdir : string → option exn.

Definition save_data (market_data : MarketData) (filepath format : string)
    (disk : gmap string file) : result unit * gmap string file :=
  let format_lower := PyStr.lower format in
  if bool_decide (format_lower = "parquet")
  then save_to_parquet to_datetime market_data filepath disk
  else if bool_decide (format_lower = "csv")
  then save_to_csv to_datetime market_data filepath disk
  else (Err (ValueError ("Unsupported format: " +:+ format
                         +:+ ". Use 'parquet' or 'csv'.")), disk).

Definition save_data_with_timeframe (market_data : MarketData)
    (data_directory : string) (frequency : DataFrequency) (format : string)
    (disk : gmap string file) : result string * gmap string file :=
  match mkdir data_directory with
  | Some e => (Err e, disk)
  | None =>
      let extension :=
        if bool_decide (PyStr.lower format = "parquet")
        then ".parquet" else ".csv" in
      let filename :=
        generate_filename (symbol market_data) frequency extension in
      let filepath := FileDataProvider.joinpath data_directory filename in
      match save_data market_data filepath format disk with
      | (Ok _, disk) => (Ok filepath, disk)
      | (Err e, disk) => (Err e, disk)
      end
  end.

Definition load_from_file (filepath : string) (symbol : option string)
    : result MarketData :=
  let file_extension := PyStr.lower (PyPath.suffix filepath) in
  if bool_decide (file_extension = ".parquet")
  then load_from_parquet to_datetime read_parquet read_json filepath symbol
  else if bool_decide (file_extension = ".csv")
  then load_from_csv to_datetime read_csv read_json filepath symbol
  else Err (ValueError ("Unsupported file format: " +:+ file_extension
                        +:+ ". Use .parquet or .csv files.")).

End Files.
End LoaderOps.

(** The directory [data_directory] of a file system shows the files of a
    store: a name without a separator is listed exactly when the store
    has a file at [data_directory / name]. *)
Definition shows (fs : filesystem) (data_directory : string)
    (disk : gmap string file) : Prop :=
  ∃ entries, listing fs = Some entries
    ∧ ∀ name, plain_symbol name →
        ((∃ e, e ∈ entries ∧ d_name e = name)
         ↔ is_Some (disk !! FileDataProvider.joinpath data_directory name)).

(** A metadata dict has no usable [symbol]: there is no dict, or an empty
    one, or one without that key. *)
Definition no_symbol_key (metadata : option (gmap string pyval)) : Prop :=
  match metadata with
  | Some m => m !! "symbol" = None
  | None => True
  end.

Definition mkdir_ok (_ : string) : option exn := None.

(** The data directory after [five_days] has been saved into it as
    [.csv]. *)
Definition saved_directory : filesystem :=
  {| listing := Some [regular "test_1d.csv"]; elsewhere := fun _ => false |}.

(** ** yahoo.py *)

Module YahooFinanceProvider.

Definition provider_name : string := "Yahoo Finance".

(** A dict literal as the list of its items, and [d.get(key, default)]. *)
Fixpoint dict_get {K V : Type} `{EqDecision K} (d : list (K * V)) (key : K)
    (default : V) : V :=
  match d with
  | [] => default
  | (k, v) :: rest => if decide (k = key) then v else dict_get rest key default
  end.

Definition FREQUENCY_MAPPING : list (DataFrequency * string) :=
  [(MINUTE_1, "1m"); (MINUTE_5, "5m"); (MINUTE_15, "15m"); (MINUTE_30, "30m");
   (HOUR_1, "1h"); (DAILY, "1d"); (WEEKLY, "1wk"); (MONTHLY, "1mo")].

Definition column_mapping : list (string * string) :=
  [("Open", "open"); ("High", "high"); ("Low", "low"); ("Close", "close");
   ("Volume", "volume"); ("Adj Close", "adj_close")].

(** [data.rename(columns=column_mapping)]: a label that is no key of the
    mapping stays. *)
Definition rename_columns (df : DataFrame) : DataFrame :=
  {| idx_dtype := idx_dtype df;
     df_columns :=
       map (fun x => {| col_name := dict_get column_mapping (col_name x)
                                      (col_name x);
                        col_dtype := col_dtype x |}) (df_columns df);
     df_rows := df_rows df |}.

(** [data[col] = None] for a label that [data] does not have: a new last
    column of dtype [object]; [none_cell] is the code of [None]. *)
Definition add_column (none_cell : Z) (col : string) (df : DataFrame)
    : DataFrame :=
  {| idx_dtype := idx_dtype df;
     df_columns := df_columns df ++ [{| col_name := col; col_dtype := Object |}];
     df_rows :=
       map (fun r => {| label := label r; cells := cells r ++ [none_cell] |})
         (df_rows df) |}.

(** The positions of the columns with a given label, counted from [k]. *)
Fixpoint positions (c : string) (cols : list Column) (k : nat) : list nat :=
  match cols with
  | [] => []
  | x :: t =>
      (if bool_decide (col_name x = c) then [k] else [])
      ++ positions c t (S k)
  end.

(** [data[names]] for labels that [data] has: for each label in turn, every
    column that carries it. *)
Definition select_columns (names : list string) (df : DataFrame)
    : DataFrame :=
  let ks := flat_map (fun c => positions c (df_columns df) 0) names in
  {| idx_dtype := idx_dtype df;
     df_columns := omap (fun k => df_columns df !! k) ks;
     df_rows :=
       map (fun r => {| label := label r;
                        cells := map (fun k => nth k (cells r) 0%Z) ks |})
         (df_rows df) |}.

Definition _standardize_columns (none_cell : Z) (data : DataFrame)
    : DataFrame :=
  let data := rename_columns data in
  let data :=
    foldl (fun data col =>
             if has_column col data then data
             else add_column none_cell col data) data required_columns in
  select_columns
    (if has_column "adj_close" data then required_columns ++ ["adj_close"]
     else required_columns) data.

(** [data.empty]: one of the axes has length 0. *)
Definition empty (df : DataFrame) : bool :=
  bool_decide (df_rows df = []) || bool_decide (df_columns df = []).

(** [d - timedelta(days=n)]; a result before [datetime.min] is an
    [OverflowError]. *)
Definition minus_days (d : datetime) (n : Z) : result datetime :=
  let w := (wall d - n * 86400000000)%Z in
  if (w <? wall (mk_datetime 1 1 1 0 0 0 0 None))%Z
  then Err (OtherError "date value out of range")
  else Ok {| wall := w; tzinfo := tzinfo d |}.

Section Provider.
(** What the embedding takes from [yfinance] and the clock:
    [yf.Ticker(symbol).history(start, end, interval, auto_adjust=True,
    prepost=True)], [yf.Ticker(symbol).info], [datetime.now()], and the
    code of [None] in a cell. *)
Variable history : string → datetime → datetime → string → result DataFrame.
Variable info : string → result (gmap string pyval).
Variable now : datetime.
Variable none_cell : Z.

(** The body of the [try] of [get_data]. *)
Definition fetch (request : MarketDataRequest) : result MarketData :=
  let end_date := default now (end_date request) in
  start_date ←
    match start_date request with
    | Some d => Ok d
    | None => minus_days end_date 365
    end;
  let interval := dict_get FREQUENCY_MAPPING (frequency request) "1d" in
  data ← history (req_symbol request) start_date end_date interval;
  if empty data
  then Err (ValueError ("No data found for symbol " +:+ req_symbol request))
  else
    let data := _standardize_columns none_cell data in
    info ← info (req_symbol request);
    let metadata : gmap string pyval :=
      <["industry" := default (VStr "") (info !! "industry")]>
        (<["sector" := default (VStr "") (info !! "sector")]>
           (<["company_name" := default (VStr "") (info !! "longName")]>
              (<["rows_count" := VInt (Z.of_nat (len data))]>
                 (<["end_date" := VStr (isoformat end_date)]>
                    (<["start_date" := VStr (isoformat start_date)]>
                       (<["frequency" := VStr (value (frequency request))]>
                          (<["symbol" := VStr (req_symbol request)]>
                             (<["provider" := VStr provider_name]> ∅)))))))) in
    new_MarketData (req_symbol request) data (Some metadata).

(** [get_data]: the outcome and the lines that [self.logger.error]
    writes; an exception is logged and raised again. *)
Definition get_data (request : MarketDataRequest)
    : result MarketData * list string :=
  match fetch request with
  | Ok market_data => (Ok market_data, [])
  | Err e =>
      (Err e, ["Error fetching data for " +:+ req_symbol request +:+ ": "
               +:+ exn_str e])
  end.

Definition validate_symbol (symbol : string) : bool :=
  match info symbol with
  | Ok info =>
      bool_decide (is_Some (info !! "symbol"))
      || bool_decide (is_Some (info !! "shortName"))
  | Err _ => false
  end.

Definition get_available_symbols : result (list string) :=
  Err (OtherError "Yahoo Finance doesn't provide symbol listing endpoint").

End Provider.
End YahooFinanceProvider.

(** A table as [yfinance] returns it for one day. *)
Definition yahoo_raw : DataFrame :=
  {| idx_dtype := Datetime64 (Some est);
     df_columns :=
       map (fun n => {| col_name := n; col_dtype := Float64 |})
         ["Open"; "High"; "Low"; "Close"; "Volume"; "Dividends";
          "Stock Splits"];
     df_rows := [{| label := time_ns (january 2);
                    cells := [100; 105; 95; 102; 1000; 0; 0]%Z |}] |}.

Definition yahoo_history (_ : string) (_ _ : datetime) (_ : string)
    : result DataFrame := Ok yahoo_raw.

Definition yahoo_info (_ : string) : result (gmap string pyval) :=
  Ok {["longName" := VStr "Apple Inc."]}.

Definition four_hour_request : MarketDataRequest :=
  {| req_symbol := "AAPL";
     start_date := None;
     end_date := Some (january 9);
     frequency := HOUR_4;
     provider_specific_params := None |}.

(** [five_days] with its symbol in the metadata. *)
Definition tagged_days : MarketData :=
  {| symbol := "TEST";
     data := data five_days;
     metadata := Some {["symbol" := VStr "TEST"]} |}.

Definition tagged_disk : gmap string file :=
  snd (LoaderOps.save_data_with_timeframe no_datetime mkdir_ok tagged_days
         "data" DAILY "parquet" ∅).
(** * Properties *)

(** Membership in a list that is written out. *)
Ltac in_list := repeat first [apply list_elem_of_here | apply list_elem_of_further].
Ltac not_in_list :=
  rewrite ?not_elem_of_cons; repeat split;
  first [apply not_elem_of_nil | discriminate | congruence].

(** ** Strings as character lists *)

Section StringFacts.
Import PyStr.

Lemma chars_str (l : list ascii) : chars (str l) = l.
Proof. apply String.list_ascii_of_string_of_list_ascii. Qed.

Lemma str_chars (s : string) : str (chars s) = s.
Proof. apply String.string_of_list_ascii_of_string. Qed.

Lemma chars_app (a b : string) : chars (a +:+ b) = chars a ++ chars b.
Proof. induction a as [|c a IH]; simpl; [done | by rewrite IH]. Qed.

Lemma chars_inj (a b : string) : chars a = chars b → a = b.
Proof. intros H. by rewrite <- (str_chars a), <- (str_chars b), H. Qed.

Lemma length_chars (s : string) : length (chars s) = String.length s.
Proof. induction s as [|c s IH]; simpl; [done | by rewrite IH]. Qed.

Lemma upper_lower_char (c : ascii) :
  upper_char (lower_char c) = upper_char c.
Proof. by destruct c as [[] [] [] [] [] [] [] []]. Qed.

Lemma upper_upper_char (c : ascii) :
  upper_char (upper_char c) = upper_char c.
Proof. by destruct c as [[] [] [] [] [] [] [] []]. Qed.

Lemma is_space_upper_char (c : ascii) :
  is_space (upper_char c) = is_space c.
Proof. by destruct c as [[] [] [] [] [] [] [] []]. Qed.

Lemma path_hostile_upper_char (c : ascii) :
  path_hostile (upper_char c) = path_hostile c.
Proof. by destruct c as [[] [] [] [] [] [] [] []]. Qed.

Lemma upper_lower (s : string) : upper (lower s) = upper s.
Proof.
  unfold upper, lower. rewrite chars_str, map_map. f_equal.
  apply map_ext. intros c. apply upper_lower_char.
Qed.

Lemma upper_upper (s : string) : upper (upper s) = upper s.
Proof.
  unfold upper. rewrite chars_str, map_map. f_equal.
  apply map_ext. intros c. apply upper_upper_char.
Qed.

Lemma replace_char_absent (a b : ascii) (s : string) :
  Forall (fun c => Ascii.eqb c a = false) (chars s) →
  replace_char a b s = s.
Proof.
  intros H. unfold replace_char. rewrite <- (str_chars s) at 2. f_equal.
  induction H as [|c l Hc _ IH]; simpl; [done|]. by rewrite Hc, IH.
Qed.

(** Stripping commutes with upper-casing and is idempotent. *)
Lemma lstrip_map_upper (l : list ascii) :
  lstrip_chars (map upper_char l) = map upper_char (lstrip_chars l).
Proof.
  induction l as [|c l IH]; simpl; [done|].
  rewrite is_space_upper_char. by destruct (is_space c).
Qed.

Lemma rstrip_map_upper (l : list ascii) :
  rstrip_chars (map upper_char l) = map upper_char (rstrip_chars l).
Proof.
  induction l as [|c l IH]; simpl; [done|].
  rewrite IH, is_space_upper_char.
  destruct (rstrip_chars l); simpl; [by destruct (is_space c) | done].
Qed.

Lemma rstrip_rstrip (l : list ascii) :
  rstrip_chars (rstrip_chars l) = rstrip_chars l.
Proof.
  induction l as [|c l IH]; simpl; [done|].
  destruct (rstrip_chars l) as [|d t] eqn:E.
  - destruct (is_space c) eqn:Hc; simpl; [done | by rewrite Hc].
  - change (rstrip_chars (c :: d :: t)) with
      (match rstrip_chars (d :: t) with
       | [] => if is_space c then [] else [c]
       | t' => c :: t' end).
    by rewrite IH.
Qed.

(** A list that starts with a visible character keeps its head under
    [rstrip_chars]. *)
Lemma rstrip_head (c : ascii) (l : list ascii) :
  is_space c = false → ∃ t, rstrip_chars (c :: l) = c :: t.
Proof.
  intros Hc. simpl. rewrite Hc. destruct (rstrip_chars l); eauto.
Qed.

Lemma lstrip_head (l : list ascii) :
  lstrip_chars l = [] ∨
  ∃ c t, lstrip_chars l = c :: t ∧ is_space c = false.
Proof.
  induction l as [|c l IH]; simpl; [by left|].
  destruct (is_space c) eqn:Hc; [done|]. right. eauto.
Qed.

Lemma lstrip_rstrip_lstrip (l : list ascii) :
  lstrip_chars (rstrip_chars (lstrip_chars l)) = rstrip_chars (lstrip_chars l).
Proof.
  destruct (lstrip_head l) as [-> | (c & t & -> & Hc)]; [done|].
  destruct (rstrip_head c t Hc) as [t' ->]. simpl. by rewrite Hc.
Qed.

Lemma strip_strip (s : string) : strip (strip s) = strip s.
Proof.
  unfold strip. rewrite chars_str. f_equal.
  by rewrite lstrip_rstrip_lstrip, rstrip_rstrip.
Qed.

Lemma strip_upper (s : string) : strip (upper s) = upper (strip s).
Proof.
  unfold strip, upper. rewrite !chars_str. f_equal.
  by rewrite lstrip_map_upper, rstrip_map_upper.
Qed.

Lemma upper_empty (s : string) : upper s = "" ↔ s = "".
Proof.
  split; [|by intros ->].
  unfold upper. destruct s; [done | discriminate].
Qed.

End StringFacts.

Lemma normalize_idempotent (s : string) : normalize (normalize s) = normalize s.
Proof.
  unfold normalize. by rewrite strip_upper, strip_strip, upper_upper.
Qed.

(** ** The filename codec *)

Section CodecFacts.
Import PyStr PyPath.

Lemma endswith_spec (s suffix : string) :
  endswith s suffix = true ↔ ∃ p, chars s = p ++ chars suffix.
Proof.
  unfold endswith. rewrite andb_true_iff, Nat.leb_le, bool_decide_eq_true.
  split.
  - intros [Hle Hdrop].
    exists (take (length (chars s) - length (chars suffix)) (chars s)).
    etrans; [symmetry; apply (take_drop (length (chars s) - length (chars suffix)))|].
    by rewrite Hdrop.
  - intros [p ->]. rewrite length_app. split; [lia|].
    replace (length p + length (chars suffix) - length (chars suffix))%nat
      with (length p) by lia.
    by rewrite drop_app_length.
Qed.

Lemma drop_last_app (p k : list ascii) :
  drop_last (length k) (str (p ++ k)) = str p.
Proof.
  unfold drop_last. rewrite chars_str, length_app. f_equal.
  replace (length p + length k - length k)%nat with (length p) by lia.
  by rewrite take_app_length.
Qed.

(** No frequency suffix ends with another one: the codes hold no
    underscore. *)
Lemma code_suffix_unique (f g : DataFrequency) (x p : list ascii) :
  x ++ code_suffix f = p ++ code_suffix g → f = g.
Proof.
  intros H. apply (f_equal (@rev ascii)) in H.
  rewrite !rev_app_distr in H.
  remember (rev x) as rx. remember (rev p) as rp.
  destruct f, g; try reflexivity; vm_compute in H; discriminate.
Qed.

Lemma parse_stem_hit (x : list ascii) (f : DataFrequency)
    (freqs : list DataFrequency) :
  f ∈ freqs →
  parse_stem (str (x ++ code_suffix f)) freqs = (upper (str x), Some f).
Proof.
  induction freqs as [|g rest IH]; intros Hin; [by apply not_elem_of_nil in Hin|].
  cbn [parse_stem].
  destruct (endswith (str (x ++ code_suffix f)) ("_" +:+ value g)) eqn:E.
  - apply endswith_spec in E as [p Hp]. rewrite chars_str in Hp.
    apply code_suffix_unique in Hp as <-.
    rewrite <- length_chars. fold (code_suffix f).
    by rewrite drop_last_app.
  - apply IH. apply elem_of_cons in Hin as [-> | Hin]; [|done].
    exfalso. apply not_true_iff_false in E. apply E.
    apply endswith_spec. exists x. by rewrite chars_str.
Qed.

Lemma all_frequencies_complete (f : DataFrequency) : f ∈ all_frequencies.
Proof. unfold all_frequencies. destruct f; in_list. Qed.

(** Names without a separator are their own last component. *)
Lemma split_sep_plain (l cur : list ascii) :
  Forall (fun c => c ≠ "/"%char) l → split_sep l cur = [rev cur ++ l].
Proof.
  revert cur. induction l as [|c l IH]; intros cur H; simpl.
  - by rewrite app_nil_r.
  - apply Forall_cons in H as [Hc H].
    destruct (Ascii.eqb_spec c "/"%char) as [->|_]; [done|].
    rewrite IH by done. simpl. by rewrite <- app_assoc.
Qed.

Lemma name_plain (s : string) :
  Forall (fun c => c ≠ "/"%char) (chars s) → s ≠ "" → s ≠ "." →
  name s = s.
Proof.
  intros H Hne Hdot. unfold name. rewrite split_sep_plain by done.
  change (rev [] ++ chars s) with (chars s).
  assert (kept_part (chars s) = true) as Hkept.
  { unfold kept_part.
    rewrite (bool_decide_eq_false_2 (chars s = [])).
    2: { intros E. apply Hne. apply chars_inj. by rewrite E. }
    rewrite (bool_decide_eq_false_2 (chars s = ["."%char])); [done|].
    intros E. apply Hdot. apply chars_inj. by rewrite E. }
  simpl. rewrite Hkept. simpl. apply str_chars.
Qed.

Lemma rfind_dot_none (e : list ascii) :
  Forall (fun c => c ≠ "."%char) e → rfind_dot e = None.
Proof.
  induction 1 as [|c e Hc _ IH]; simpl; [done|]. rewrite IH.
  by destruct (Ascii.eqb_spec c "."%char).
Qed.

Lemma rfind_dot_app (p e : list ascii) :
  Forall (fun c => c ≠ "."%char) e →
  rfind_dot (p ++ "."%char :: e) = Some (length p).
Proof.
  intros He. induction p as [|c p IH]; simpl.
  - by rewrite rfind_dot_none.
  - by rewrite IH.
Qed.

(** Stem and suffix of [p + "." + e] for a non-empty [p] and a
    non-empty, dot-free [e]. *)
Lemma stem_suffix_of_name (p e : list ascii) :
  p ≠ [] → e ≠ [] → Forall (fun c => c ≠ "."%char) e →
  stem_of_name (str (p ++ "."%char :: e)) = str p
  ∧ suffix_of_name (str (p ++ "."%char :: e)) = str ("."%char :: e).
Proof.
  intros Hp He Hdot. unfold stem_of_name, suffix_of_name.
  rewrite chars_str, rfind_dot_app by done.
  assert (0 < length p)%nat by (destruct p; simpl; [done | lia]).
  assert (0 < length e)%nat by (destruct e; simpl; [done | lia]).
  assert ((0 <? length p)%nat = true) as -> by by apply Nat.ltb_lt.
  assert ((length p <? length (p ++ "."%char :: e) - 1)%nat = true) as ->.
  { apply Nat.ltb_lt. rewrite length_app. simpl. lia. }
  simpl. by rewrite take_app_length, drop_app_length.
Qed.

Lemma generate_filename_chars (symbol : string) (f : DataFrequency)
    (extension : string) :
  chars (generate_filename symbol f extension)
  = (safe_symbol_chars symbol ++ code_suffix f) ++ chars extension.
Proof.
  unfold generate_filename, lower, replace_char, safe_symbol_chars, code_suffix.
  rewrite !chars_app, !chars_str, !map_map. simpl.
  rewrite <- !app_assoc. by simpl.
Qed.

Lemma lower_safe_char_plain (c : ascii) :
  lower_char (safe_char c) ≠ "/"%char.
Proof. by destruct c as [[] [] [] [] [] [] [] []]. Qed.

Lemma safe_char_id (c : ascii) : path_hostile c = false → safe_char c = c.
Proof. by destruct c as [[] [] [] [] [] [] [] []]. Qed.

Lemma safe_symbol_plain (symbol : string) :
  Forall (fun c => c ≠ "/"%char) (safe_symbol_chars symbol).
Proof.
  unfold safe_symbol_chars. rewrite map_map. apply Forall_map.
  apply Forall_true. intros c. apply lower_safe_char_plain.
Qed.

Lemma code_suffix_plain (f : DataFrequency) :
  Forall (fun c => c ≠ "/"%char) (code_suffix f).
Proof. destruct f; vm_compute; repeat constructor; discriminate. Qed.

Lemma supported_extension (extension : string) :
  extension ∈ supported_formats →
  ∃ e, chars extension = "."%char :: e ∧ e ≠ []
       ∧ Forall (fun c => c ≠ "."%char) e
       ∧ Forall (fun c => c ≠ "/"%char) e.
Proof.
  unfold supported_formats. intros H.
  apply elem_of_cons in H as [-> | H];
    [|apply elem_of_cons in H as [-> | H]; [|by apply not_elem_of_nil in H]];
    eexists; (split; [reflexivity|]);
    (split; [discriminate|]); split; repeat constructor; discriminate.
Qed.

Lemma generate_filename_plain (symbol : string) (f : DataFrequency)
    (extension : string) :
  extension ∈ supported_formats →
  Forall (fun c => c ≠ "/"%char)
    (chars (generate_filename symbol f extension)).
Proof.
  intros (e & He & _ & _ & Hplain)%supported_extension.
  rewrite generate_filename_chars, He.
  apply Forall_app_2; [apply Forall_app_2|];
    auto using safe_symbol_plain, code_suffix_plain.
Qed.

(** Decoding an encoded name: the stem is the sanitised symbol with the
    frequency suffix, and the loop stops at that frequency. *)
Lemma parse_generate (symbol : string) (f : DataFrequency)
    (extension : string) :
  extension ∈ supported_formats →
  parse_filename (generate_filename symbol f extension)
  = (upper (str (map safe_char (chars symbol))), Some f).
Proof.
  intros Hext.
  pose proof (generate_filename_plain symbol f _ Hext) as Hplain.
  destruct (supported_extension _ Hext) as (e & He & Hne & Hdot & _).
  pose proof (generate_filename_chars symbol f extension) as Hc.
  rewrite He in Hc.
  assert (safe_symbol_chars symbol ++ code_suffix f ≠ []) as Hp.
  { intros [_ E]%app_eq_nil. by destruct f. }
  assert (∀ t, chars t = [] ∨ chars t = ["."%char] →
               generate_filename symbol f extension ≠ t) as Hlong.
  { intros t Ht E. rewrite E in Hc. apply (f_equal length) in Hc.
    rewrite length_app in Hc. simpl in Hc.
    destruct (safe_symbol_chars symbol ++ code_suffix f); [done|].
    simpl in Hc.
    destruct Ht as [Ht|Ht]; rewrite Ht in Hc; simpl in Hc; lia. }
  unfold parse_filename, stem.
  rewrite name_plain; [|done|apply Hlong; by left|apply Hlong; by right].
  rewrite <- (str_chars (generate_filename _ _ _)), Hc.
  rewrite (proj1 (stem_suffix_of_name _ _ Hp Hne Hdot)).
  rewrite parse_stem_hit by apply all_frequencies_complete.
  unfold safe_symbol_chars, upper. rewrite !chars_str, map_map.
  do 2 f_equal. apply map_ext. intros c. apply upper_lower_char.
Qed.

Lemma safe_chars_id (s : string) :
  no_path_hostile s → map safe_char (chars s) = chars s.
Proof.
  unfold no_path_hostile. induction 1 as [|c l Hc _ IH]; simpl; [done|].
  by rewrite safe_char_id, IH.
Qed.

Lemma no_path_hostile_upper (s : string) :
  no_path_hostile (upper s) ↔ no_path_hostile s.
Proof.
  unfold no_path_hostile, upper. rewrite chars_str, Forall_map.
  apply Forall_iff. intros c. simpl. by rewrite path_hostile_upper_char.
Qed.

End CodecFacts.




(** ** Request validation *)

Lemma validate_symbol_ok (v : string) :
  PyStr.strip v ≠ "" → validate_symbol v = Ok (normalize v).
Proof.
  intros H. unfold validate_symbol, normalize.
  rewrite bool_decide_eq_false_2 by (by intros ->).
  rewrite bool_decide_eq_false_2; [done|]. by rewrite upper_empty.
Qed.

Lemma validate_symbol_blank (v : string) :
  PyStr.strip v = "" → ∃ msg, validate_symbol v = Err (ValueError msg).
Proof.
  intros H. unfold validate_symbol. case_bool_decide; [eauto|].
  rewrite H. simpl. eauto.
Qed.

Lemma strip_normalize_nonempty (v : string) :
  PyStr.strip v ≠ "" → PyStr.strip (normalize v) ≠ "".
Proof.
  intros H. unfold normalize.
  rewrite strip_upper, strip_strip. by rewrite upper_empty.
Qed.

(** C8: constructing a request trims and upper-cases the symbol
    (["  aapl  "] gives ["AAPL"]); the symbol of a constructed request is
    left unchanged by a second normalization (["AAPL"] stays ["AAPL"]);
    construction succeeds exactly when the symbol is not blank, and fails
    with a validation error when the symbol is empty or blank after
    trimming. *)
Theorem request_symbol_normalization (v : string)
    (start_date end_date : option datetime) (f : DataFrequency)
    (params : option (gmap string pyval)) :
  (req_symbol <$> new_MarketDataRequest "  aapl  " start_date end_date f params)
    = Ok "AAPL"
  ∧ validate_symbol "AAPL" = Ok "AAPL"
  ∧ (PyStr.strip v ≠ "" →
       ∃ q, new_MarketDataRequest v start_date end_date f params = Ok q
            ∧ req_symbol q = PyStr.upper (PyStr.strip v)
            ∧ validate_symbol (req_symbol q) = Ok (req_symbol q))
  ∧ (PyStr.strip v = "" →
       ∃ msg, new_MarketDataRequest v start_date end_date f params
              = Err (ValidationError msg)).
Proof.
  split; [reflexivity|]. split; [reflexivity|]. split.
  - intros H. unfold new_MarketDataRequest.
    rewrite validate_symbol_ok by done. eexists. split; [reflexivity|].
    simpl. split; [reflexivity|].
    rewrite validate_symbol_ok by by apply strip_normalize_nonempty.
    by rewrite normalize_idempotent.
  - intros H. unfold new_MarketDataRequest.
    destruct (validate_symbol_blank v H) as [msg ->]. eauto.
Qed.

Lemma request_symbol_normalization_witness :
  (∃ q, new_MarketDataRequest " msft " None None DAILY None = Ok q
        ∧ req_symbol q = PyStr.upper (PyStr.strip " msft ")
        ∧ validate_symbol (req_symbol q) = Ok (req_symbol q))
  ∧ (∃ msg, new_MarketDataRequest "   " None None DAILY None
            = Err (ValidationError msg)).
Proof.
  split.
  - apply (request_symbol_normalization " msft " None None DAILY None).
    vm_compute. discriminate.
  - apply (request_symbol_normalization "   " None None DAILY None).
    reflexivity.
Defined.

(** ** The date-range filter *)

Section FilterFacts.
Import FileDataProvider.

Lemma datetime_index_dtype (df : DataFrame) :
  is_datetime_index df = true → ∃ tz, idx_dtype df = Datetime64 tz.
Proof. unfold is_datetime_index. destruct (idx_dtype df); eauto; done. Qed.

Lemma index_key_matched (df : DataFrame) (tz : option timezone)
    (d : datetime) :
  idx_dtype df = Datetime64 tz →
  index_key df (match_index_tz df d) = Ok (time_ns (match_index_tz df d)).
Proof.
  intros H. unfold index_key, match_index_tz, index_tz, time_ns.
  rewrite H. by destruct d as [w [own|]], tz.
Qed.

Lemma match_index_tz_select (keep : Z → bool) (df : DataFrame)
    (d : datetime) :
  match_index_tz (select_rows keep df) d = match_index_tz df d.
Proof. reflexivity. Qed.

Lemma within_spec (lo hi : option Z) (t : Z) :
  within lo hi t = true ↔
  (∀ a, lo = Some a → (a ≤ t)%Z) ∧ (∀ b, hi = Some b → (t ≤ b)%Z).
Proof.
  unfold within. rewrite andb_true_iff.
  destruct lo as [a|], hi as [b|]; rewrite ?Z.leb_le; split;
    intros [H1 H2]; (split; [try done|try done]);
    try (intros ? [= <-]; done); auto.
Qed.

Lemma filter_filter {A} (f g : A → bool) (l : list A) :
  List.filter g (List.filter f l) = List.filter (fun x => f x && g x) l.
Proof.
  induction l as [|x l IH]; simpl; [done|].
  destruct (f x); simpl; [|done]. destruct (g x); by rewrite IH.
Qed.

(** The rows kept by the two selections, as one selection. *)
Lemma select_within (lo hi : option Z) (rows : list Row) :
  List.filter
    (fun r : Row =>
       match hi with Some b => (label r <=? b)%Z | None => true end)
    (List.filter
       (fun r : Row =>
          match lo with Some a => (a <=? label r)%Z | None => true end)
       rows)
  = List.filter (fun r : Row => within lo hi (label r)) rows.
Proof. apply filter_filter. Qed.

(** What [_filter_by_date_range] returns on a record with a
    [DatetimeIndex] and a non-empty symbol. *)
Lemma filter_by_date_range_ok (md : MarketData) (tz : option timezone)
    (start_date end_date : option datetime) :
  idx_dtype (data md) = Datetime64 tz →
  symbol md ≠ "" →
  let start' := match_index_tz (data md) <$> start_date in
  let end' := match_index_tz (data md) <$> end_date in
  let kept :=
    List.filter
      (fun r : Row => within (time_ns <$> start') (time_ns <$> end') (label r))
      (df_rows (data md)) in
  _filter_by_date_range md start_date end_date
  = Ok {| symbol := symbol md;
          data := {| idx_dtype := idx_dtype (data md);
                     df_columns := df_columns (data md);
                     df_rows := kept |};
          metadata :=
            Some (<["filtered_rows" := VInt (Z.of_nat (length kept))]>
                 (<["original_rows" := VInt (Z.of_nat (len (data md)))]>
                 (<["filter_end_date" := iso_or_none end']>
                 (<["filter_start_date" := iso_or_none start']>
                 (<["filtered" := VBool true]>
                    (if truthy_dict (metadata md)
                     then default ∅ (metadata md) else ∅)))))) |}.
Proof.
  intros Hidx Hsym. cbv zeta. unfold _filter_by_date_range.
  unfold new_MarketData. rewrite bool_decide_eq_false_2 by done.
  destruct start_date as [s|], end_date as [e|]; simpl;
    unfold index_ge, index_le;
    rewrite ?match_index_tz_select;
    rewrite ?(index_key_matched _ tz) by done; simpl;
    rewrite ?(index_key_matched _ tz) by done; simpl;
    unfold len; simpl.
  - by rewrite <- (select_within (Some _) (Some _)).
  - rewrite <- (select_within (Some _) None). simpl. by rewrite filter_true.
  - rewrite <- (select_within None (Some _)). simpl. by rewrite filter_true.
  - rewrite <- (select_within None None). simpl. rewrite !filter_true.
    by destruct (data md).
Qed.

End FilterFacts.

(** The loaders build loaded records. *)
Lemma create_from_loaded_data_loaded
    (to_datetime : dtype → list Z → result (option timezone * list Z))
    (read_json : string → option (gmap string pyval))
    (df : DataFrame) (filepath : string) (sym : option string)
    (md : MarketData) :
  _create_from_loaded_data to_datetime read_json df filepath sym = Ok md →
  loaded md.
Proof.
  unfold _create_from_loaded_data, loaded, new_MarketData.
  destruct (is_datetime_index df) eqn:Hdf; simpl.
  - destruct (match sym with Some s => VStr s | None => _ end); try done.
    case_bool_decide; [done|]. by intros [= <-].
  - destruct (to_datetime _ _) as [idx|]; simpl; [|done].
    destruct (match sym with Some s => VStr s | None => _ end); try done.
    case_bool_decide; [done|]. by intros [= <-].
Qed.

Lemma load_from_parquet_loaded
    (to_datetime : dtype → list Z → result (option timezone * list Z))
    (read_parquet : string → result DataFrame)
    (read_json : string → option (gmap string pyval))
    (filepath : string) (sym : option string) (md : MarketData) :
  load_from_parquet to_datetime read_parquet read_json filepath sym = Ok md →
  loaded md.
Proof.
  unfold load_from_parquet. destruct (read_parquet filepath); simpl; [|done].
  apply create_from_loaded_data_loaded.
Qed.

Lemma load_from_csv_loaded
    (to_datetime : dtype → list Z → result (option timezone * list Z))
    (read_csv : string → result DataFrame)
    (read_json : string → option (gmap string pyval))
    (filepath : string) (sym : option string) (md : MarketData) :
  load_from_csv to_datetime read_csv read_json filepath sym = Ok md →
  loaded md.
Proof.
  unfold load_from_csv. destruct (read_csv filepath); simpl; [|done].
  apply create_from_loaded_data_loaded.
Qed.

(** C3: on a loaded series (a record with a [DatetimeIndex] and a
    non-empty symbol, as [load_from_parquet] and [load_from_csv] build it)
    [_filter_by_date_range] returns a record that keeps,
    in order, exactly the rows whose time is [>=] the effective start bound
    (when a start is given) and [<=] the effective end bound (when an end
    is given); its metadata holds [filtered = True], the ISO text of the
    effective bounds ([None] for an absent bound), the original row count
    and the filtered row count. On the five daily rows 2024-01-01 ..
    2024-01-05 with start 01-02 and end 01-04 the rows 01-02, 01-03, 01-04
    are kept, with [original_rows = 5] and [filtered_rows = 3]. *)
Theorem date_filter_inclusive (md : MarketData)
    (start_date end_date : option datetime) :
  loaded md →
  let start' := FileDataProvider.match_index_tz (data md) <$> start_date in
  let end' := FileDataProvider.match_index_tz (data md) <$> end_date in
  (∃ out meta,
     FileDataProvider._filter_by_date_range md start_date end_date = Ok out
     ∧ symbol out = symbol md
     ∧ df_rows (data out)
       = List.filter
           (fun r : Row =>
              within (time_ns <$> start') (time_ns <$> end') (label r))
           (df_rows (data md))
     ∧ (∀ r, r ∈ df_rows (data out) ↔
             r ∈ df_rows (data md)
             ∧ (∀ s, start' = Some s → (time_ns s ≤ label r)%Z)
             ∧ (∀ e, end' = Some e → (label r ≤ time_ns e)%Z))
     ∧ metadata out = Some meta
     ∧ meta !! "filtered" = Some (VBool true)
     ∧ meta !! "filter_start_date" = Some (iso_or_none start')
     ∧ meta !! "filter_end_date" = Some (iso_or_none end')
     ∧ meta !! "original_rows" = Some (VInt (Z.of_nat (len (data md))))
     ∧ meta !! "filtered_rows" = Some (VInt (Z.of_nat (len (data out)))))
  ∧ (∃ out meta,
       FileDataProvider._filter_by_date_range five_days
         (Some (january 2)) (Some (january 4)) = Ok out
       ∧ map label (df_rows (data out))
         = map time_ns [january 2; january 3; january 4]
       ∧ metadata out = Some meta
       ∧ meta !! "filtered" = Some (VBool true)
       ∧ meta !! "original_rows" = Some (VInt 5)
       ∧ meta !! "filtered_rows" = Some (VInt 3)
       ∧ meta !! "filter_start_date" = Some (VStr "2024-01-02T00:00:00")
       ∧ meta !! "filter_end_date" = Some (VStr "2024-01-04T00:00:00")).
Proof.
  intros [[tz Hidx]%datetime_index_dtype Hsym] start' end'. split.
  - eexists _, _. split; [by apply (filter_by_date_range_ok md tz)|].
    cbn [symbol data metadata df_rows].
    split; [done|]. split; [done|]. split.
    { intros r. rewrite !list_elem_of_In, filter_In, within_spec.
      subst start' end'.
      destruct start_date as [s0|], end_date as [e0|]; simpl;
        (split; intros (Hin & Hlo & Hhi); (split; [done|]); split;
         intros ? [= <-] || (intros ? [=]); auto). }
    split; [done|]. unfold len. cbn [df_rows].
    repeat split; by simplify_map_eq.
  - eexists _, _. split; [vm_compute; reflexivity|].
    split; [vm_compute; reflexivity|]. split; [reflexivity|].
    repeat split; by vm_compute.
Qed.

Lemma date_filter_inclusive_witness :
  ∃ out,
    FileDataProvider._filter_by_date_range five_days (Some (january 3)) None
    = Ok out
    ∧ df_rows (data out)
      = List.filter
          (fun r : Row => within (Some (time_ns (january 3))) None (label r))
          (df_rows (data five_days)).
Proof.
  destruct (date_filter_inclusive five_days (Some (january 3)) None)
    as [(out & meta & H1 & _ & H2 & _) _]; [by split|].
  exists out. split; [exact H1 | exact H2].
Defined.

(** C4: on a loaded series, the bound that [_filter_by_date_range]
    filters with and records is the given bound reconciled with the time
    zone of the index. When the
    index has a time zone and the bound is naive, the zone is attached and
    the wall-clock reading is kept; when the index is naive and the bound
    is aware, the zone is dropped and the reading is kept; when both carry
    a zone, the bound is converted: it denotes the same instant, read in
    the zone of the index. *)
Theorem timezone_reconciliation (md : MarketData)
    (start_date end_date : option datetime) :
  loaded md →
  let itz := index_tz (data md) in
  let adjust := FileDataProvider.match_index_tz (data md) in
  (∃ out meta,
     FileDataProvider._filter_by_date_range md start_date end_date = Ok out
     ∧ df_rows (data out)
       = List.filter
           (fun r : Row =>
              within (time_ns ∘ adjust <$> start_date)
                     (time_ns ∘ adjust <$> end_date) (label r))
           (df_rows (data md))
     ∧ metadata out = Some meta
     ∧ meta !! "filter_start_date" = Some (iso_or_none (adjust <$> start_date))
     ∧ meta !! "filter_end_date" = Some (iso_or_none (adjust <$> end_date)))
  ∧ ∀ d : datetime,
      (∀ tz, itz = Some tz → tzinfo d = None →
             adjust d = {| wall := wall d; tzinfo := Some tz |})
      ∧ (∀ own, itz = None → tzinfo d = Some own →
                adjust d = {| wall := wall d; tzinfo := None |})
      ∧ (∀ tz own, itz = Some tz → tzinfo d = Some own →
                   tzinfo (adjust d) = Some tz
                   ∧ instant tz (adjust d) = instant own d
                   ∧ wall (adjust d)
                     = (wall d - offset_us own + offset_us tz)%Z)
      ∧ (itz = None → tzinfo d = None → adjust d = d).
Proof.
  intros [[tz Hidx]%datetime_index_dtype Hsym] itz adjust.
  assert (itz = tz) as Hitz by (subst itz; unfold index_tz; by rewrite Hidx).
  clearbody itz. subst tz. split.
  - eexists _, _. split; [by apply (filter_by_date_range_ok md itz)|].
    cbn [data metadata df_rows]. split.
    { by destruct start_date, end_date. }
    split; [done|]. split; by simplify_map_eq.
  - intros d. subst adjust. unfold FileDataProvider.match_index_tz, index_tz.
    rewrite Hidx. split; [|split; [|split]].
    + by intros tz -> ->.
    + by intros own -> ->.
    + intros tz own -> ->. unfold instant, astimezone. simpl.
      split; [done|]. split; [lia | done].
    + by intros -> ->.
Qed.

Lemma timezone_reconciliation_witness :
  FileDataProvider.match_index_tz (data five_days_utc) (january 2)
  = {| wall := wall (january 2); tzinfo := Some utc |}
  ∧ instant utc
      (FileDataProvider.match_index_tz (data five_days_utc)
         (mk_datetime 2024 1 1 19 0 0 0 (Some est)))
    = instant est (mk_datetime 2024 1 1 19 0 0 0 (Some est)).
Proof.
  destruct (timezone_reconciliation five_days_utc None None)
    as [_ H]; [by split|].
  split.
  - apply (H (january 2)); reflexivity.
  - apply (H (mk_datetime 2024 1 1 19 0 0 0 (Some est))) with (own := est);
      reflexivity.
Defined.

(** ** Saving a record *)

Section SaveFacts.
Variable to_datetime : dtype → list Z → result (option timezone * list Z).

Lemma delete_column_names (k : string) (cols : list Column) (i : nat)
    (c : string) :
  column_position k cols = Some i → c ≠ k →
  c ∈ map col_name (delete i cols) ↔ c ∈ map col_name cols.
Proof.
  revert i. induction cols as [|x cols IH]; intros i; simpl; [done|].
  case_bool_decide as Hx.
  - intros [= <-] Hc. simpl. rewrite elem_of_cons.
    split; [by right|]. intros [E|E]; [|done]. by rewrite <- Hx in Hc.
  - destruct (column_position k cols) as [j|] eqn:E; simpl; [|done].
    intros [= <-] Hc. simpl. rewrite !elem_of_cons.
    by rewrite (IH j eq_refl Hc).
Qed.

Lemma has_column_set_index (k c : string) (df : DataFrame) :
  c ≠ k → has_column c (set_index k df) = has_column c df.
Proof.
  intros Hc. unfold has_column, set_index, columns.
  destruct (column_position k (df_columns df)) as [i|] eqn:E; [|done].
  simpl. apply bool_decide_ext. by apply (delete_column_names k).
Qed.

Lemma missing_columns_set_index (k : string) (df : DataFrame) :
  k ∉ required_columns →
  missing_columns (set_index k df) = missing_columns df.
Proof.
  intros Hk. unfold missing_columns. apply filter_ext_in.
  intros c Hc. rewrite has_column_set_index; [done|].
  intros ->. by apply Hk, list_elem_of_In.
Qed.

Lemma missing_columns_spec (df : DataFrame) (c : string) :
  c ∈ missing_columns df ↔ c ∈ required_columns ∧ c ∉ columns df.
Proof.
  unfold missing_columns, has_column.
  rewrite list_elem_of_In, filter_In, <- list_elem_of_In.
  rewrite negb_true_iff, bool_decide_eq_false. tauto.
Qed.

(** The outcome of [_prepare_data_for_save] on a table that lacks a
    required column. *)
Lemma prepare_rejects (md : MarketData) :
  missing_columns (data md) ≠ [] →
  _prepare_data_for_save to_datetime md
  = Err (ValueError
           (if index_ready to_datetime (data md)
            then "Missing required columns: "
                 +:+ PyStr.repr_list (missing_columns (data md))
            else index_error_message)).
Proof.
  intros Hmiss. unfold _prepare_data_for_save, index_ready.
  assert (∀ df, missing_columns df = missing_columns (data md) →
            (if bool_decide
                  (List.filter (fun col => negb (has_column col df))
                     required_columns = [])
             then Ok (sort_index df)
             else Err (ValueError
                         ("Missing required columns: "
                          +:+ PyStr.repr_list
                                (List.filter
                                   (fun col => negb (has_column col df))
                                   required_columns))))
            = Err (ValueError
                     ("Missing required columns: "
                      +:+ PyStr.repr_list (missing_columns (data md)))))
    as Hcheck.
  { intros df Hdf. fold (missing_columns df). rewrite Hdf.
    by rewrite bool_decide_eq_false_2. }
  destruct (is_datetime_index (data md)); simpl; [by apply Hcheck|].
  destruct (has_column "date" (data md)); simpl.
  { apply Hcheck, missing_columns_set_index.
    unfold required_columns. not_in_list. }
  destruct (has_column "datetime" (data md)); simpl.
  { apply Hcheck, missing_columns_set_index.
    unfold required_columns. not_in_list. }
  destruct (to_datetime _ _); simpl; [by apply Hcheck | done].
Qed.

End SaveFacts.

(** C7, as amended: saving a record whose table lacks at least one of
    [open], [high], [low], [close], [volume] fails with a [ValueError] in
    [save_to_parquet] and in [save_to_csv], and the store is left as it
    was: no data file and no metadata file is written. When the index step
    passes (a [DatetimeIndex], a [date] or [datetime] column, or an index
    that converts) the error names exactly the missing columns, in the
    order of the required list. *)
Theorem save_rejects_missing_columns
    (to_datetime : dtype → list Z → result (option timezone * list Z))
    (md : MarketData) (filepath : string) (disk : gmap string file) :
  (∃ c, c ∈ required_columns ∧ c ∉ columns (data md)) →
  (∃ msg,
     save_to_parquet to_datetime md filepath disk = (Err (ValueError msg), disk)
     ∧ save_to_csv to_datetime md filepath disk = (Err (ValueError msg), disk)
     ∧ (index_ready to_datetime (data md) = true →
        msg = "Missing required columns: "
              +:+ PyStr.repr_list (missing_columns (data md))))
  ∧ (∀ c, c ∈ missing_columns (data md) ↔
          c ∈ required_columns ∧ c ∉ columns (data md)).
Proof.
  intros (c & Hreq & Hc).
  assert (missing_columns (data md) ≠ []) as Hmiss.
  { intros E. assert (c ∈ missing_columns (data md)) as Hin
      by by apply missing_columns_spec.
    rewrite E in Hin. by apply not_elem_of_nil in Hin. }
  split; [|apply missing_columns_spec].
  eexists. unfold save_to_parquet, save_to_csv.
  rewrite (prepare_rejects to_datetime md Hmiss).
  split; [reflexivity|]. split; [reflexivity|]. by intros ->.
Qed.

Lemma save_rejects_missing_columns_witness :
  ∃ msg,
    save_to_parquet no_datetime
      {| symbol := "TEST";
         data := {| idx_dtype := Datetime64 None;
                    df_columns :=
                      [{| col_name := "open"; col_dtype := Float64 |};
                       {| col_name := "close"; col_dtype := Float64 |}];
                    df_rows := [] |};
         metadata := None |} "out/test_1d.parquet" ∅
    = (Err (ValueError msg), ∅)
    ∧ msg = "Missing required columns: ['high', 'low', 'volume']".
Proof.
  destruct (save_rejects_missing_columns no_datetime
              {| symbol := "TEST";
                 data := {| idx_dtype := Datetime64 None;
                            df_columns :=
                              [{| col_name := "open"; col_dtype := Float64 |};
                               {| col_name := "close"; col_dtype := Float64 |}];
                            df_rows := [] |};
                 metadata := None |} "out/test_1d.parquet" ∅)
    as [(msg & H1 & _ & H3) _].
  { exists "high". split; [unfold required_columns; in_list|].
    unfold columns. simpl. not_in_list. }
  exists msg. split; [exact H1|]. by rewrite H3.
Defined.

(** C7, as stated, fails on a table whose index does not convert: the
    index step raises first, and its message names no column. *)
Lemma save_index_error_first :
  "open" ∈ required_columns
  ∧ ("open" ∉ columns (data price_only))
  ∧ save_to_parquet no_datetime price_only "out/test_1d.parquet" ∅
    = (Err (ValueError index_error_message), ∅)
  ∧ save_to_csv no_datetime price_only "out/test_1d.csv" ∅
    = (Err (ValueError index_error_message), ∅)
  ∧ index_error_message
    ≠ ("Missing required columns: "
       +:+ PyStr.repr_list (missing_columns (data price_only))).
Proof.
  split; [unfold required_columns; in_list|].
  split; [unfold columns; simpl; not_in_list|].
  split; [reflexivity|]. split; [reflexivity|]. vm_compute. discriminate.
Qed.

(** ** The file search *)

Section ResolveFacts.
Import FileDataProvider.
Variable fs : filesystem.
Variable data_directory : string.

Lemma contains_char_plain (s : string) :
  Forall (fun c => c ≠ "/"%char) (PyStr.chars s) →
  PyStr.contains_char "/" s = false.
Proof.
  unfold PyStr.contains_char.
  induction 1 as [|c l Hc _ IH]; cbn [existsb]; [done|].
  rewrite IH, orb_false_r. apply Ascii.eqb_neq. by intros <-.
Qed.

Lemma path_exists_plain (entries : list dirent) (name : string) :
  Forall (fun c => c ≠ "/"%char) (PyStr.chars name) →
  path_exists fs entries name = bool_decide (name ∈ map d_name entries).
Proof.
  intros H. unfold path_exists. rewrite contains_char_plain by done.
  induction entries as [|e entries IH]; simpl; [done|]. rewrite IH.
  rewrite <- bool_decide_or. apply bool_decide_ext. rewrite elem_of_cons.
  split; (intros [E|E]; [left; by rewrite E | by right]).
Qed.

Lemma find_app {A} (p : A → bool) (a b : list A) :
  List.find p (a ++ b)
  = match List.find p a with Some x => Some x | None => List.find p b end.
Proof. induction a as [|x a IH]; simpl; [done|]. by destruct (p x). Qed.

Lemma probe_exact_find (entries : list dirent) (symbol : string)
    (f : DataFrequency) (formats : list string) :
  probe_exact fs data_directory entries symbol f formats
  = joinpath data_directory
      <$> List.find (path_exists fs entries)
            (map (generate_filename symbol f) formats).
Proof.
  induction formats as [|x formats IH]; simpl; [done|].
  by destruct (path_exists fs entries (generate_filename symbol f x)).
Qed.

Lemma probe_formats_find (entries : list dirent) (base : string)
    (formats : list string) :
  probe_formats fs data_directory entries base formats
  = joinpath data_directory
      <$> List.find (path_exists fs entries)
            (map (fun extension => base +:+ extension) formats).
Proof.
  induction formats as [|x formats IH]; simpl; [done|].
  by destruct (path_exists fs entries (base +:+ x)).
Qed.

Lemma probe_patterns_find (entries : list dirent) (patterns : list string) :
  probe_patterns fs data_directory entries patterns
  = joinpath data_directory
      <$> List.find (path_exists fs entries)
            (flat_map
               (fun file_pattern =>
                  map (fun extension => file_pattern +:+ extension)
                    supported_formats)
               patterns).
Proof.
  induction patterns as [|x patterns IH]; [done|].
  cbn [probe_patterns flat_map]. rewrite find_app, probe_formats_find.
  destruct (List.find _ (map _ supported_formats)); [done|]. apply IH.
Qed.

Lemma scan_for_symbol_find (symbol_upper : string) (entries : list dirent) :
  scan_for_symbol data_directory symbol_upper entries
  = joinpath data_directory ∘ d_name
      <$> List.find
            (fun e =>
               supported_file e
               && bool_decide (fst (parse_filename (d_name e)) = symbol_upper))
            entries.
Proof.
  induction entries as [|e entries IH]; simpl; [done|].
  by destruct (supported_file e && _).
Qed.

(** The three loops of [_find_file_for_symbol] return the first match of
    the enumeration. *)
Lemma find_file_refines (symbol : string) (frequency : option DataFrequency) :
  _find_file_for_symbol fs data_directory symbol frequency
  = resolve_file_spec fs data_directory symbol frequency.
Proof.
  unfold _find_file_for_symbol, resolve_file_spec, resolve_candidates.
  destruct (listing fs) as [entries|]; [|done].
  rewrite find_app, probe_patterns_find, scan_for_symbol_find.
  destruct frequency as [f|].
  - rewrite probe_exact_find.
    destruct (List.find _ (map (generate_filename symbol f) _)); [done|].
    by destruct (List.find _ (flat_map _ _)).
  - change ([] ++ ?l) with l. by destruct (List.find _ (flat_map _ _)).
Qed.

End ResolveFacts.







(** ** Missing directory and missing file *)

Section NotFoundFacts.
Import FileDataProvider.

Lemma lower_char_plain (c : ascii) :
  c ≠ "/"%char → PyStr.lower_char c ≠ "/"%char.
Proof. destruct c as [[] [] [] [] [] [] [] []]; intros H; vm_compute; congruence. Qed.

Lemma upper_char_plain (c : ascii) :
  c ≠ "/"%char → PyStr.upper_char c ≠ "/"%char.
Proof. destruct c as [[] [] [] [] [] [] [] []]; intros H; vm_compute; congruence. Qed.

Lemma lower_plain (s : string) :
  plain_symbol s → plain_symbol (PyStr.lower s).
Proof.
  unfold plain_symbol, PyStr.lower. rewrite chars_str, Forall_map.
  intros H. eapply Forall_impl; [exact H|]. intros c. apply lower_char_plain.
Qed.

Lemma upper_plain (s : string) :
  plain_symbol s → plain_symbol (PyStr.upper s).
Proof.
  unfold plain_symbol, PyStr.upper. rewrite chars_str, Forall_map.
  intros H. eapply Forall_impl; [exact H|]. intros c. apply upper_char_plain.
Qed.

Lemma append_extension_plain (base extension : string) :
  plain_symbol base → extension ∈ supported_formats →
  plain_symbol (base +:+ extension).
Proof.
  intros Hb (e & He & _ & _ & Hplain)%supported_extension.
  unfold plain_symbol. rewrite chars_app, He.
  apply Forall_app_2; [done|]. by constructor.
Qed.

Lemma resolve_candidates_plain (symbol : string)
    (frequency : option DataFrequency) (name : string) :
  plain_symbol symbol →
  name ∈ resolve_candidates symbol frequency →
  plain_symbol name.
Proof.
  intros Hs. unfold resolve_candidates. rewrite elem_of_app. intros [H|H].
  - destruct frequency as [f|]; [|by apply not_elem_of_nil in H].
    apply list_elem_of_fmap in H as (ext & -> & Hext).
    by apply generate_filename_plain.
  - apply list_elem_of_In, in_flat_map in H as (pat & Hpat & H).
    apply list_elem_of_In, list_elem_of_fmap in H as (ext & -> & Hext).
    apply append_extension_plain; [|done].
    simpl in Hpat. destruct Hpat as [<-|[<-|[<-|[]]]];
      auto using lower_plain, upper_plain.
Qed.




End NotFoundFacts.




(** ** Sorting by a string key *)

Section SortedFacts.
Context {A : Type} (key : A → string).

Lemma insert_by_perm (x : A) (l : list A) :
  Permutation (insert_by key x l) (x :: l).
Proof.
  induction l as [|y l IH]; simpl; [done|].
  destruct (String.leb (key x) (key y)); [done|].
  rewrite IH. apply perm_swap.
Qed.

Lemma py_sorted_perm (l : list A) : Permutation (py_sorted key l) l.
Proof.
  induction l as [|x l IH]; simpl; [done|].
  fold (py_sorted key l). by rewrite insert_by_perm, IH.
Qed.

Lemma insert_by_hd (x a : A) (l : list A) :
  (key_le key) a x → HdRel (key_le key) a l → HdRel (key_le key) a (insert_by key x l).
Proof.
  intros Hax Hl. destruct l as [|y l]; simpl; [by constructor|].
  destruct (String.leb (key x) (key y)); constructor; [done|].
  by inversion Hl.
Qed.

Lemma insert_by_sorted (x : A) (l : list A) :
  Sorted (key_le key) l → Sorted (key_le key) (insert_by key x l).
Proof.
  induction 1 as [|y l Hl IH Hhd]; simpl; [by repeat constructor|].
  destruct (String.leb (key x) (key y)) eqn:E.
  - constructor; [by constructor|]. by constructor.
  - constructor; [done|]. apply insert_by_hd; [|done].
    unfold key_le. by destruct (String.leb_total (key x) (key y)) as [H|H];
      [rewrite H in E|].
Qed.

Lemma py_sorted_sorted (l : list A) : Sorted (key_le key) (py_sorted key l).
Proof.
  induction l as [|x l IH]; simpl; [constructor|].
  by apply insert_by_sorted.
Qed.

End SortedFacts.

(** ** The catalog of time frames *)

Section CatalogFacts.
Import FileDataProvider.

Lemma timeframes_scan (symbol_upper : string) (entries : list dirent)
    (acc : list DataFrequency) :
  foldl (fun timeframes e =>
           if supported_file e then
             let '(parsed_symbol, parsed_frequency) :=
               parse_filename (d_name e) in
             match parsed_frequency with
             | Some f =>
                 if bool_decide (parsed_symbol = symbol_upper)
                 then timeframes ++ [f] else timeframes
             | None => timeframes
             end
           else timeframes) acc entries
  = acc ++ flat_map (contribution symbol_upper) entries.
Proof.
  revert acc. induction entries as [|e entries IH]; intros acc; simpl.
  - by rewrite app_nil_r.
  - rewrite IH. unfold contribution.
    destruct (supported_file e); [|done].
    destruct (parse_filename (d_name e)) as [ps [f|]]; [|done].
    case_bool_decide; [|done]. by rewrite <- app_assoc.
Qed.

Lemma count_contributions (symbol_upper : string) (f : DataFrequency)
    (entries : list dirent) :
  count_occ DataFrequency_eq_dec
    (flat_map (contribution symbol_upper) entries) f
  = length (List.filter (decodes symbol_upper f) entries).
Proof.
  induction entries as [|e entries IH]; simpl; [done|].
  rewrite count_occ_app, IH. unfold contribution, decodes.
  destruct (supported_file e); simpl; [|done].
  destruct (parse_filename (d_name e)) as [ps [g|]]; simpl.
  - destruct (decide (ps = symbol_upper)) as [->|Hps].
    + rewrite (bool_decide_eq_true_2 (symbol_upper = symbol_upper)) by done.
      simpl. destruct (DataFrequency_eq_dec g f) as [->|Hg].
      * by rewrite bool_decide_eq_true_2.
      * rewrite bool_decide_eq_false_2; [done | congruence].
    + rewrite (bool_decide_eq_false_2 (ps = symbol_upper)) by done.
      rewrite bool_decide_eq_false_2; [done | congruence].
  - by rewrite bool_decide_eq_false_2.
Qed.

Lemma two_members {B} (x y : B) (l : list B) :
  x ∈ l → y ∈ l → x ≠ y → (2 ≤ length l)%nat.
Proof.
  intros Hx Hy Hne. destruct l as [|a [|b l]]; simpl; [|..|lia].
  - by apply not_elem_of_nil in Hx.
  - apply list_elem_of_singleton in Hx, Hy. congruence.
Qed.

Lemma timeframes_count (fs : filesystem) (entries : list dirent)
    (symbol : string) (f : DataFrequency) :
  listing fs = Some entries →
  count_occ DataFrequency_eq_dec (get_available_timeframes fs symbol) f
  = length (List.filter (decodes (PyStr.upper symbol) f) entries).
Proof.
  intros Hls. unfold get_available_timeframes. rewrite Hls.
  rewrite timeframes_scan. simpl.
  rewrite <- count_contributions.
  revert f. apply Permutation_count_occ, py_sorted_perm.
Qed.

(** A canonical name with a supported extension is a supported file name
    that decodes to the sanitised symbol. *)
Lemma suffix_generate (symbol : string) (f : DataFrequency)
    (extension : string) :
  extension ∈ supported_formats →
  PyPath.suffix (generate_filename symbol f extension) = extension.
Proof.
  intros Hext.
  pose proof (generate_filename_plain symbol f _ Hext) as Hplain.
  destruct (supported_extension _ Hext) as (e & He & Hne & Hdot & _).
  pose proof (generate_filename_chars symbol f extension) as Hc.
  rewrite He in Hc.
  assert (safe_symbol_chars symbol ++ code_suffix f ≠ []) as Hp.
  { intros [_ E]%app_eq_nil. by destruct f. }
  unfold PyPath.suffix. rewrite name_plain; [|done|..].
  - rewrite <- (str_chars (generate_filename _ _ _)), Hc.
    rewrite (proj2 (stem_suffix_of_name _ _ Hp Hne Hdot)).
    by rewrite <- He, str_chars.
  - intros E. rewrite E in Hc.
    by destruct (safe_symbol_chars symbol ++ code_suffix f).
  - intros E. rewrite E in Hc.
    destruct (safe_symbol_chars symbol ++ code_suffix f) as [|a [|b q]];
      [done|..]; simpl in Hc; injection Hc as _ Hc; by destruct e.
Qed.

Lemma canonical_decodes (symbol : string) (f : DataFrequency)
    (extension : string) (e : dirent) :
  extension ∈ supported_formats →
  no_path_hostile symbol →
  d_name e = generate_filename symbol f extension →
  d_is_file e = true →
  decodes (PyStr.upper symbol) f e = true.
Proof.
  intros Hext Hs Hname Hfile. unfold decodes, supported_file.
  rewrite Hfile, Hname, suffix_generate, parse_generate by done.
  rewrite safe_chars_id, str_chars by done.
  rewrite (bool_decide_eq_true_2 (_ = _)) by done.
  assert (PyStr.lower extension = extension) as ->.
  { unfold supported_formats in Hext.
    apply elem_of_cons in Hext as [->|Hext]; [done|].
    apply elem_of_cons in Hext as [->|Hext]; [done|].
    by apply not_elem_of_nil in Hext. }
  by rewrite bool_decide_eq_true_2.
Qed.

End CatalogFacts.

(** ** The symbol and time frame index *)

Section IndexFacts.
Import FileDataProvider.

(** What one turn of the scan does to the entry of a symbol. *)
Lemma add_combination_lookup (m : gmap string (list DataFrequency))
    (e : dirent) (s : string) :
  add_combination m e !! s
  = if supported_file e && bool_decide (fst (parse_filename (d_name e)) = s)
    then
      let known := default [] (m !! s) in
      Some match snd (parse_filename (d_name e)) with
           | Some f => if bool_decide (f ∈ known) then known else known ++ [f]
           | None => known
           end
    else m !! s.
Proof.
  unfold add_combination. destruct (supported_file e); [|done].
  destruct (parse_filename (d_name e)) as [s0 fr]. simpl.
  destruct (decide (s0 = s)) as [->|Hne].
  - rewrite bool_decide_eq_true_2 by done.
    destruct (m !! s) as [known|] eqn:E; simpl.
    + rewrite E. simpl. destruct fr as [f|]; [|done].
      case_bool_decide; [done|]. by rewrite lookup_insert_eq.
    + rewrite lookup_insert_eq. simpl. destruct fr as [f|].
      * rewrite ?bool_decide_eq_false_2 by apply not_elem_of_nil.
        by rewrite lookup_insert_eq.
      * by rewrite lookup_insert_eq.
  - rewrite bool_decide_eq_false_2 by done.
    destruct (m !! s0) as [known|] eqn:E; simpl.
    + rewrite E. simpl. destruct fr as [f|]; [|done].
      case_bool_decide; [done|]. by rewrite lookup_insert_ne.
    + rewrite lookup_insert_eq. simpl. destruct fr as [f|].
      * rewrite ?bool_decide_eq_false_2 by apply not_elem_of_nil.
        by rewrite !lookup_insert_ne.
      * by rewrite lookup_insert_ne.
Qed.

Lemma has_file_snoc (entries : list dirent) (e : dirent) (s : string) :
  has_file (entries ++ [e]) s ↔
  has_file entries s
  ∨ (supported_file e = true ∧ fst (parse_filename (d_name e)) = s).
Proof.
  unfold has_file. split.
  - intros (x & Hx & Hsup & Hs). apply elem_of_app in Hx as [Hx|Hx].
    + left. eauto.
    + apply list_elem_of_singleton in Hx as ->. by right.
  - intros [(x & Hx & Hsup & Hs) | [Hsup Hs]].
    + exists x. split; [apply elem_of_app; by left | done].
    + exists e. split; [apply elem_of_app; right; in_list | done].
Qed.

Lemma decodes_snoc (entries : list dirent) (e : dirent) (s : string)
    (f : DataFrequency) :
  (∃ x, x ∈ entries ++ [e] ∧ decodes s f x = true) ↔
  (∃ x, x ∈ entries ∧ decodes s f x = true) ∨ decodes s f e = true.
Proof.
  split.
  - intros (x & Hx & Hd). apply elem_of_app in Hx as [Hx|Hx].
    + left. eauto.
    + apply list_elem_of_singleton in Hx as ->. by right.
  - intros [(x & Hx & Hd) | Hd].
    + exists x. split; [apply elem_of_app; by left | done].
    + exists e. split; [apply elem_of_app; right; in_list | done].
Qed.

Lemma decodes_spec (s : string) (f : DataFrequency) (e : dirent) :
  decodes s f e = true ↔
  supported_file e = true ∧ fst (parse_filename (d_name e)) = s
  ∧ snd (parse_filename (d_name e)) = Some f.
Proof.
  unfold decodes. rewrite andb_true_iff, bool_decide_eq_true.
  destruct (parse_filename (d_name e)) as [s0 fr]. simpl.
  split; [intros [H [= -> ->]]; done | intros (H & -> & ->); done].
Qed.

Lemma index_of_step (entries : list dirent) (e : dirent)
    (m : gmap string (list DataFrequency)) :
  index_of entries m → index_of (entries ++ [e]) (add_combination m e).
Proof.
  intros [Hkeys Hlists]. split.
  - intros s. rewrite has_file_snoc, add_combination_lookup, <- Hkeys.
    destruct (supported_file e); simpl; [|intuition congruence].
    case_bool_decide; [|intuition congruence]. split; [by right | eauto].
  - intros s known. rewrite add_combination_lookup.
    destruct (supported_file e) eqn:Hsup; simpl.
    2: { intros Hm. destruct (Hlists s known Hm) as [Hnd Hin].
         split; [done|]. intros f. rewrite decodes_snoc, Hin.
         rewrite (decodes_spec s f e), Hsup. intuition congruence. }
    case_bool_decide as Hs.
    2: { intros Hm. destruct (Hlists s known Hm) as [Hnd Hin].
         split; [done|]. intros f. rewrite decodes_snoc, Hin.
         rewrite (decodes_spec s f e). intuition congruence. }
    assert (NoDup (default [] (m !! s))
            ∧ ∀ f, f ∈ default [] (m !! s) ↔
                   ∃ x, x ∈ entries ∧ decodes s f x = true) as [Hnd Hin].
    { destruct (m !! s) as [k|] eqn:E; simpl; [by apply Hlists|].
      split; [constructor|]. intros f. split.
      - by intros ?%not_elem_of_nil.
      - intros (x & Hx & Hd). apply decodes_spec in Hd as (Hx1 & Hx2 & _).
        assert (is_Some (m !! s)) as [? ?] by (apply Hkeys; exists x; eauto).
        congruence. }
    intros [= <-].
    destruct (snd (parse_filename (d_name e))) as [g|] eqn:Hfr.
    + case_bool_decide as Hg.
      * split; [done|]. intros f. rewrite decodes_snoc, <- Hin.
        rewrite decodes_spec, Hfr. split; [by left|].
        intros [H|(_ & _ & [= <-])]; done.
      * split.
        { apply NoDup_app. split; [done|]. split; [|apply NoDup_singleton].
          intros x Hx Hx'. apply list_elem_of_singleton in Hx' as ->. done. }
        intros f. rewrite elem_of_app, list_elem_of_singleton, decodes_snoc.
        rewrite <- Hin, decodes_spec, Hfr.
        intuition (subst; eauto; congruence).
    + split; [done|]. intros f. rewrite decodes_snoc, <- Hin.
      rewrite decodes_spec, Hfr. intuition congruence.
Qed.

Lemma index_of_scan (entries : list dirent) :
  index_of entries (foldl add_combination ∅ entries).
Proof.
  induction entries as [|e entries IH] using rev_ind.
  - split; simpl.
    + intros s. rewrite lookup_empty. split; [by intros [? ?]|].
      intros (e & He & _). by apply not_elem_of_nil in He.
    + intros s known. by rewrite lookup_empty.
  - rewrite foldl_app. simpl. by apply index_of_step.
Qed.

End IndexFacts.

Lemma combinations_lists (fs : filesystem) (entries : list dirent)
    (s : string) (l : list DataFrequency) :
  listing fs = Some entries →
  FileDataProvider.get_symbol_timeframe_combinations fs !! s = Some l →
  NoDup l ∧ Sorted code_le l
  ∧ ∀ f, f ∈ l ↔ ∃ e, e ∈ entries ∧ decodes s f e = true.
Proof.
  unfold FileDataProvider.get_symbol_timeframe_combinations. intros ->.
  destruct (index_of_scan entries) as [Hkeys Hlists].
  rewrite lookup_fmap.
  destruct (foldl _ ∅ entries !! s) as [known|] eqn:Hknown; [|done].
  intros [= <-]. destruct (Hlists s known Hknown) as [Hnd Hin].
  split; [by rewrite py_sorted_perm|].
  split; [apply (py_sorted_sorted value)|].
  intros f. by rewrite py_sorted_perm.
Qed.

(** C9: in the index returned by [get_symbol_timeframe_combinations],
    every symbol decoded from a supported file of the directory is a key;
    a symbol whose files all decode without a frequency maps to the empty
    list; the list of each symbol has no duplicates, is sorted by the
    frequency code as a string, and holds exactly the frequencies of the
    files of that symbol. A missing directory gives the empty index. On
    [three_frames] the list of [AAPL] is [1d, 1h, 1m], the order of the
    codes and not of the calendar. *)
Theorem catalog_index_complete (fs : filesystem) :
  let index := FileDataProvider.get_symbol_timeframe_combinations fs in
  (listing fs = None → index = ∅)
  ∧ (∀ entries,
       listing fs = Some entries →
       (∀ e, e ∈ entries → FileDataProvider.supported_file e = true →
             is_Some (index !! fst (parse_filename (d_name e))))
       ∧ (∀ s, has_file entries s →
               (∀ e, e ∈ entries → FileDataProvider.supported_file e = true →
                     fst (parse_filename (d_name e)) = s →
                     snd (parse_filename (d_name e)) = None) →
               index !! s = Some [])
       ∧ (∀ s l, index !! s = Some l →
                 NoDup l ∧ Sorted code_le l
                 ∧ ∀ f, f ∈ l ↔ ∃ e, e ∈ entries ∧ decodes s f e = true))
  ∧ FileDataProvider.get_symbol_timeframe_combinations three_frames !! "AAPL"
    = Some [DAILY; HOUR_1; MINUTE_1]
  ∧ FileDataProvider.get_symbol_timeframe_combinations three_frames !! "LEGACY"
    = Some [].
Proof.
  intros index. subst index.
  split.
  { unfold FileDataProvider.get_symbol_timeframe_combinations. by intros ->. }
  split; [|split; by vm_compute].
  intros entries Hls.
  split; [|split]; [..|intros s l; by apply combinations_lists].
  all: unfold FileDataProvider.get_symbol_timeframe_combinations;
    rewrite Hls; destruct (index_of_scan entries) as [Hkeys Hlists].
  - intros e He Hsup. rewrite lookup_fmap, fmap_is_Some.
    apply Hkeys. exists e. eauto.
  - intros s Hfile Hlegacy. rewrite lookup_fmap.
    destruct (proj2 (Hkeys s) Hfile) as [known Hknown]. rewrite Hknown.
    destruct (Hlists s known Hknown) as [_ Hin].
    destruct known as [|f known]; [done|]. exfalso.
    destruct (proj1 (Hin f)) as (e & He & Hd); [in_list|].
    apply decodes_spec in Hd as (Hsup & Hs & Hf).
    by rewrite (Hlegacy e He Hsup Hs) in Hf.
Qed.

Lemma catalog_index_complete_witness :
  is_Some (FileDataProvider.get_symbol_timeframe_combinations three_frames
             !! fst (parse_filename "aapl_1h.parquet")).
Proof.
  destruct (catalog_index_complete three_frames) as (_ & H & _).
  destruct (H [regular "aapl_1m.csv"; regular "aapl_1h.csv";
               regular "aapl_1d.csv"; regular "aapl_1h.parquet";
               regular "legacy.csv"] eq_refl) as (Hkeys & _).
  apply (Hkeys (regular "aapl_1h.parquet")); [in_list | reflexivity].
Defined.

(** C10: [get_available_timeframes] does not remove duplicates: a
    frequency occurs in its answer as often as there are supported files
    that decode to the symbol and that frequency, so when a [.parquet]
    file and a [.csv] file both decode to the same symbol and frequency,
    that frequency occurs at least twice, while the list of the symbol in
    [get_symbol_timeframe_combinations] holds it once. The answer is sorted
    by the frequency code as a string. The canonical files of a symbol
    without path-hostile characters decode to that symbol. On the directory [both_formats] the
    answer for [aapl] is [1d, 1d, 1h]. *)
Theorem timeframes_repeat_per_file (fs : filesystem) (entries : list dirent)
    (symbol : string) (f : DataFrequency) (p c : dirent) :
  listing fs = Some entries →
  p ∈ entries → c ∈ entries →
  PyStr.lower (PyPath.suffix (d_name p)) = ".parquet" →
  PyStr.lower (PyPath.suffix (d_name c)) = ".csv" →
  decodes (PyStr.upper symbol) f p = true →
  decodes (PyStr.upper symbol) f c = true →
  (2 ≤ count_occ DataFrequency_eq_dec
         (FileDataProvider.get_available_timeframes fs symbol) f)%nat
  ∧ (∀ g, count_occ DataFrequency_eq_dec
            (FileDataProvider.get_available_timeframes fs symbol) g
          = length (List.filter (decodes (PyStr.upper symbol) g) entries))
  ∧ Sorted code_le (FileDataProvider.get_available_timeframes fs symbol)
  ∧ (∀ l, FileDataProvider.get_symbol_timeframe_combinations fs
            !! PyStr.upper symbol = Some l →
          count_occ DataFrequency_eq_dec l f = 1%nat)
  ∧ (∀ extension e,
       extension ∈ supported_formats → no_path_hostile symbol →
       d_name e = generate_filename symbol f extension →
       d_is_file e = true →
       decodes (PyStr.upper symbol) f e = true)
  ∧ FileDataProvider.get_available_timeframes both_formats "aapl"
    = [DAILY; DAILY; HOUR_1]
  ∧ FileDataProvider.get_symbol_timeframe_combinations both_formats !! "AAPL"
    = Some [DAILY; HOUR_1].
Proof.
  intros Hls Hp Hc Hps Hcs Hpd Hcd.
  split; [|split; [|split; [|split; [|split; [|split]]]]].
  - rewrite (timeframes_count fs entries) by done.
    apply (two_members p c).
    + apply list_elem_of_In, filter_In. split; [by apply list_elem_of_In|done].
    + apply list_elem_of_In, filter_In. split; [by apply list_elem_of_In|done].
    + intros ->. rewrite Hps in Hcs. discriminate.
  - intros g. by apply timeframes_count.
  - unfold FileDataProvider.get_available_timeframes. rewrite Hls.
    apply (py_sorted_sorted value).
  - intros l Hl.
    destruct (combinations_lists fs entries _ l Hls Hl) as (Hnd & _ & Hin).
    apply NoDup_ListNoDup in Hnd.
    apply (proj1 (NoDup_count_occ' DataFrequency_eq_dec l) Hnd).
    apply list_elem_of_In, Hin. eauto.
  - intros extension e. apply canonical_decodes.
  - reflexivity.
  - by vm_compute.
Qed.

Lemma timeframes_repeat_per_file_witness :
  (2 ≤ count_occ DataFrequency_eq_dec
         (FileDataProvider.get_available_timeframes both_formats "AAPL") DAILY)%nat.
Proof.
  apply (timeframes_repeat_per_file both_formats
           [regular "aapl_1d.csv"; regular "aapl_1d.parquet";
            regular "aapl_1h.csv"; regular "MSFT.csv"; regular "notes.txt"]
           "AAPL" DAILY (regular "aapl_1d.parquet") (regular "aapl_1d.csv"));
    first [reflexivity | in_list].
Defined.

(** ** The batch loader *)

Section LoaderFacts.
Context {World : Type}.
Import StockDataLoader.
Variable self : StockDataLoader.StockDataLoader World.
Variable start_date end_date : option datetime.
Variable frequency : DataFrequency.
Variable provider : option string.
Variable kwargs : gmap string pyval.

Local Abbreviation call_in := (call self start_date end_date frequency provider kwargs).
Local Abbreviation outcomes_in :=
  (outcomes self start_date end_date frequency provider kwargs).
Local Abbreviation final_world_in :=
  (final_world self start_date end_date frequency provider kwargs).

(** A call reads the world only, records itself and prints nothing. *)
Lemma get_data_run (symbol : string) (st : run_state World) :
  get_data self symbol start_date end_date frequency provider kwargs st
  = (fst (call_in symbol (world st)),
     {| stdout := stdout st; calls := calls st ++ [symbol];
        world := snd (call_in symbol (world st)) |}).
Proof.
  unfold call, get_data. simpl.
  destruct (providers self !! _) as [p|]; [|done].
  destruct (new_MarketDataRequest _ _ _ _ _) as [request|e]; [|done].
  by destruct (provider_get_data p request (world st)).
Qed.

Lemma fetch_each_run (symbols : list string)
    (results : gmap string MarketData) (st : run_state World) :
  fetch_each self symbols start_date end_date frequency provider kwargs
    results st
  = (Ok (collect (outcomes_in symbols (world st)) results),
     {| stdout := stdout st ++ error_lines (outcomes_in symbols (world st));
        calls := calls st ++ symbols;
        world := final_world_in symbols (world st) |}).
Proof.
  revert results st. induction symbols as [|symbol rest IH];
    intros results st.
  - simpl. unfold ret, error_lines. simpl. rewrite !app_nil_r.
    by destruct st.
  - cbn [fetch_each]. unfold bind at 1, try_except, bind at 1.
    rewrite get_data_run.
    destruct (call_in symbol (world st)) as [[data|e] w] eqn:Hcall;
      cbn [fst snd]; unfold ret, print, bind; rewrite IH;
      cbn [stdout calls world outcomes final_world];
      rewrite Hcall; cbn [fst snd];
      unfold collect, error_lines; cbn [foldl flat_map fst snd];
      rewrite <- ?app_assoc; reflexivity.
Qed.

End LoaderFacts.

Section CollectFacts.
Implicit Types (outs : list (string * result MarketData)).
Implicit Types (m : gmap string MarketData).

Lemma collect_cons (o : string * result MarketData) outs m :
  collect (o :: outs) m
  = collect outs match snd o with
                 | Ok data => <[fst o := data]> m
                 | Err _ => m
                 end.
Proof. reflexivity. Qed.

(** A symbol all of whose calls failed keeps the entry it had. *)
Lemma collect_lookup_failed outs m (s : string) :
  (∀ r, (s, r) ∈ outs → is_Ok r = false) →
  collect outs m !! s = m !! s.
Proof.
  revert m. induction outs as [|[s' r'] outs IH]; intros m H; [done|].
  rewrite collect_cons, IH.
  - simpl. destruct r' as [d|e]; [|done].
    apply lookup_insert_ne. intros ->.
    by specialize (H (Ok d) (list_elem_of_here _ _)).
  - intros r Hr. apply H. by right.
Qed.

(** An entry of the result is an entry of the start or a fetched record
    of that symbol. *)
Lemma collect_lookup_some outs m (s : string) (d : MarketData) :
  collect outs m !! s = Some d → m !! s = Some d ∨ (s, Ok d) ∈ outs.
Proof.
  revert m. induction outs as [|[s' r'] outs IH]; intros m H; [by left|].
  rewrite collect_cons in H. apply IH in H as [H|H]; [|right; by right].
  simpl in H. destruct r' as [d'|e]; [|by left].
  destruct (decide (s' = s)) as [->|Hne].
  - rewrite lookup_insert_eq in H. injection H as ->. right. in_list.
  - rewrite lookup_insert_ne in H by done. by left.
Qed.

Lemma collect_size outs m :
  NoDup (map fst outs) →
  (∀ o, o ∈ outs → m !! fst o = None) →
  size (collect outs m) = (size m + length (List.filter succeeded outs))%nat.
Proof.
  revert m. induction outs as [|[s r] outs IH]; intros m Hnd Hnew.
  - simpl. lia.
  - simpl in Hnd. apply NoDup_cons in Hnd as [Hfresh Hnd].
    rewrite collect_cons. cbn [List.filter snd fst].
    destruct r as [d|e]; cbn [succeeded is_Ok snd length].
    + rewrite IH; [|done|].
      * rewrite map_size_insert_None; [lia|].
        apply (Hnew (s, Ok d)). in_list.
      * intros o Ho. rewrite lookup_insert_ne; [apply Hnew; by right|].
        intros E. apply Hfresh. apply list_elem_of_fmap. by exists o.
    + apply IH; [done|]. intros o Ho. apply Hnew. by right.
Qed.

Lemma collect_lookup_kept outs m (s : string) :
  is_Some (m !! s) → is_Some (collect outs m !! s).
Proof.
  revert m. induction outs as [|[s' r'] outs IH]; intros m H; [done|].
  rewrite collect_cons. apply IH. simpl. destruct r' as [d'|e]; [|done].
  destruct (decide (s' = s)) as [->|Hne].
  - rewrite lookup_insert_eq. eauto.
  - by rewrite lookup_insert_ne.
Qed.

Lemma collect_lookup_success outs m (s : string) (d : MarketData) :
  (s, Ok d) ∈ outs → is_Some (collect outs m !! s).
Proof.
  revert m. induction outs as [|[s' r'] outs IH]; intros m Hin.
  - by apply not_elem_of_nil in Hin.
  - rewrite collect_cons. apply elem_of_cons in Hin as [[= <- <-]|Hin].
    + apply collect_lookup_kept. simpl. rewrite lookup_insert_eq. eauto.
    + by apply IH.
Qed.

(** When every symbol has one outcome, the result holds exactly the
    successful ones. *)
Lemma collect_determined outs (s : string) :
  symbol_determined outs →
  (∀ e, (s, Err e) ∈ outs → collect outs ∅ !! s = None)
  ∧ (∀ d, (s, Ok d) ∈ outs → collect outs ∅ !! s = Some d).
Proof.
  intros Hdet. split.
  - intros e He. rewrite collect_lookup_failed; [apply lookup_empty|].
    intros r Hr. by rewrite (Hdet s r (Err e) Hr He).
  - intros d Hd. destruct (collect_lookup_success outs ∅ s d Hd) as [d' Hd'].
    rewrite Hd'. apply collect_lookup_some in Hd' as Hin.
    destruct Hin as [Hin|Hin]; [by rewrite lookup_empty in Hin|].
    by injection (Hdet s _ _ Hin Hd) as ->.
Qed.

Lemma nodup_determined outs : NoDup (map fst outs) → symbol_determined outs.
Proof.
  induction outs as [|[s' r'] outs IH]; intros Hnd s r1 r2 H1 H2.
  - by apply not_elem_of_nil in H1.
  - simpl in Hnd. apply NoDup_cons in Hnd as [Hfresh Hnd].
    apply elem_of_cons in H1 as [E1|H1];
      apply elem_of_cons in H2 as [E2|H2].
    + congruence.
    + exfalso. apply Hfresh, list_elem_of_fmap. exists (s, r2).
      split; [by injection E1 as -> _|done].
    + exfalso. apply Hfresh, list_elem_of_fmap. exists (s, r1).
      split; [by injection E2 as -> _|done].
    + by apply (IH Hnd s).
Qed.

Lemma filter_split {A} (f : A → bool) (l : list A) :
  (length (List.filter f l) + length (List.filter (fun x => negb (f x)) l)
   = length l)%nat.
Proof.
  induction l as [|x l IH]; simpl; [done|].
  destruct (f x); simpl; lia.
Qed.

End CollectFacts.

Lemma outcomes_symbols {World : Type}
    (self : StockDataLoader.StockDataLoader World)
    (start_date end_date : option datetime) (frequency : DataFrequency)
    (provider : option string) (kwargs : gmap string pyval)
    (symbols : list string) (w : World) :
  map fst (outcomes self start_date end_date frequency provider kwargs
             symbols w) = symbols.
Proof.
  revert w. induction symbols as [|s rest IH]; intros w; simpl; [done|].
  by rewrite IH.
Qed.

(** C5: [get_multiple_symbols] never raises, whatever the calls do; it
    calls [self.get_data] once per symbol, in the order of the list; a
    failed call prints a line and adds nothing, so a symbol whose calls
    failed is not a key of the result, even when every symbol fails; every
    entry of the result is a record fetched for its symbol. When each
    symbol has one outcome (the symbols are distinct, or the provider
    answers a symbol always alike) the symbols that fail are excluded and
    the symbols that succeed map to their records; for distinct symbols
    there are as many entries as successful calls, so two when one of
    three symbols fails. The empty list gives the empty mapping. With the
    three symbols [AAPL], [BAD], [MSFT], of which [BAD] fails, the result
    has exactly the entries of [AAPL] and [MSFT]. *)
Theorem batch_fetch_partial_failure {World : Type}
    (self : StockDataLoader.StockDataLoader World)
    (symbols : list string) (start_date end_date : option datetime)
    (frequency : DataFrequency) (provider : option string)
    (kwargs : gmap string pyval) (st : StockDataLoader.run_state World) :
  let outs :=
    outcomes self start_date end_date frequency provider kwargs symbols
      (StockDataLoader.world st) in
  (∃ results st',
     StockDataLoader.get_multiple_symbols self symbols start_date end_date
       frequency provider kwargs st = (Ok results, st')
     ∧ StockDataLoader.calls st' = StockDataLoader.calls st ++ symbols
     ∧ map fst outs = symbols
     ∧ StockDataLoader.stdout st'
       = StockDataLoader.stdout st ++ error_lines outs
     ∧ (∀ s, (∀ r, (s, r) ∈ outs → is_Ok r = false) → results !! s = None)
     ∧ (∀ s d, results !! s = Some d → (s, Ok d) ∈ outs)
     ∧ (symbol_determined outs →
        (∀ s e, (s, Err e) ∈ outs → results !! s = None)
        ∧ (∀ s d, (s, Ok d) ∈ outs ↔ results !! s = Some d))
     ∧ (NoDup symbols →
        symbol_determined outs
        ∧ size results = length (List.filter succeeded outs)
        ∧ (length symbols = 3%nat →
           length (List.filter (fun o => negb (succeeded o)) outs) = 1%nat →
           size results = 2%nat))
     ∧ (symbols = [] → results = ∅))
  ∧ (∃ results st',
       StockDataLoader.get_multiple_symbols stub_loader ["AAPL"; "BAD"; "MSFT"]
         None None DAILY None ∅ fresh_run = (Ok results, st')
       ∧ size results = 2%nat
       ∧ symbol <$> results !! "AAPL" = Some "AAPL"
       ∧ symbol <$> results !! "MSFT" = Some "MSFT"
       ∧ results !! "BAD" = None
       ∧ StockDataLoader.stdout st' = ["Error loading BAD: no data"]).
Proof.
  intros outs. split.
  - eexists _, _. unfold StockDataLoader.get_multiple_symbols.
    rewrite fetch_each_run. fold outs.
    split; [reflexivity|]. split; [reflexivity|].
    split; [apply outcomes_symbols|]. split; [reflexivity|].
    assert (∀ s d, collect outs ∅ !! s = Some d → (s, Ok d) ∈ outs) as Hsome.
    { intros s d [H|H]%collect_lookup_some; [|done].
      by rewrite lookup_empty in H. }
    split; [|split; [|split; [|split]]].
    + intros s Hs. by rewrite collect_lookup_failed.
    + exact Hsome.
    + intros Hdet. split.
      * intros s e. by apply collect_determined.
      * intros s d. split; [by apply collect_determined | apply Hsome].
    + intros Hnd. rewrite <- (outcomes_symbols self start_date end_date
                                frequency provider kwargs symbols
                                (StockDataLoader.world st)) in Hnd.
      fold outs in Hnd. split; [by apply nodup_determined|].
      assert (size (collect outs ∅) = length (List.filter succeeded outs))
        as Hsize.
      { rewrite collect_size; [by rewrite map_size_empty|done|].
        intros o _. apply lookup_empty. }
      split; [done|]. intros Hthree Hone. rewrite Hsize.
      pose proof (filter_split succeeded outs) as Hsplit.
      rewrite Hone in Hsplit.
      replace (length outs) with (length symbols) in Hsplit; [lia|].
      subst outs. by rewrite <- (outcomes_symbols self start_date end_date
                                  frequency provider kwargs symbols
                                  (StockDataLoader.world st)) at 1;
        rewrite length_map.
    + intros E. subst outs. by rewrite E.
  - eexists _, _. split; [vm_compute; reflexivity|].
    repeat split; by vm_compute.
Qed.

Lemma batch_fetch_partial_failure_witness :
  ∃ results st',
    StockDataLoader.get_multiple_symbols stub_loader ["BAD"; "MSFT"]
      None None DAILY None ∅ fresh_run = (Ok results, st')
    ∧ size results
      = length (List.filter succeeded
                  (outcomes stub_loader None None DAILY None ∅
                     ["BAD"; "MSFT"] ())).
Proof.
  destruct (batch_fetch_partial_failure stub_loader ["BAD"; "MSFT"]
              None None DAILY None ∅ fresh_run)
    as [(results & st' & Hrun & _ & _ & _ & _ & _ & _ & Hdistinct & _) _].
  exists results, st'. split; [exact Hrun|].
  apply Hdistinct. repeat constructor; not_in_list.
Defined.

(** The loader over the file provider: on a missing data directory every
    symbol of a batch is reported and the result is empty. *)
Example batch_on_missing_directory :
  StockDataLoader.get_multiple_symbols file_loader ["AAPL"; "MSFT"]
    None None DAILY None ∅
    {| StockDataLoader.stdout := []; StockDataLoader.calls := [];
       StockDataLoader.world :=
         {| listing := None; elsewhere := fun _ => false |} |}
  = (Ok ∅,
     {| StockDataLoader.stdout :=
          ["Error loading AAPL: No data file found for symbol AAPL with frequency 1d in data";
           "Error loading MSFT: No data file found for symbol MSFT with frequency 1d in data"];
        StockDataLoader.calls := ["AAPL"; "MSFT"];
        StockDataLoader.world :=
          {| listing := None; elsewhere := fun _ => false |} |}).
Proof. reflexivity. Qed.

(** * Further properties *)

(** ** The codec *)

Section CodecMore.
Import PyStr PyPath.

Lemma safe_symbol_chars_eq (s : string) :
  chars (safe_symbol s) = map safe_char (chars s).
Proof.
  unfold safe_symbol, replace_char. rewrite !chars_str, !map_map.
  apply map_ext. intros c. unfold safe_char.
  by destruct c as [[] [] [] [] [] [] [] []].
Qed.

Lemma lower_safe_char_harmless (c : ascii) :
  path_hostile (lower_char (safe_char c)) = false.
Proof. by destruct c as [[] [] [] [] [] [] [] []]. Qed.

Lemma upper_eq_lower_eq_char (a b : ascii) :
  upper_char a = upper_char b ↔ lower_char a = lower_char b.
Proof.
  split; intros H.
  - assert (lower_char (upper_char a) = lower_char (upper_char b)) as E
      by by rewrite H.
    revert E. clear H.
    assert (∀ c, lower_char (upper_char c) = lower_char c) as Hl
      by (intros c; by destruct c as [[] [] [] [] [] [] [] []]).
    by rewrite !Hl.
  - assert (upper_char (lower_char a) = upper_char (lower_char b)) as E
      by by rewrite H.
    by rewrite !upper_lower_char in E.
Qed.

(** What the loop of [parse_filename] returns, whatever the order in which
    the frequencies are tried. *)
Lemma parse_stem_spec (stem : string) (freqs : list DataFrequency) :
  match parse_stem stem freqs with
  | (s, Some f) =>
      f ∈ freqs
      ∧ ∃ base, stem = base +:+ "_" +:+ value f ∧ s = upper base
  | (s, None) =>
      s = upper stem
      ∧ ∀ f, f ∈ freqs → endswith stem ("_" +:+ value f) = false
  end.
Proof.
  induction freqs as [|g rest IH]; cbn [parse_stem].
  - split; [done|]. by intros f ?%not_elem_of_nil.
  - destruct (endswith stem ("_" +:+ value g)) eqn:E.
    + split; [in_list|]. apply endswith_spec in E as [p Hp].
      exists (str p). split.
      * apply chars_inj. by rewrite chars_app, chars_str.
      * f_equal. rewrite <- (str_chars stem), Hp, <- length_chars.
        apply drop_last_app.
    + destruct (parse_stem stem rest) as [s [f|]].
      * destruct IH as [Hin Hbase]. split; [by right | done].
      * destruct IH as [Hs Hno]. split; [done|].
        intros f [->|Hf]%elem_of_cons; auto.
Qed.

Lemma stem_splits_once (stem base1 base2 : string) (f g : DataFrequency) :
  stem = base1 +:+ "_" +:+ value f → stem = base2 +:+ "_" +:+ value g →
  f = g ∧ base1 = base2.
Proof.
  intros H1 H2. rewrite H1 in H2. apply (f_equal chars) in H2.
  rewrite !chars_app in H2. fold (code_suffix f) (code_suffix g) in H2.
  change (chars ("_" +:+ value f)) with (code_suffix f) in H2.
  change (chars ("_" +:+ value g)) with (code_suffix g) in H2.
  pose proof (code_suffix_unique f g _ _ H2) as ->. split; [done|].
  apply app_inv_tail in H2. by apply chars_inj.
Qed.

End CodecMore.

Lemma upper_app (a b : string) :
  PyStr.upper (a +:+ b) = PyStr.upper a +:+ PyStr.upper b.
Proof.
  unfold PyStr.upper. apply chars_inj.
  rewrite (chars_app (PyStr.str _)), !chars_str, chars_app. apply map_app.
Qed.

Lemma endswith_app (base suffix : string) :
  PyStr.endswith (base +:+ suffix) suffix = true.
Proof. apply endswith_spec. exists (PyStr.chars base). apply chars_app. Qed.

(** [parse_generate] in terms of [safe_symbol]. *)
Lemma parse_generate_safe (symbol : string) (f : DataFrequency)
    (extension : string) :
  extension ∈ supported_formats →
  parse_filename (generate_filename symbol f extension)
  = (PyStr.upper (safe_symbol symbol), Some f).
Proof.
  intros Hext. rewrite parse_generate by done.
  by rewrite <- safe_symbol_chars_eq, str_chars.
Qed.



(** X2: a name built by [generate_filename] with a supported extension is
    one path component: it holds none of ['/'], ['\\'], [':'], pathlib
    reads it as its own [name], and its [suffix] is the extension. *)
Theorem encoded_name_is_a_component (symbol : string) (f : DataFrequency)
    (extension : string) :
  extension ∈ supported_formats →
  no_path_hostile (generate_filename symbol f extension)
  ∧ PyPath.name (generate_filename symbol f extension)
    = generate_filename symbol f extension
  ∧ PyPath.suffix (generate_filename symbol f extension) = extension.
Proof.
  intros Hext. split; [|split; [|by apply suffix_generate]].
  - unfold no_path_hostile. rewrite generate_filename_chars.
    apply Forall_app_2; [apply Forall_app_2|].
    + unfold safe_symbol_chars. rewrite map_map. apply Forall_map.
      apply Forall_true. intros c. apply lower_safe_char_harmless.
    + destruct f; repeat constructor.
    + unfold supported_formats in Hext.
      apply elem_of_cons in Hext as [->|Hext]; [repeat constructor|].
      apply elem_of_cons in Hext as [->|Hext]; [repeat constructor|].
      by apply not_elem_of_nil in Hext.
  - pose proof (suffix_generate symbol f extension Hext) as Hsuf.
    unfold PyPath.suffix in Hsuf.
    pose proof (generate_filename_plain symbol f _ Hext) as Hplain.
    apply name_plain; [done|..]; intros E; rewrite E in Hsuf;
      apply (f_equal PyStr.chars) in Hsuf;
      destruct (supported_extension _ Hext) as (e & He & _);
      rewrite He in Hsuf; discriminate.
Qed.

Lemma encoded_name_is_a_component_witness :
  PyPath.suffix (generate_filename "a/b:c" DAILY ".csv") = ".csv".
Proof.
  apply (encoded_name_is_a_component "a/b:c" DAILY ".csv").
  unfold supported_formats; in_list.
Defined.

(** X3: two encodings collide exactly when the frequencies and the
    extensions are the same and the symbols agree after the sanitising and
    the lower-casing: symbols that differ only in case or in which of
    ['/'], ['\\'], [':'], ['_'] they use share one file name. *)
Theorem encode_collisions (s1 s2 : string) (f1 f2 : DataFrequency)
    (e1 e2 : string) :
  e1 ∈ supported_formats → e2 ∈ supported_formats →
  generate_filename s1 f1 e1 = generate_filename s2 f2 e2 ↔
  f1 = f2 ∧ e1 = e2
  ∧ PyStr.lower (safe_symbol s1) = PyStr.lower (safe_symbol s2).
Proof.
  intros He1 He2. split.
  - intros E.
    pose proof (parse_generate_safe s1 f1 e1 He1) as D1.
    pose proof (parse_generate_safe s2 f2 e2 He2) as D2.
    rewrite E, D2 in D1. injection D1 as _ ->.
    pose proof (suffix_generate s1 f1 e1 He1) as S1.
    rewrite E, (suffix_generate s2 f1 e2 He2) in S1. subst e2.
    split; [done|]. split; [done|].
    apply (f_equal PyStr.chars) in E.
    rewrite !generate_filename_chars in E. do 2 apply app_inv_tail in E.
    unfold PyStr.lower. rewrite !safe_symbol_chars_eq. by f_equal.
  - intros (-> & -> & E). unfold generate_filename. fold (safe_symbol s1).
    fold (safe_symbol s2). by rewrite E.
Qed.

Lemma encode_collisions_witness :
  generate_filename "BRK/B" DAILY ".csv" = generate_filename "brk:b" DAILY ".csv".
Proof.
  apply encode_collisions; [unfold supported_formats; in_list..|].
  repeat split; reflexivity.
Defined.

(** X4: the answer of [parse_filename] does not depend on the order in
    which the frequency codes are tried, since no name ends with two of
    them; the symbol it returns is upper-case, and with the frequency
    suffix put back it is the upper-cased stem. *)
Theorem decode_any_order (filename : string) (freqs : list DataFrequency) :
  (∀ f, f ∈ freqs) →
  parse_stem (PyPath.stem filename) freqs = parse_filename filename
  ∧ PyStr.upper (fst (parse_filename filename)) = fst (parse_filename filename)
  ∧ PyStr.upper (PyPath.stem filename)
    = match parse_filename filename with
      | (s, Some f) => s +:+ PyStr.upper ("_" +:+ value f)
      | (s, None) => s
      end.
Proof.
  intros Hall. unfold parse_filename.
  pose proof (parse_stem_spec (PyPath.stem filename) freqs) as H1.
  pose proof (parse_stem_spec (PyPath.stem filename) all_frequencies) as H2.
  destruct (parse_stem (PyPath.stem filename) all_frequencies) as [s2 [f2|]].
  - destruct H2 as (_ & base2 & Hb2 & ->).
    assert (parse_stem (PyPath.stem filename) freqs
            = (PyStr.upper base2, Some f2)) as ->.
    { destruct (parse_stem (PyPath.stem filename) freqs) as [s1 [f1|]].
      - destruct H1 as (_ & base1 & Hb1 & ->).
        by destruct (stem_splits_once _ _ _ _ _ Hb1 Hb2) as [-> ->].
      - destruct H1 as [_ Hno]. specialize (Hno f2 (Hall f2)).
        by rewrite Hb2, endswith_app in Hno. }
    simpl. split; [done|]. split; [apply upper_upper|].
    by rewrite Hb2, upper_app.
  - destruct H2 as [-> Hno2].
    assert (parse_stem (PyPath.stem filename) freqs
            = (PyStr.upper (PyPath.stem filename), None)) as ->.
    { destruct (parse_stem (PyPath.stem filename) freqs) as [s1 [f1|]].
      - destruct H1 as (_ & base1 & Hb1 & ->).
        specialize (Hno2 f1 (all_frequencies_complete f1)).
        by rewrite Hb1, endswith_app in Hno2.
      - by destruct H1 as [-> _]. }
    simpl. split; [done|]. split; [apply upper_upper | done].
Qed.

Lemma decode_any_order_witness :
  parse_stem (PyPath.stem "aapl_1mo.csv") (rev all_frequencies)
  = parse_filename "aapl_1mo.csv".
Proof.
  apply (decode_any_order "aapl_1mo.csv" (rev all_frequencies)).
  intros f. destruct f; vm_compute; in_list.
Defined.

(** ** The catalog views *)

Section CatalogMore.
Import FileDataProvider.

Lemma symbols_scan (entries : list dirent) (acc : gset string) (s : string) :
  s ∈ foldl (fun symbols e =>
               if supported_file e
               then symbols ∪ {[fst (parse_filename (d_name e))]}
               else symbols) acc entries
  ↔ s ∈ acc ∨ has_file entries s.
Proof.
  revert acc. induction entries as [|e entries IH]; intros acc; simpl.
  - split; [by left|]. intros [H|(e & He & _)]; [done|].
    by apply not_elem_of_nil in He.
  - rewrite IH. unfold has_file. split.
    + intros [H|(x & Hx & Hsup & Hs)].
      * destruct (supported_file e) eqn:Hsup; [|by left].
        apply elem_of_union in H as [H|H]; [by left|].
        apply elem_of_singleton in H. right. exists e.
        split; [in_list | done].
      * right. exists x. split; [by right | done].
    + intros [H|(x & Hx & Hsup & Hs)].
      * left. destruct (supported_file e); [|done].
        apply elem_of_union. by left.
      * apply elem_of_cons in Hx as [->|Hx].
        -- left. rewrite Hsup. apply elem_of_union. right.
           by apply elem_of_singleton.
        -- right. exists x. done.
Qed.

Lemma available_symbols_elem (fs : filesystem) (entries : list dirent)
    (s : string) :
  listing fs = Some entries →
  s ∈ get_available_symbols fs ↔ has_file entries s.
Proof.
  intros Hls. unfold get_available_symbols. rewrite Hls.
  rewrite py_sorted_perm, elem_of_elements, symbols_scan.
  split; [intros [H|H]; [by apply not_elem_of_empty in H | done] | by right].
Qed.

Lemma parsed_symbol_upper (name : string) :
  PyStr.upper (fst (parse_filename name)) = fst (parse_filename name).
Proof.
  unfold parse_filename.
  pose proof (parse_stem_spec (PyPath.stem name) all_frequencies) as H.
  destruct (parse_stem (PyPath.stem name) all_frequencies) as [s [f|]]; simpl.
  - destruct H as (_ & base & _ & ->). apply upper_upper.
  - destruct H as [-> _]. apply upper_upper.
Qed.

Lemma combinations_keys (fs : filesystem) (entries : list dirent)
    (s : string) :
  listing fs = Some entries →
  is_Some (get_symbol_timeframe_combinations fs !! s) ↔ has_file entries s.
Proof.
  intros Hls. unfold get_symbol_timeframe_combinations. rewrite Hls.
  rewrite lookup_fmap, fmap_is_Some.
  by destruct (index_of_scan entries) as [Hkeys _].
Qed.

Lemma find_some_witness {A} (p : A → bool) (l : list A) (x : A) :
  x ∈ l → p x = true → is_Some (List.find p l).
Proof.
  induction l as [|y l IH]; intros Hx Hp; [by apply not_elem_of_nil in Hx|].
  simpl. destruct (p y) eqn:E; [eauto|].
  apply elem_of_cons in Hx as [->|Hx]; [congruence | by apply IH].
Qed.

End CatalogMore.

(** X5: [get_available_symbols] returns exactly the symbols decoded from
    the supported files of the directory, each once, upper-case, in
    ascending string order. *)
Theorem available_symbols_characterised (fs : filesystem)
    (entries : list dirent) :
  listing fs = Some entries →
  let symbols := FileDataProvider.get_available_symbols fs in
  (∀ s, s ∈ symbols ↔ has_file entries s)
  ∧ NoDup symbols
  ∧ Sorted (key_le id) symbols
  ∧ (∀ s, s ∈ symbols → PyStr.upper s = s).
Proof.
  intros Hls symbols.
  assert (∀ s, s ∈ symbols ↔ has_file entries s) as Hin
    by (intros s; by apply available_symbols_elem).
  split; [done|]. split; [|split].
  - subst symbols. unfold FileDataProvider.get_available_symbols.
    rewrite Hls, py_sorted_perm. apply NoDup_elements.
  - subst symbols. unfold FileDataProvider.get_available_symbols.
    rewrite Hls. apply (py_sorted_sorted id).
  - intros s (e & _ & _ & <-)%Hin. apply parsed_symbol_upper.
Qed.

Lemma available_symbols_characterised_witness :
  "AAPL" ∈ FileDataProvider.get_available_symbols both_formats.
Proof.
  apply (available_symbols_characterised both_formats
           [regular "aapl_1d.csv"; regular "aapl_1d.parquet";
            regular "aapl_1h.csv"; regular "MSFT.csv"; regular "notes.txt"]
           eq_refl).
  exists (regular "aapl_1h.csv"). split; [in_list | by split].
Defined.

(** X6: the three views of the catalog agree: the symbols listed by
    [get_available_symbols] are the keys of
    [get_symbol_timeframe_combinations], and the frequencies that
    [get_available_timeframes] returns for a symbol, in any case, are those
    of the list of the upper-cased symbol in the index (none when it is not
    a key). *)
Theorem catalog_views_agree (fs : filesystem) (symbol : string) :
  (∀ s, s ∈ FileDataProvider.get_available_symbols fs ↔
        is_Some (FileDataProvider.get_symbol_timeframe_combinations fs !! s))
  ∧ (∀ f, f ∈ FileDataProvider.get_available_timeframes fs symbol ↔
          f ∈ default []
                (FileDataProvider.get_symbol_timeframe_combinations fs
                   !! PyStr.upper symbol)).
Proof.
  destruct (listing fs) as [entries|] eqn:Hls.
  2: { unfold FileDataProvider.get_available_symbols,
         FileDataProvider.get_symbol_timeframe_combinations,
         FileDataProvider.get_available_timeframes.
       rewrite Hls. split; [intros s|intros f]; rewrite lookup_empty; simpl;
         (split; [by intros ?%not_elem_of_nil|]);
         [by intros [? ?] | by intros ?%not_elem_of_nil]. }
  split.
  - intros s. by rewrite (available_symbols_elem fs entries),
      (combinations_keys fs entries).
  - intros f.
    assert (f ∈ FileDataProvider.get_available_timeframes fs symbol ↔
            ∃ e, e ∈ entries ∧ decodes (PyStr.upper symbol) f e = true) as ->.
    { rewrite list_elem_of_In, (count_occ_In DataFrequency_eq_dec).
      rewrite (timeframes_count fs entries) by done. split.
      - intros Hpos.
        destruct (List.filter (decodes (PyStr.upper symbol) f) entries)
          as [|e l] eqn:E; [simpl in Hpos; lia|].
        assert (In e (List.filter (decodes (PyStr.upper symbol) f) entries))
          as Hin by (rewrite E; by left).
        apply filter_In in Hin as [Hin Hd]. exists e.
        split; [by apply list_elem_of_In | done].
      - intros (e & He & Hd).
        assert (In e (List.filter (decodes (PyStr.upper symbol) f) entries))
          as Hin by (apply filter_In; split; [by apply list_elem_of_In|done]).
        destruct (List.filter _ entries); [done | simpl; lia]. }
    destruct (FileDataProvider.get_symbol_timeframe_combinations fs
                !! PyStr.upper symbol) as [l|] eqn:Hl; simpl.
    + by destruct (combinations_lists fs entries _ l Hls Hl) as (_ & _ & ->).
    + split; [|by intros ?%not_elem_of_nil].
      intros (e & He & (Hsup & Hs & _)%decodes_spec). exfalso.
      assert (is_Some (FileDataProvider.get_symbol_timeframe_combinations fs
                         !! PyStr.upper symbol)) as [? ?].
      { apply (combinations_keys fs entries); [done|]. exists e. done. }
      congruence.
Qed.

(** X7: every symbol that [get_available_symbols] lists is found by the
    file search, with any frequency or none, so [validate_symbol] accepts
    it. *)
Theorem listed_symbol_resolves (fs : filesystem) (data_directory : string)
    (s : string) (frequency : option DataFrequency) :
  s ∈ FileDataProvider.get_available_symbols fs →
  is_Some (FileDataProvider._find_file_for_symbol fs data_directory s frequency)
  ∧ FileDataProvider.validate_symbol fs data_directory s frequency = true.
Proof.
  intros Hs.
  assert (is_Some (FileDataProvider._find_file_for_symbol fs data_directory
                     s frequency)) as Hfound.
  { destruct (listing fs) as [entries|] eqn:Hls.
    2: { unfold FileDataProvider.get_available_symbols in Hs.
         rewrite Hls in Hs. by apply not_elem_of_nil in Hs. }
    destruct (proj1 (available_symbols_elem fs entries s Hls) Hs)
      as (e & He & Hsup & Hname).
    rewrite find_file_refines. unfold resolve_file_spec. rewrite Hls.
    destruct (List.find _ (resolve_candidates s frequency)); [eauto|].
    rewrite fmap_is_Some. apply (find_some_witness _ _ e); [done|].
    rewrite Hsup. simpl. apply bool_decide_eq_true_2.
    rewrite Hname. symmetry. rewrite <- Hname. apply parsed_symbol_upper. }
  split; [done|]. unfold FileDataProvider.validate_symbol.
  by apply bool_decide_eq_true_2.
Qed.

Lemma listed_symbol_resolves_witness :
  FileDataProvider.validate_symbol both_formats "data" "MSFT" None = true.
Proof.
  apply (listed_symbol_resolves both_formats "data" "MSFT" None).
  vm_compute. in_list.
Defined.

(** ** The file provider *)

Section ProviderMore.
Import FileDataProvider PyStr PyPath.

Lemma split_sep_join (a b cur : list ascii) :
  ∃ init, split_sep (a ++ "/"%char :: b) cur = init ++ split_sep b [].
Proof.
  revert cur. induction a as [|c a IH]; intros cur; simpl.
  - by exists [rev cur].
  - destruct (Ascii.eqb c "/"%char).
    + destruct (IH []) as [init ->]. by exists (rev cur :: init).
    + apply IH.
Qed.

Lemma filter_snoc {A} (p : A → bool) (l : list A) (x : A) :
  p x = true → List.filter p (l ++ [x]) = List.filter p l ++ [x].
Proof. intros H. rewrite List.filter_app. simpl. by rewrite H. Qed.

Lemma plain_nonempty_kept (n : string) :
  n ≠ "" → n ≠ "." → kept_part (chars n) = true.
Proof.
  intros Hne Hdot. unfold kept_part.
  rewrite (bool_decide_eq_false_2 (chars n = [])).
  2: { intros E. apply Hne. apply chars_inj. by rewrite E. }
  rewrite (bool_decide_eq_false_2 (chars n = ["."%char])); [done|].
  intros E. apply Hdot. apply chars_inj. by rewrite E.
Qed.

(** The last component of [directory / name] is [name]. *)
Lemma name_join (directory n : string) :
  plain_symbol n → n ≠ "" → n ≠ "." →
  name (directory +:+ "/" +:+ n) = n.
Proof.
  intros Hplain Hne Hdot. unfold name.
  rewrite !chars_app. simpl.
  destruct (split_sep_join (chars directory) (chars n) []) as [init ->].
  rewrite split_sep_plain by done. simpl.
  rewrite filter_snoc by by apply plain_nonempty_kept.
  rewrite last_last. apply str_chars.
Qed.

Lemma joinpath_plain (directory n : string) :
  plain_symbol n → joinpath directory n = directory +:+ "/" +:+ n.
Proof.
  intros Hplain. unfold joinpath. destruct n as [|c n]; [done|].
  destruct (Ascii.eqb_spec c "/"%char) as [->|Hc].
  - unfold plain_symbol in Hplain. simpl in Hplain.
    by apply Forall_cons in Hplain as [? _].
  - destruct c as [[] [] [] [] [] [] [] []]; try done.
Qed.

Lemma suffix_none_of_blank (n : string) :
  n = "" ∨ n = "." → suffix n = "".
Proof. by intros [-> | ->]. Qed.

(** The suffix of [directory / name] is the suffix of [name], for a name
    whose suffix is not empty. *)
Lemma suffix_join (directory n : string) :
  plain_symbol n → suffix n ≠ "" →
  suffix (joinpath directory n) = suffix n.
Proof.
  intros Hplain Hsuf.
  assert (n ≠ "" ∧ n ≠ ".") as [Hne Hdot].
  { split; intros ->; by apply Hsuf. }
  rewrite joinpath_plain by done. unfold suffix.
  by rewrite name_join, name_plain.
Qed.

Lemma suffix_append_extension (base extension : string) :
  plain_symbol base → base ≠ "" → extension ∈ supported_formats →
  suffix (base +:+ extension) = extension.
Proof.
  intros Hplain Hne Hext.
  destruct (supported_extension _ Hext) as (e & He & Hene & Hdot & Hslash).
  assert (chars base ≠ []) as Hb.
  { intros E. apply Hne. apply chars_inj. by rewrite E. }
  assert (chars (base +:+ extension) = chars base ++ "."%char :: e) as Hc
    by by rewrite chars_app, He.
  unfold suffix. rewrite name_plain.
  - rewrite <- (str_chars (base +:+ extension)), Hc.
    rewrite (proj2 (stem_suffix_of_name _ _ Hb Hene Hdot)).
    by rewrite <- He, str_chars.
  - by apply append_extension_plain.
  - intros E. rewrite E in Hc. by destruct (chars base).
  - intros E. rewrite E in Hc. destruct (chars base) as [|a [|b q]];
      [done|..]; simpl in Hc; injection Hc as _ Hc; by destruct e.
Qed.

Lemma lower_supported (extension : string) :
  extension ∈ supported_formats → lower extension = extension.
Proof.
  unfold supported_formats. intros Hext.
  apply elem_of_cons in Hext as [->|Hext]; [done|].
  apply elem_of_cons in Hext as [->|Hext]; [done|].
  by apply not_elem_of_nil in Hext.
Qed.

Lemma case_keeps_nonempty (s : string) :
  s ≠ "" → lower s ≠ "" ∧ upper s ≠ "".
Proof. destruct s; [done|]. by split. Qed.

(** Every candidate of the first two stages, for a plain symbol that is
    not empty, is a plain name with a supported suffix. *)
Lemma resolve_candidates_supported (s : string)
    (frequency : option DataFrequency) (n : string) :
  plain_symbol s → s ≠ "" →
  n ∈ resolve_candidates s frequency →
  plain_symbol n ∧ suffix n ∈ supported_formats.
Proof.
  intros Hplain Hne Hn.
  split; [by apply (resolve_candidates_plain s frequency)|].
  unfold resolve_candidates in Hn. apply elem_of_app in Hn as [H|H].
  - destruct frequency as [f|]; [|by apply not_elem_of_nil in H].
    apply list_elem_of_fmap in H as (ext & -> & Hext).
    by rewrite suffix_generate.
  - apply list_elem_of_In, in_flat_map in H as (pat & Hpat & H).
    apply list_elem_of_In, list_elem_of_fmap in H as (ext & -> & Hext).
    destruct (case_keeps_nonempty s Hne) as [Hl Hu].
    simpl in Hpat. destruct Hpat as [<-|[<-|[<-|[]]]];
      rewrite suffix_append_extension; auto using lower_plain, upper_plain.
Qed.

End ProviderMore.

(** X8: for a symbol that is not empty and has no path separator, in a
    directory whose entry names are path components, every path that
    [_find_file_for_symbol] returns has a supported extension, up to case;
    so [_load_market_data_from_file] hands it to one of the two loaders
    and does not reject its format. *)
Theorem resolved_path_supported
    (to_datetime : dtype → list Z → result (option timezone * list Z))
    (read_parquet read_csv : string → result DataFrame)
    (read_json : string → option (gmap string pyval))
    (fs : filesystem) (data_directory : string) (now : datetime)
    (entries : list dirent) (s : string) (frequency : option DataFrequency)
    (path : string) :
  listing fs = Some entries →
  (∀ e, e ∈ entries → plain_symbol (d_name e)) →
  plain_symbol s → s ≠ "" →
  FileDataProvider._find_file_for_symbol fs data_directory s frequency
  = Some path →
  PyStr.lower (PyPath.suffix path) ∈ supported_formats
  ∧ (FileDataProvider._load_market_data_from_file to_datetime read_parquet
       read_csv read_json path s
     = load_from_parquet to_datetime read_parquet read_json path (Some s)
     ∨ FileDataProvider._load_market_data_from_file to_datetime read_parquet
         read_csv read_json path s
       = load_from_csv to_datetime read_csv read_json path (Some s)).
Proof.
  intros Hls Hnames Hplain Hne Hfound.
  assert (PyStr.lower (PyPath.suffix path) ∈ supported_formats) as Hsup.
  { rewrite find_file_refines in Hfound. unfold resolve_file_spec in Hfound.
    rewrite Hls in Hfound.
    destruct (List.find _ (resolve_candidates s frequency)) as [n|] eqn:E.
    - injection Hfound as <-. apply find_some in E as [Hn _].
      apply list_elem_of_In in Hn.
      destruct (resolve_candidates_supported s frequency n Hplain Hne Hn)
        as [Hnp Hns].
      rewrite suffix_join; [by rewrite lower_supported | done |].
      intros E0. rewrite E0 in Hns. unfold supported_formats in Hns.
      apply elem_of_cons in Hns as [?|Hns]; [done|].
      apply elem_of_cons in Hns as [?|Hns]; [done|].
      by apply not_elem_of_nil in Hns.
    - destruct (List.find _ entries) as [e|] eqn:E'; [|done].
      injection Hfound as <-. apply find_some in E' as [He Hp].
      apply andb_true_iff in Hp as [Hp _].
      unfold FileDataProvider.supported_file in Hp.
      apply andb_true_iff in Hp as [_ Hp]. apply bool_decide_eq_true in Hp.
      simpl. rewrite suffix_join; [done | by apply Hnames, list_elem_of_In |].
      intros E0. rewrite E0 in Hp. unfold supported_formats in Hp.
      apply elem_of_cons in Hp as [?|Hp]; [done|].
      apply elem_of_cons in Hp as [?|Hp]; [done|].
      by apply not_elem_of_nil in Hp. }
  split; [done|]. unfold FileDataProvider._load_market_data_from_file.
  unfold supported_formats in Hsup.
  apply elem_of_cons in Hsup as [->|Hsup]; [by left|].
  apply elem_of_cons in Hsup as [->|Hsup]; [by right|].
  by apply not_elem_of_nil in Hsup.
Qed.

Lemma resolved_path_supported_witness :
  PyStr.lower (PyPath.suffix "data/aapl_1d.parquet") ∈ supported_formats.
Proof.
  apply (resolved_path_supported no_datetime read_one_row read_one_row no_json
           both_formats "data" (january 9)
           [regular "aapl_1d.csv"; regular "aapl_1d.parquet";
            regular "aapl_1h.csv"; regular "MSFT.csv"; regular "notes.txt"]
           "AAPL" (Some DAILY) "data/aapl_1d.parquet").
  - reflexivity.
  - intros e He. unfold plain_symbol.
    repeat (apply elem_of_cons in He as [->|He];
            [vm_compute; repeat constructor; discriminate|]).
    by apply not_elem_of_nil in He.
  - unfold plain_symbol. vm_compute. repeat constructor; discriminate.
  - discriminate.
  - reflexivity.
Defined.
Lemma list_files_fold (data_directory : string) (entries : list dirent)
    (m : gmap string (list string)) (k : string) :
  foldl (fun files_by_format e =>
           if FileDataProvider.supported_file e
           then alter
                  (fun l => l ++ [FileDataProvider.joinpath data_directory
                                    (d_name e)])
                  (PyStr.lower (PyPath.suffix (d_name e))) files_by_format
           else files_by_format) m entries !! k
  = (fun l => l ++ (FileDataProvider.joinpath data_directory ∘ d_name
                    <$> files_of_format k entries)) <$> m !! k.
Proof.
  revert m. induction entries as [|e es IH]; intros m.
  - simpl. destruct (m !! k); simpl; [by rewrite app_nil_r | done].
  - cbn [foldl]. rewrite IH. unfold files_of_format. cbn [List.filter].
    destruct (FileDataProvider.supported_file e); [|done]. cbn [andb].
    destruct (decide (PyStr.lower (PyPath.suffix (d_name e)) = k)) as [->|Hk].
    + rewrite bool_decide_eq_true_2 by done. rewrite lookup_alter_eq.
      destruct (m !! _); simpl; [|done]. by rewrite <- app_assoc.
    + rewrite bool_decide_eq_false_2 by done. by rewrite lookup_alter_ne.
Qed.

(** X9: [list_files] has exactly the supported formats as keys, whatever
    the directory holds, and lists under each format the paths of the
    regular files whose lower-cased suffix is that format, each once and
    in scan order. *)
Theorem list_files_by_format (fs : filesystem) (data_directory : string)
    (entries : list dirent) :
  listing fs = Some entries →
  (∀ k, is_Some (list_files fs data_directory !! k) ↔ k ∈ supported_formats)
  ∧ ∀ extension, extension ∈ supported_formats →
      list_files fs data_directory !! extension
      = Some (FileDataProvider.joinpath data_directory ∘ d_name
              <$> files_of_format extension entries).
Proof.
  intros Hls. unfold list_files. rewrite Hls.
  assert (∀ k, (list_to_map ((fun ext => (ext, [])) <$> supported_formats)
                : gmap string (list string)) !! k
               = if bool_decide (k ∈ supported_formats) then Some [] else None)
    as Hinit.
  { intros k. unfold supported_formats. cbn [fmap list_fmap list_to_map foldr].
    cbn [uncurry curry fst snd].
    destruct (decide (k = ".parquet")) as [->|H1].
    { by rewrite lookup_insert_eq. }
    rewrite lookup_insert_ne by done.
    destruct (decide (k = ".csv")) as [->|H2].
    { by rewrite lookup_insert_eq. }
    rewrite lookup_insert_ne, lookup_empty by done.
    rewrite bool_decide_eq_false_2; [done|]. not_in_list. }
  split.
  - intros k. rewrite list_files_fold, Hinit.
    destruct (bool_decide_reflect (k ∈ supported_formats)); simpl.
    + split; [done | by eexists].
    + split; [by intros [? ?] | done].
  - intros ext Hext. rewrite list_files_fold, Hinit.
    by rewrite bool_decide_eq_true_2.
Qed.

Lemma list_files_by_format_witness :
  list_files both_formats "data" !! ".csv"
  = Some ["data/aapl_1d.csv"; "data/aapl_1h.csv"; "data/MSFT.csv"].
Proof.
  refine (proj2 (list_files_by_format both_formats "data"
           [regular "aapl_1d.csv"; regular "aapl_1d.parquet";
            regular "aapl_1h.csv"; regular "MSFT.csv"; regular "notes.txt"]
           eq_refl) ".csv" _).
  in_list.
Defined.

(** ** Filtering and fetching *)

Section FetchMore.
Import FileDataProvider.

Lemma truthy_or_empty_lookup (m : option (gmap string pyval)) (k : string) :
  (if truthy_dict m then default ∅ m else ∅) !! k = default ∅ m !! k.
Proof.
  destruct m as [d|]; simpl; [|done].
  case_bool_decide as H; simpl; [by rewrite H | done].
Qed.

(** What a successful [_filter_by_date_range] keeps and what it writes. *)
Lemma filter_by_date_range_inv (md : MarketData)
    (start_date end_date : option datetime) (out : MarketData) :
  _filter_by_date_range md start_date end_date = Ok out →
  symbol out = symbol md
  ∧ idx_dtype (data out) = idx_dtype (data md)
  ∧ df_columns (data out) = df_columns (data md)
  ∧ ∃ meta, metadata out = Some meta
      ∧ meta !! "filtered" = Some (VBool true)
      ∧ meta !! "original_rows" = Some (VInt (Z.of_nat (len (data md))))
      ∧ meta !! "filtered_rows" = Some (VInt (Z.of_nat (len (data out))))
      ∧ ∀ k, k ∉ filter_keys → meta !! k = default ∅ (metadata md) !! k.
Proof.
  unfold _filter_by_date_range, new_MarketData, index_ge, index_le.
  intros H.
  assert (∀ df (s' e' : option datetime),
    idx_dtype df = idx_dtype (data md) →
    df_columns df = df_columns (data md) →
    (if bool_decide (symbol md = "")
     then Err (ValidationError "String should have at least 1 character")
     else Ok {| symbol := symbol md; data := df;
                metadata :=
                  Some (<["filtered_rows" := VInt (Z.of_nat (len df))]>
                       (<["original_rows" := VInt (Z.of_nat (len (data md)))]>
                       (<["filter_end_date" := iso_or_none e']>
                       (<["filter_start_date" := iso_or_none s']>
                       (<["filtered" := VBool true]>
                          (if truthy_dict (metadata md)
                           then default ∅ (metadata md) else ∅)))))) |})
    = Ok out →
    symbol out = symbol md
    ∧ idx_dtype (data out) = idx_dtype (data md)
    ∧ df_columns (data out) = df_columns (data md)
    ∧ ∃ meta, metadata out = Some meta
        ∧ meta !! "filtered" = Some (VBool true)
        ∧ meta !! "original_rows" = Some (VInt (Z.of_nat (len (data md))))
        ∧ meta !! "filtered_rows" = Some (VInt (Z.of_nat (len (data out))))
        ∧ ∀ k, k ∉ filter_keys → meta !! k = default ∅ (metadata md) !! k)
    as Hend.
  { intros df s' e' Hi Hc. case_bool_decide; [done|]. intros [= <-]. simpl.
    repeat split; try done. eexists. split; [done|].
    repeat split.
    - by rewrite !lookup_insert_ne, lookup_insert_eq by done.
    - by rewrite lookup_insert_ne, lookup_insert_eq by done.
    - by rewrite lookup_insert_eq.
    - intros k Hk. unfold filter_keys in Hk.
      rewrite !not_elem_of_cons in Hk.
      destruct Hk as (? & ? & ? & ? & ? & _).
      rewrite !lookup_insert_ne by done. apply truthy_or_empty_lookup. }
  destruct start_date as [s|], end_date as [e|]; simpl in H.
  - destruct (index_key (data md) _) as [a|]; simpl in H; [|done].
    destruct (index_key (select_rows _ _) _) as [b|]; simpl in H; [|done].
    by apply (Hend _ (Some _) (Some _)) in H.
  - destruct (index_key (data md) _) as [a|]; simpl in H; [|done].
    by apply (Hend _ (Some _) None) in H.
  - destruct (index_key (data md) _) as [b|]; simpl in H; [|done].
    by apply (Hend _ None (Some _)) in H.
  - by apply (Hend _ None None) in H.
Qed.

Lemma filter_idem {A} (p : A → bool) (l : list A) :
  List.filter p (List.filter p l) = List.filter p l.
Proof.
  induction l as [|x l IH]; simpl; [done|].
  destruct (p x) eqn:E; simpl; [by rewrite E, IH | done].
Qed.

Lemma filter_sublist {A} (p : A → bool) (l : list A) :
  sublist (List.filter p l) l.
Proof.
  induction l as [|x l IH]; simpl; [constructor|].
  destruct (p x); by constructor.
Qed.

Lemma filter_all_false {A} (p : A → bool) (l : list A) :
  (∀ x, p x = false) → List.filter p l = [].
Proof. intros H. induction l as [|x l IH]; simpl; [done|]. by rewrite H. Qed.

(** A record built by [_create_from_loaded_data] for a given symbol has
    that symbol and the content of the sidecar as metadata. *)
Lemma create_from_loaded_data_inv
    (to_datetime : dtype → list Z → result (option timezone * list Z))
    (read_json : string → option (gmap string pyval))
    (df : DataFrame) (filepath s : string) (md : MarketData) :
  _create_from_loaded_data to_datetime read_json df filepath (Some s) = Ok md →
  symbol md = s
  ∧ metadata md = read_json (PyPath.with_suffix filepath ".metadata.json").
Proof.
  unfold _create_from_loaded_data, _load_metadata, new_MarketData.
  destruct (is_datetime_index df); simpl.
  - case_bool_decide; [done|]. by intros [= <-].
  - destruct (to_datetime _ _) as [idx|]; simpl; [|done].
    case_bool_decide; [done|]. by intros [= <-].
Qed.

Lemma load_market_data_from_file_inv
    (to_datetime : dtype → list Z → result (option timezone * list Z))
    (read_parquet read_csv : string → result DataFrame)
    (read_json : string → option (gmap string pyval))
    (path s : string) (md : MarketData) :
  _load_market_data_from_file to_datetime read_parquet read_csv read_json
    path s = Ok md →
  loaded md ∧ symbol md = s
  ∧ metadata md = read_json (PyPath.with_suffix path ".metadata.json").
Proof.
  unfold _load_market_data_from_file, load_from_parquet, load_from_csv.
  intros H.
  assert (∃ df, _create_from_loaded_data to_datetime read_json df path (Some s)
                = Ok md) as [df Hdf].
  { repeat case_bool_decide; [| |done].
    - destruct (read_parquet path) as [df|]; [by exists df | done].
    - destruct (read_csv path) as [df|]; [by exists df | done]. }
  split; [by eapply create_from_loaded_data_loaded|].
  by eapply create_from_loaded_data_inv.
Qed.

End FetchMore.

(** X10: on a record as the loaders build it, [_filter_by_date_range]
    succeeds, keeps a sub-sequence of the rows in their order, and is
    idempotent on the data: filtering its result with the same bounds
    succeeds and leaves the table as it is. *)
Theorem filter_idempotent (md : MarketData)
    (start_date end_date : option datetime) :
  loaded md →
  ∃ out again,
    FileDataProvider._filter_by_date_range md start_date end_date = Ok out
    ∧ FileDataProvider._filter_by_date_range out start_date end_date = Ok again
    ∧ data again = data out
    ∧ symbol again = symbol md
    ∧ sublist (df_rows (data out)) (df_rows (data md)).
Proof.
  intros [Hidx Hsym]. apply datetime_index_dtype in Hidx as [tz Hidx].
  pose proof (filter_by_date_range_ok md tz start_date end_date Hidx Hsym)
    as H1. cbv zeta in H1.
  eexists _, _. split; [exact H1|].
  split; [by apply (filter_by_date_range_ok _ tz)|]. simpl.
  split; [|split; [done | apply filter_sublist]].
  f_equal. apply filter_idem.
Qed.

Lemma filter_idempotent_witness :
  ∃ out again,
    FileDataProvider._filter_by_date_range five_days
      (Some (january 2)) (Some (january 4)) = Ok out
    ∧ FileDataProvider._filter_by_date_range out
        (Some (january 2)) (Some (january 4)) = Ok again
    ∧ data again = data out
    ∧ symbol again = symbol five_days
    ∧ sublist (df_rows (data out)) (df_rows (data five_days)).
Proof.
  apply (filter_idempotent five_days (Some (january 2)) (Some (january 4))).
  split; [reflexivity | discriminate].
Defined.

(** X11: a window whose start lies after its end is no error: on a
    record as the loaders build it the filter succeeds with no rows and
    reports [filtered_rows] 0. *)
Theorem inverted_window_empty (md : MarketData) (s e : datetime) :
  loaded md →
  (time_ns (FileDataProvider.match_index_tz (data md) e)
   < time_ns (FileDataProvider.match_index_tz (data md) s))%Z →
  ∃ out,
    FileDataProvider._filter_by_date_range md (Some s) (Some e) = Ok out
    ∧ df_rows (data out) = []
    ∧ default ∅ (metadata out) !! "filtered_rows" = Some (VInt 0).
Proof.
  intros [Hidx Hsym] Hlt. apply datetime_index_dtype in Hidx as [tz Hidx].
  pose proof (filter_by_date_range_ok md tz (Some s) (Some e) Hidx Hsym)
    as H1. cbv zeta in H1. simpl in H1.
  eexists. split; [exact H1|]. simpl.
  rewrite filter_all_false.
  - split; [done|]. by rewrite lookup_insert_eq.
  - intros r. unfold within. apply andb_false_iff.
    destruct (Z.leb_spec (time_ns (FileDataProvider.match_index_tz (data md) s))
                (label r)); [right | by left].
    apply Z.leb_gt. lia.
Qed.

Lemma inverted_window_empty_witness :
  ∃ out,
    FileDataProvider._filter_by_date_range five_days
      (Some (january 4)) (Some (january 2)) = Ok out
    ∧ df_rows (data out) = []
    ∧ default ∅ (metadata out) !! "filtered_rows" = Some (VInt 0).
Proof.
  apply (inverted_window_empty five_days (january 4) (january 2)).
  - split; [reflexivity | discriminate].
  - vm_compute. reflexivity.
Defined.

(** X12: a record that [FileDataProvider.get_data] returns comes from the
    file the resolver found for the request; it carries the symbol of the
    request and a [DatetimeIndex]; its metadata name this provider, the
    file, the requested frequency and the clock, whatever the sidecar of
    the file says under these keys; they say [filtered] when a bound was
    given; and every key that neither the provider nor, when a bound was
    given, the filter writes has the value the sidecar gives it. *)
Theorem fetch_provenance
    (to_datetime : dtype → list Z → result (option timezone * list Z))
    (read_parquet read_csv : string → result DataFrame)
    (read_json : string → option (gmap string pyval))
    (fs : filesystem) (data_directory : string) (now : datetime)
    (request : MarketDataRequest) (out : MarketData) :
  FileDataProvider.get_data to_datetime read_parquet read_csv read_json fs
    data_directory now request = Ok out →
  ∃ path meta,
    FileDataProvider._find_file_for_symbol fs data_directory
      (req_symbol request) (Some (frequency request)) = Some path
    ∧ symbol out = req_symbol request
    ∧ is_datetime_index (data out) = true
    ∧ metadata out = Some meta
    ∧ meta !! "provider" = Some (VStr "File Data Provider")
    ∧ meta !! "source_file" = Some (VStr path)
    ∧ meta !! "frequency" = Some (VStr (value (frequency request)))
    ∧ meta !! "loaded_at" = Some (VStr (isoformat now))
    ∧ (is_Some (start_date request) ∨ is_Some (end_date request) →
       meta !! "filtered" = Some (VBool true))
    ∧ ∀ k, k ∉ provider_keys →
        (k ∈ filter_keys →
         start_date request = None ∧ end_date request = None) →
        meta !! k
        = default ∅ (read_json (PyPath.with_suffix path ".metadata.json")) !! k.
Proof.
  unfold FileDataProvider.get_data.
  destruct (FileDataProvider._find_file_for_symbol _ _ _ _) as [path|]; [|done].
  destruct (FileDataProvider._load_market_data_from_file _ _ _ _ _ _)
    as [md|] eqn:Hload; simpl; [|done].
  apply load_market_data_from_file_inv in Hload as ([Hidx Hne] & Hsym & Hmeta).
  set (bounded := bool_decide (is_Some (start_date request))
                  || bool_decide (is_Some (end_date request))).
  assert (∀ md', symbol md' = symbol md →
            idx_dtype (data md') = idx_dtype (data md) →
            (bounded = true →
             default ∅ (metadata md') !! "filtered" = Some (VBool true)) →
            (∀ k, (k ∈ filter_keys → bounded = false) →
                  default ∅ (metadata md') !! k = default ∅ (metadata md) !! k) →
            Ok (FileDataProvider._add_provider_metadata now md' path
                  (Some (frequency request))) = Ok out →
            ∃ path' meta, Some path = Some path' ∧ symbol out = req_symbol request
              ∧ is_datetime_index (data out) = true
              ∧ metadata out = Some meta
              ∧ meta !! "provider" = Some (VStr "File Data Provider")
              ∧ meta !! "source_file" = Some (VStr path')
              ∧ meta !! "frequency" = Some (VStr (value (frequency request)))
              ∧ meta !! "loaded_at" = Some (VStr (isoformat now))
              ∧ (is_Some (start_date request) ∨ is_Some (end_date request) →
                 meta !! "filtered" = Some (VBool true))
              ∧ ∀ k, k ∉ provider_keys →
                  (k ∈ filter_keys →
                   start_date request = None ∧ end_date request = None) →
                  meta !! k
                  = default ∅ (read_json
                                 (PyPath.with_suffix path' ".metadata.json")) !! k)
    as Hend.
  { intros md' Hs Hi Hf Hk [= <-]. exists path. eexists. simpl.
    split; [done|]. split; [congruence|].
    split; [by unfold is_datetime_index in *; rewrite Hi|].
    split; [done|].
    split; [by rewrite !lookup_insert_ne, lookup_insert_eq by done|].
    split; [by rewrite !lookup_insert_ne, lookup_insert_eq by done|].
    split; [by rewrite lookup_insert_ne, lookup_insert_eq by done|].
    split; [by rewrite lookup_insert_eq|].
    split.
    - intros Hb. rewrite !lookup_insert_ne by done. apply Hf.
      unfold bounded. apply orb_true_iff.
      destruct Hb; [left | right]; by apply bool_decide_eq_true.
    - intros k Hk1 Hk2. unfold provider_keys in Hk1.
      rewrite !not_elem_of_cons in Hk1. destruct Hk1 as (? & ? & ? & ? & _).
      rewrite !lookup_insert_ne by done. rewrite Hk, Hmeta; [done|].
      intros Hin. destruct (Hk2 Hin) as [Hs0 He0]. unfold bounded.
      rewrite Hs0, He0. apply orb_false_iff.
      split; apply bool_decide_eq_false; by intros [? ?]. }
  fold bounded. destruct bounded eqn:Hb.
  - destruct (FileDataProvider._filter_by_date_range md _ _) as [md'|] eqn:Hf;
      simpl; [|done].
    apply filter_by_date_range_inv in Hf
      as (Hs & Hi & _ & meta & Hm & Hfl & _ & _ & Hother).
    apply Hend; try done.
    + intros _. by rewrite Hm.
    + intros k Hk. rewrite Hm. simpl. apply Hother.
      intros Hin. by specialize (Hk Hin).
  - simpl. apply Hend; done.
Qed.

Lemma fetch_provenance_witness :
  ∃ out path meta,
    FileDataProvider._find_file_for_symbol both_formats "data"
      (req_symbol january_request) (Some (frequency january_request))
    = Some path
    ∧ symbol out = req_symbol january_request
    ∧ is_datetime_index (data out) = true
    ∧ metadata out = Some meta
    ∧ meta !! "provider" = Some (VStr "File Data Provider")
    ∧ meta !! "source_file" = Some (VStr path)
    ∧ meta !! "frequency" = Some (VStr (value (frequency january_request)))
    ∧ meta !! "loaded_at" = Some (VStr (isoformat (january 9)))
    ∧ (is_Some (start_date january_request)
       ∨ is_Some (end_date january_request) →
       meta !! "filtered" = Some (VBool true))
    ∧ ∀ k, k ∉ provider_keys →
        (k ∈ filter_keys →
         start_date january_request = None ∧ end_date january_request = None) →
        meta !! k
        = default ∅ (yahoo_sidecar (PyPath.with_suffix path ".metadata.json"))
            !! k.
Proof.
  eexists.
  eapply (fetch_provenance no_datetime read_one_row read_one_row
            yahoo_sidecar both_formats "data" (january 9) january_request).
  vm_compute. reflexivity.
Defined.

(** ** Saving and loading records *)

Section PersistMore.
Variable to_datetime : dtype → list Z → result (option timezone * list Z).

Lemma insert_row_perm (r : Row) (l : list Row) :
  Permutation (insert_row r l) (r :: l).
Proof.
  induction l as [|x l IH]; simpl; [done|].
  destruct (label r <=? label x)%Z; [done|].
  rewrite IH. apply perm_swap.
Qed.

Lemma insert_row_hd (r a : Row) (l : list Row) :
  label_le a r → HdRel label_le a l → HdRel label_le a (insert_row r l).
Proof.
  intros Har Hl. destruct l as [|x l]; simpl; [by constructor|].
  destruct (label r <=? label x)%Z; constructor; [done|]. by inversion Hl.
Qed.

Lemma insert_row_sorted (r : Row) (l : list Row) :
  Sorted label_le l → Sorted label_le (insert_row r l).
Proof.
  induction 1 as [|x l Hl IH Hhd]; simpl; [by repeat constructor|].
  destruct (Z.leb_spec (label r) (label x)).
  - constructor; [by constructor|]. by constructor.
  - constructor; [done|]. apply insert_row_hd; [|done].
    unfold label_le. lia.
Qed.

Lemma sort_rows_perm (l : list Row) : Permutation (foldr insert_row [] l) l.
Proof.
  induction l as [|x l IH]; simpl; [done|]. by rewrite insert_row_perm, IH.
Qed.

Lemma sort_rows_sorted (l : list Row) : Sorted label_le (foldr insert_row [] l).
Proof.
  induction l as [|x l IH]; simpl; [constructor|]. by apply insert_row_sorted.
Qed.

(** Rows that are in order stay as they are. *)
Lemma sort_rows_id (l : list Row) :
  Sorted label_le l → foldr insert_row [] l = l.
Proof.
  induction 1 as [|x l Hl IH Hhd]; simpl; [done|]. rewrite IH.
  destruct Hhd as [|y l Hxy]; simpl; [done|].
  unfold label_le in Hxy. by rewrite (proj2 (Z.leb_le _ _) Hxy).
Qed.

Lemma missing_columns_set_datetime_index (df : DataFrame)
    (idx : option timezone * list Z) :
  missing_columns (set_datetime_index df idx) = missing_columns df.
Proof. reflexivity. Qed.

(** The table that [_prepare_data_for_save] returns is the sorted table
    of the index step, which has the required columns. *)
Lemma prepare_inv (md : MarketData) (df : DataFrame) :
  _prepare_data_for_save to_datetime md = Ok df →
  ∃ df0, df = sort_index df0
    ∧ missing_columns df0 = []
    ∧ missing_columns (data md) = []
    ∧ index_ready to_datetime (data md) = true
    ∧ (is_datetime_index (data md) = true → df0 = data md).
Proof.
  unfold _prepare_data_for_save, index_ready. intros H.
  assert (∀ df0, missing_columns df0 = missing_columns (data md) →
            (if bool_decide
                  (List.filter (fun col => negb (has_column col df0))
                     required_columns = [])
             then Ok (sort_index df0)
             else Err (ValueError
                         ("Missing required columns: "
                          +:+ PyStr.repr_list
                                (List.filter
                                   (fun col => negb (has_column col df0))
                                   required_columns))))
            = Ok df →
            df = sort_index df0 ∧ missing_columns df0 = []
            ∧ missing_columns (data md) = []) as Hcheck.
  { intros df0 Hdf0. fold (missing_columns df0).
    case_bool_decide as Hm; [|done]. intros [= <-]. by rewrite <- Hdf0. }
  destruct (is_datetime_index (data md)); simpl in *.
  { apply Hcheck in H as (? & ? & ?); [|done]. by exists (data md). }
  destruct (has_column "date" (data md)); simpl in *.
  { apply Hcheck in H as (? & ? & ?).
    - by eexists.
    - apply missing_columns_set_index. unfold required_columns. not_in_list. }
  destruct (has_column "datetime" (data md)); simpl in *.
  { apply Hcheck in H as (? & ? & ?).
    - by eexists.
    - apply missing_columns_set_index. unfold required_columns. not_in_list. }
  destruct (to_datetime _ _) as [idx|]; simpl in *; [|done].
  apply Hcheck in H as (? & ? & ?); [|done]. by eexists.
Qed.


End PersistMore.


(** X14: for a record with a [DatetimeIndex] the table that is saved
    has the index type and the columns of the record and the same rows,
    rearranged into ascending order; a record whose rows are in order
    already is saved as it is. *)
Theorem prepared_table_is_sorted_data
    (to_datetime : dtype → list Z → result (option timezone * list Z))
    (md : MarketData) (df : DataFrame) :
  is_datetime_index (data md) = true →
  _prepare_data_for_save to_datetime md = Ok df →
  idx_dtype df = idx_dtype (data md)
  ∧ df_columns df = df_columns (data md)
  ∧ Permutation (df_rows df) (df_rows (data md))
  ∧ Sorted label_le (df_rows df)
  ∧ (Sorted label_le (df_rows (data md)) → df = data md).
Proof.
  intros Hidx (df0 & -> & _ & _ & _ & Hdf0)%prepare_inv.
  rewrite (Hdf0 Hidx). simpl.
  split; [done|]. split; [done|]. split; [apply sort_rows_perm|].
  split; [apply sort_rows_sorted|].
  intros Hs. unfold sort_index. rewrite sort_rows_id by done.
  by destruct (data md).
Qed.

Lemma prepared_table_is_sorted_data_witness :
  Permutation (df_rows (data five_days))
    (df_rows (data five_days_reversed)).
Proof.
  refine (proj1 (proj2 (proj2
    (prepared_table_is_sorted_data no_datetime five_days_reversed
       (data five_days) eq_refl _)))).
  vm_compute. reflexivity.
Defined.

Section SidecarFacts.
Import PyStr PyPath.

Lemma split_sep_ends (l m cur : list ascii) :
  Forall (fun c => c ≠ "/"%char) m →
  ∃ init c, split_sep (l ++ m) cur = init ++ [c ++ m].
Proof.
  intros Hm. revert cur. induction l as [|a l IH]; intros cur; simpl.
  - exists [], (rev cur). by rewrite split_sep_plain.
  - destruct (Ascii.eqb a "/"%char).
    + destruct (IH []) as (init & c & ->). by exists (rev cur :: init), c.
    + apply IH.
Qed.

(** The name of a path that ends in [m], a text of two characters or more
    without a separator, ends in [m]. *)
Lemma name_ends (p : string) (a m : list ascii) :
  chars p = a ++ m → Forall (fun c => c ≠ "/"%char) m → (2 ≤ length m)%nat →
  ∃ c, name p = str (c ++ m).
Proof.
  intros Hp Hm Hlen. unfold name. rewrite Hp.
  destruct (split_sep_ends a m [] Hm) as (init & c & ->). exists c.
  rewrite filter_snoc, last_last; [done|].
  unfold kept_part.
  rewrite (bool_decide_eq_false_2 (c ++ m = [])).
  2: { intros E. apply (f_equal length) in E. rewrite length_app in E.
       simpl in E. lia. }
  rewrite (bool_decide_eq_false_2 (c ++ m = ["."%char])); [done|].
  intros E. apply (f_equal length) in E. rewrite length_app in E.
  simpl in E. lia.
Qed.

(** The metadata file of a path is never the path itself. *)
Lemma metadata_path_differs (p : string) : metadata_path p ≠ p.
Proof.
  unfold metadata_path, with_suffix. intros E.
  apply (f_equal chars) in E. rewrite chars_app, chars_str in E.
  destruct (name_ends p _ _ (eq_sym E)) as [c Hname].
  { vm_compute. repeat constructor; discriminate. }
  { vm_compute. lia. }
  assert (suffix p = ".json") as Hs.
  { unfold suffix. rewrite Hname.
    change (chars ".metadata.json")
      with (chars ".metadata" ++ "."%char :: chars "json").
    rewrite app_assoc.
    apply (proj2 (stem_suffix_of_name (c ++ chars ".metadata") (chars "json")
                    ltac:(by destruct c) ltac:(done)
                    ltac:(repeat constructor; discriminate))). }
  rewrite Hs in E. apply (f_equal length) in E.
  rewrite length_app, length_take in E. simpl in E. lia.
Qed.

End SidecarFacts.

Lemma save_leaves_intro
    (to_datetime : dtype → list Z → result (option timezone * list Z))
    (as_file : DataFrame → file) (md : MarketData) (filepath : string)
    (disk : gmap string file) (df : DataFrame) :
  _prepare_data_for_save to_datetime md = Ok df →
  save_leaves to_datetime as_file md filepath disk
    (_save_metadata md filepath (<[filepath := as_file df]> disk)).
Proof.
  intros Hdf. exists df. split; [done|].
  pose proof (metadata_path_differs filepath) as Hne.
  unfold _save_metadata. fold (metadata_path filepath).
  destruct (metadata md) as [m|]; simpl.
  - case_bool_decide; simpl.
    + rewrite lookup_insert_eq. split; [done|].
      split; [by rewrite lookup_insert_ne by done|].
      intros q ? ?. by rewrite lookup_insert_ne.
    + rewrite lookup_insert_ne, lookup_insert_eq by done. split; [done|].
      rewrite lookup_insert_eq. split; [done|].
      intros q ? ?. by rewrite !lookup_insert_ne.
  - rewrite lookup_insert_eq. split; [done|].
    split; [by rewrite lookup_insert_ne by done|].
    intros q ? ?. by rewrite lookup_insert_ne.
Qed.

(** X15: a successful [save_to_parquet] or [save_to_csv] writes the
    prepared table at the path, writes the metadata beside it when the
    record has any and otherwise leaves an older metadata file where it
    is, and touches no other path; the metadata file is never the data
    file. *)
Theorem save_effect
    (to_datetime : dtype → list Z → result (option timezone * list Z))
    (md : MarketData) (filepath : string) (disk disk' : gmap string file) :
  (save_to_parquet to_datetime md filepath disk = (Ok (), disk') →
   save_leaves to_datetime FParquet md filepath disk disk')
  ∧ (save_to_csv to_datetime md filepath disk = (Ok (), disk') →
     save_leaves to_datetime FCsv md filepath disk disk')
  ∧ metadata_path filepath ≠ filepath.
Proof.
  unfold save_to_parquet, save_to_csv.
  destruct (_prepare_data_for_save to_datetime md) as [df|] eqn:Hdf.
  - split; [|split; [|apply metadata_path_differs]];
      intros [= <-]; by apply save_leaves_intro.
  - split; [done|]. split; [done|]. apply metadata_path_differs.
Qed.

Lemma save_ok_leaves
    (to_datetime : dtype → list Z → result (option timezone * list Z))
    (md : MarketData) (filepath : string) (disk disk' : gmap string file) :
  save_to_parquet to_datetime md filepath disk = (Ok (), disk')
  ∨ save_to_csv to_datetime md filepath disk = (Ok (), disk') →
  ∃ as_file, save_leaves to_datetime as_file md filepath disk disk'.
Proof.
  unfold save_to_parquet, save_to_csv.
  destruct (_prepare_data_for_save to_datetime md) as [df|] eqn:Hdf.
  - intros [[= <-] | [= <-]]; eexists; by apply save_leaves_intro.
  - by intros [? | ?].
Qed.

(** X16: after a successful save, [_load_metadata] on the same path
    returns the metadata of the record when it has any; when it has none
    (no dict, or an empty one) no metadata file is written, so a metadata
    file left there by an earlier save is what a later load returns. *)
Theorem metadata_after_save
    (to_datetime : dtype → list Z → result (option timezone * list Z))
    (read_json : string → option (gmap string pyval))
    (md : MarketData) (filepath : string) (disk disk' : gmap string file) :
  save_to_parquet to_datetime md filepath disk = (Ok (), disk')
  ∨ save_to_csv to_datetime md filepath disk = (Ok (), disk') →
  reads_json read_json disk' →
  (truthy_dict (metadata md) = true →
   _load_metadata read_json filepath = metadata md)
  ∧ (truthy_dict (metadata md) = false →
     (∀ old, disk !! metadata_path filepath = Some (FJson old) →
             _load_metadata read_json filepath = Some old)
     ∧ (disk !! metadata_path filepath = None →
        _load_metadata read_json filepath = None)).
Proof.
  intros (as_file & df & _ & _ & Hside & _)%save_ok_leaves Hreads.
  unfold _load_metadata. fold (metadata_path filepath).
  specialize (Hreads (metadata_path filepath)). rewrite Hside in Hreads.
  split; [|intros Ht; split].
  - intros Ht. rewrite Ht in Hreads. by destruct (metadata md).
  - intros old Hold. by rewrite Ht, Hold in Hreads.
  - intros Hnone. by rewrite Ht, Hnone in Hreads.
Qed.

Lemma json_of_reads (disk : gmap string file) : reads_json (json_of disk) disk.
Proof. intros p. unfold json_of. by destruct (disk !! p) as [[]|]. Qed.

Lemma metadata_after_save_witness :
  _load_metadata
    (json_of (snd (save_to_csv no_datetime five_days_reversed "data/test_1d.csv" ∅)))
    "data/test_1d.csv"
  = metadata five_days_reversed.
Proof.
  refine (proj1 (metadata_after_save no_datetime _ five_days_reversed
                   "data/test_1d.csv" ∅ _ (or_intror _) (json_of_reads _)) _).
  - vm_compute. reflexivity.
  - vm_compute. reflexivity.
Defined.

(** ** The loader's file operations *)

Section LoaderFiles.
Import PyStr PyPath.

Lemma generate_filename_named (s : string) (f : DataFrequency)
    (extension : string) :
  extension ∈ supported_formats →
  plain_symbol (generate_filename s f extension)
  ∧ generate_filename s f extension ≠ ""
  ∧ generate_filename s f extension ≠ ".".
Proof.
  intros Hext. split; [by apply generate_filename_plain|].
  destruct (supported_extension _ Hext) as (e & He & Hne & _).
  pose proof (generate_filename_chars s f extension) as Hc. rewrite He in Hc.
  split; intros E; rewrite E in Hc; apply (f_equal length) in Hc;
    rewrite !length_app in Hc; destruct e; try done;
    unfold code_suffix in Hc; simpl in Hc; lia.
Qed.

Lemma name_generate_joined (directory s : string) (f : DataFrequency)
    (extension : string) :
  extension ∈ supported_formats →
  name (FileDataProvider.joinpath directory (generate_filename s f extension))
  = generate_filename s f extension.
Proof.
  intros (Hp & Hne & Hdot)%(generate_filename_named s f).
  rewrite joinpath_plain by done. by apply name_join.
Qed.


(** The stem of a canonical file name keeps the frequency code. *)
Lemma stem_generate_joined (directory s : string) (f : DataFrequency)
    (extension : string) :
  extension ∈ supported_formats →
  stem (FileDataProvider.joinpath directory (generate_filename s f extension))
  = lower (safe_symbol s) +:+ "_" +:+ value f.
Proof.
  intros Hext. unfold stem. rewrite name_generate_joined by done.
  destruct (supported_extension _ Hext) as (e & He & Hne & Hdot & _).
  rewrite <- (str_chars (generate_filename s f extension)).
  rewrite generate_filename_chars, He.
  assert (safe_symbol_chars s ++ code_suffix f ≠ []) as Hp.
  { unfold code_suffix. intros E. apply (f_equal length) in E.
    rewrite length_app in E. simpl in E. lia. }
  rewrite (proj1 (stem_suffix_of_name _ _ Hp Hne Hdot)).
  apply chars_inj. rewrite chars_str, !chars_app.
  unfold safe_symbol_chars, code_suffix, lower.
  by rewrite chars_str, safe_symbol_chars_eq, chars_app.
Qed.

Lemma extract_symbol_without_key (metadata : option (gmap string pyval))
    (filepath : string) :
  no_symbol_key metadata →
  _extract_symbol_from_metadata_or_filename metadata filepath
  = VStr (upper (stem filepath)).
Proof.
  unfold _extract_symbol_from_metadata_or_filename, no_symbol_key.
  destruct metadata as [m|]; simpl; [|done].
  intros ->. by destruct (negb _).
Qed.

Lemma create_without_symbol
    (to_datetime : dtype → list Z → result (option timezone * list Z))
    (read_json : string → option (gmap string pyval))
    (df : DataFrame) (filepath : string) (md : MarketData) :
  no_symbol_key (read_json (metadata_path filepath)) →
  _create_from_loaded_data to_datetime read_json df filepath None = Ok md →
  symbol md = upper (stem filepath).
Proof.
  intros Hkey. unfold _create_from_loaded_data, _load_metadata.
  fold (metadata_path filepath).
  rewrite extract_symbol_without_key by done. unfold new_MarketData.
  destruct (is_datetime_index df); simpl.
  - case_bool_decide; [done|]. by intros [= <-].
  - destruct (to_datetime _ _) as [idx|]; simpl; [|done].
    case_bool_decide; [done|]. by intros [= <-].
Qed.

End LoaderFiles.

(** X17: [load_from_file] without a symbol, on a file named by
    [generate_filename] whose metadata give no [symbol], takes the symbol
    from the stem of the file name as it is: the frequency code stays in
    it ([aapl_1d.parquet] loads as [AAPL_1D]), so it is not the symbol the
    file was named for. *)
Theorem loaded_symbol_keeps_code
    (to_datetime : dtype → list Z → result (option timezone * list Z))
    (read_parquet read_csv : string → result DataFrame)
    (read_json : string → option (gmap string pyval))
    (directory s : string) (f : DataFrequency) (extension : string)
    (md : MarketData) :
  extension ∈ supported_formats →
  no_symbol_key
    (read_json
       (metadata_path
          (FileDataProvider.joinpath directory
             (generate_filename s f extension)))) →
  LoaderOps.load_from_file to_datetime read_parquet read_csv read_json
    (FileDataProvider.joinpath directory (generate_filename s f extension))
    None = Ok md →
  symbol md
  = PyStr.upper (safe_symbol s) +:+ "_" +:+ PyStr.upper (value f)
  ∧ symbol md ≠ s ∧ symbol md ≠ PyStr.upper s.
Proof.
  intros Hext Hkey Hload.
  assert (symbol md
          = PyStr.upper (safe_symbol s) +:+ "_" +:+ PyStr.upper (value f))
    as Hsym.
  { unfold LoaderOps.load_from_file, load_from_parquet, load_from_csv in Hload.
    assert (∃ df, _create_from_loaded_data to_datetime read_json df
                    (FileDataProvider.joinpath directory
                       (generate_filename s f extension)) None = Ok md)
      as [df Hdf].
    { repeat case_bool_decide; [| |done].
      - destruct (read_parquet _) as [df|]; [by exists df | done].
      - destruct (read_csv _) as [df|]; [by exists df | done]. }
    apply create_without_symbol in Hdf; [|done].
    rewrite Hdf, stem_generate_joined by done.
    by rewrite !upper_app, upper_lower. }
  split; [done|].
  assert (String.length (symbol md)
          = (String.length s + 1 + String.length (value f))%nat) as Hlen.
  { rewrite Hsym, <- !length_chars, !chars_app, !length_app.
    unfold PyStr.upper. rewrite !chars_str, !length_map.
    rewrite safe_symbol_chars_eq, length_map. simpl. lia. }
  split; intros E; rewrite E in Hlen; [lia|].
  rewrite <- !length_chars in Hlen. unfold PyStr.upper in Hlen.
  rewrite chars_str, length_map in Hlen. lia.
Qed.

Lemma loaded_symbol_keeps_code_witness :
  ∃ md,
    LoaderOps.load_from_file no_datetime read_one_row read_one_row no_json
      "data/aapl_1d.parquet" None = Ok md
    ∧ symbol md = "AAPL_1D".
Proof.
  eexists. split; [vm_compute; reflexivity|].
  refine (proj1 (loaded_symbol_keeps_code no_datetime read_one_row
                   read_one_row no_json "data" "AAPL" DAILY ".parquet" _
                   _ _ _)).
  - unfold supported_formats; in_list.
  - exact I.
  - vm_compute. reflexivity.
Defined.

Section TimeframeSave.
Variable to_datetime : dtype → list Z → result (option timezone * list Z).
Variable mkdir : string → option exn.

(** A successful [save_data] is a successful [save_to_parquet] or
    [save_to_csv], by the lower-cased format. *)
Lemma save_data_ok_inv (md : MarketData) (filepath format : string)
    (disk disk' : gmap string file) (u : unit) :
  LoaderOps.save_data to_datetime md filepath format disk = (Ok u, disk') →
  (PyStr.lower format = "parquet"
   ∧ save_leaves to_datetime FParquet md filepath disk disk')
  ∨ (PyStr.lower format ≠ "parquet" ∧ PyStr.lower format = "csv"
     ∧ save_leaves to_datetime FCsv md filepath disk disk').
Proof.
  destruct u. unfold LoaderOps.save_data, save_to_parquet, save_to_csv.
  repeat case_bool_decide; [| |done];
    destruct (_prepare_data_for_save to_datetime md) as [df|] eqn:Hdf;
    try done; intros [= <-]; [left | right]; repeat split; try done;
    by apply save_leaves_intro.
Qed.


(** What a successful [save_data_with_timeframe] has done. *)
Lemma save_data_with_timeframe_ok_inv (md : MarketData)
    (directory : string) (f : DataFrequency) (format : string)
    (disk disk' : gmap string file) (path : string) :
  LoaderOps.save_data_with_timeframe to_datetime mkdir md directory f format
    disk = (Ok path, disk') →
  ∃ extension as_file,
    path = FileDataProvider.joinpath directory
             (generate_filename (symbol md) f extension)
    ∧ ((extension = ".parquet" ∧ as_file = FParquet
        ∧ PyStr.lower format = "parquet")
       ∨ (extension = ".csv" ∧ as_file = FCsv
          ∧ PyStr.lower format ≠ "parquet"))
    ∧ save_leaves to_datetime as_file md path disk disk'.
Proof.
  unfold LoaderOps.save_data_with_timeframe.
  destruct (mkdir directory); [done|].
  destruct (LoaderOps.save_data _ _ _ _ _) as [[u|e] d] eqn:Hsave; [|done].
  intros [= <- <-]. apply save_data_ok_inv in Hsave as [[Hf Hl] | (Hn & Hf & Hl)].
  - rewrite bool_decide_eq_true_2 in * by done.
    exists ".parquet", FParquet. split; [done|]. split; [by left | done].
  - rewrite bool_decide_eq_false_2 in * by done.
    exists ".csv", FCsv. split; [done|]. split; [by right | done].
Qed.

End TimeframeSave.

(** X18: what [save_data_with_timeframe] has saved, the file provider of
    the same directory finds for the symbol and frequency of the record,
    with one exception: a [.parquet] file of the same canonical name
    shadows a record saved as [.csv]. *)
Theorem saved_file_is_found
    (to_datetime : dtype → list Z → result (option timezone * list Z))
    (mkdir : string → option exn)
    (md : MarketData) (directory : string) (f : DataFrequency)
    (format : string) (disk disk' : gmap string file) (path : string)
    (fs : filesystem) :
  LoaderOps.save_data_with_timeframe to_datetime mkdir md directory f format
    disk = (Ok path, disk') →
  shows fs directory disk' →
  let sibling :=
    FileDataProvider.joinpath directory
      (generate_filename (symbol md) f ".parquet") in
  FileDataProvider._find_file_for_symbol fs directory (symbol md) (Some f)
  = Some (if bool_decide (is_Some (disk' !! sibling)) then sibling else path)
  ∧ (PyStr.lower format = "parquet" → path = sibling ∧ is_Some (disk' !! path)).
Proof.
  intros (ext & as_file & -> & Hfmt & df & _ & Hfile & _)
           %save_data_with_timeframe_ok_inv (entries & Hls & Hshow).
  cbv zeta.
  assert (∀ extension, extension ∈ supported_formats →
            FileDataProvider.path_exists fs entries
              (generate_filename (symbol md) f extension)
            = bool_decide
                (is_Some (disk' !! FileDataProvider.joinpath directory
                                     (generate_filename (symbol md) f
                                        extension)))) as Hprobe.
  { intros extension Hext.
    pose proof (generate_filename_plain (symbol md) f _ Hext) as Hplain.
    rewrite path_exists_plain by done. apply bool_decide_ext.
    rewrite <- (Hshow _ Hplain), list_elem_of_fmap.
    split; intros (e & ? & ?); by exists e. }
  assert (".parquet" ∈ supported_formats) as Hp
    by (unfold supported_formats; in_list).
  assert (".csv" ∈ supported_formats) as Hc
    by (unfold supported_formats; in_list).
  split.
  - unfold FileDataProvider._find_file_for_symbol. rewrite Hls.
    unfold supported_formats. cbn [FileDataProvider.probe_exact].
    rewrite (Hprobe _ Hp), (Hprobe _ Hc).
    case_bool_decide as Hsib; [done|].
    destruct Hfmt as [(-> & _ & _) | (-> & _ & _)].
    + exfalso. apply Hsib. by rewrite Hfile.
    + rewrite bool_decide_eq_true_2; [done|]. by rewrite Hfile.
  - intros Hl. destruct Hfmt as [(-> & _ & _) | (_ & _ & Hn)]; [|done].
    split; [done|]. by rewrite Hfile.
Qed.

Lemma saved_file_is_found_witness :
  FileDataProvider._find_file_for_symbol saved_directory "data" "TEST"
    (Some DAILY)
  = Some "data/test_1d.csv".
Proof.
  refine (proj1 (saved_file_is_found no_datetime mkdir_ok five_days "data"
                   DAILY "csv" ∅
                   (<["data/test_1d.csv" := FCsv (data five_days)]> ∅)
                   "data/test_1d.csv" saved_directory _ _)).
  - vm_compute. reflexivity.
  - exists [regular "test_1d.csv"]. split; [reflexivity|].
    intros name Hplain. rewrite joinpath_plain by done. split.
    + intros (e & He & <-). apply list_elem_of_singleton in He as ->.
      by rewrite lookup_insert_eq.
    + intros [v Hv]. apply lookup_insert_Some in Hv as [[Hk _] | [_ Hv]].
      * exists (regular "test_1d.csv"). split; [in_list|].
        vm_compute in Hk. by injection Hk as <-.
      * by rewrite lookup_empty in Hv.
Defined.


(** X20: a format that is neither [parquet] nor [csv], in any case of
    the letters, is rejected by [save_data] with a [ValueError] that names
    it as it was given, and by [save_data_with_timeframe] too, which has
    by then created the directory and chosen the [.csv] extension; no
    file is written. *)
Theorem unsupported_format_rejected
    (to_datetime : dtype → list Z → result (option timezone * list Z))
    (mkdir : string → option exn)
    (md : MarketData) (filepath directory : string) (f : DataFrequency)
    (format : string) (disk : gmap string file) :
  PyStr.lower format ≠ "parquet" → PyStr.lower format ≠ "csv" →
  let error :=
    ValueError ("Unsupported format: " +:+ format
                +:+ ". Use 'parquet' or 'csv'.") in
  LoaderOps.save_data to_datetime md filepath format disk = (Err error, disk)
  ∧ LoaderOps.save_data_with_timeframe to_datetime mkdir md directory f
      format disk
    = (Err (default error (mkdir directory)), disk).
Proof.
  intros Hp Hc. cbv zeta.
  assert (∀ p, LoaderOps.save_data to_datetime md p format disk
               = (Err (ValueError ("Unsupported format: " +:+ format
                                   +:+ ". Use 'parquet' or 'csv'.")), disk))
    as Hsave.
  { intros p. unfold LoaderOps.save_data.
    by rewrite !bool_decide_eq_false_2 by done. }
  split; [apply Hsave|].
  unfold LoaderOps.save_data_with_timeframe.
  destruct (mkdir directory); [done|]. by rewrite Hsave.
Qed.

Lemma unsupported_format_rejected_witness :
  LoaderOps.save_data no_datetime five_days "data/test.xlsx" "Excel" ∅
  = (Err (ValueError "Unsupported format: Excel. Use 'parquet' or 'csv'."), ∅).
Proof.
  refine (proj1 (unsupported_format_rejected no_datetime mkdir_ok five_days
                   "data/test.xlsx" "data" DAILY "Excel" ∅ _ _));
    vm_compute; discriminate.
Defined.

(** ** The loader's registry *)

Section RegistryFacts.
Import StockDataLoader LoaderOps.
Context {World : Type}.
Variable new_YahooFinanceProvider : DataProvider World.
Variable new_FileDataProvider : string → DataProvider World.

Local Abbreviation built_here :=
  (built new_YahooFinanceProvider new_FileDataProvider).

Lemma built_registered (self : StockDataLoader.StockDataLoader World) :
  built_here self →
  is_Some (providers self !! "yahoo")
  ∧ is_Some (providers self !! default_provider self).
Proof.
  induction 1 as [d | self name p _ [IHy IHd] | self name self' _ [IHy IHd] Hset
                  | self d _ [IHy IHd]]; simpl.
  - assert (is_Some (providers (new_StockDataLoader new_YahooFinanceProvider
                                  new_FileDataProvider d) !! "yahoo")) as H.
    { unfold new_StockDataLoader. simpl.
      destruct d as [d|]; [case_bool_decide|]; simpl;
        rewrite ?lookup_insert_ne by done; by rewrite lookup_singleton_eq. }
    by split.
  - split; apply lookup_insert_is_Some'; by right.
  - unfold set_default_provider in Hset.
    destruct (providers self !! name) as [p|] eqn:E; [|done].
    injection Hset as <-. simpl. split; [done|]. by rewrite E.
  - split; apply lookup_insert_is_Some'; by right.
Qed.

End RegistryFacts.

(** X21: a loader made by the constructor and changed only by
    [add_provider], [set_default_provider] and [add_file_provider] always
    has [yahoo] and its default provider registered, since nothing
    removes a provider and the default is checked when it is set; so a
    fetch without a provider name never fails for want of a provider: it
    rejects the symbol or calls the default provider. *)
Theorem default_provider_registered {World : Type}
    (new_YahooFinanceProvider : StockDataLoader.DataProvider World)
    (new_FileDataProvider : string → StockDataLoader.DataProvider World)
    (self : StockDataLoader.StockDataLoader World) :
  LoaderOps.built new_YahooFinanceProvider new_FileDataProvider self →
  is_Some (StockDataLoader.providers self !! "yahoo")
  ∧ ∃ p,
      StockDataLoader.providers self !! StockDataLoader.default_provider self
      = Some p
      ∧ ∀ provider symbol start_date end_date frequency kwargs st,
          provider = None ∨ provider = Some "" →
          fst (StockDataLoader.get_data self symbol start_date end_date
                 frequency provider kwargs st)
          = match new_MarketDataRequest symbol start_date end_date frequency
                    (Some kwargs) with
            | Err e => Err e
            | Ok request =>
                fst (StockDataLoader.provider_get_data p request
                       (StockDataLoader.world st))
            end.
Proof.
  intros [Hy [p Hp]]%built_registered. split; [done|]. exists p.
  split; [done|].
  intros provider symbol start_date end_date frequency kwargs st Hprov.
  unfold StockDataLoader.get_data.
  assert (StockDataLoader.or_default provider
            (StockDataLoader.default_provider self)
          = StockDataLoader.default_provider self) as ->
    by by destruct Hprov as [-> | ->].
  rewrite Hp. simpl.
  destruct (new_MarketDataRequest _ _ _ _ _) as [request|e]; [|done].
  by destruct (StockDataLoader.provider_get_data p request _).
Qed.

Lemma default_provider_registered_witness :
  is_Some
    (StockDataLoader.providers
       (LoaderOps.add_provider
          (LoaderOps.new_StockDataLoader stub_provider
             (fun _ => stub_provider) (Some "data"))
          "stub" stub_provider)
     !! "yahoo").
Proof.
  refine (proj1 (default_provider_registered stub_provider
                   (fun _ => stub_provider) _ _)).
  apply LoaderOps.built_add_provider, LoaderOps.built_new.
Defined.

(** X22: [StockDataLoader.get_data] looks the provider up before it
    builds the request. With a name that is not registered it raises the
    [ValueError] that names it, also when the symbol is invalid; with a
    registered provider and an invalid symbol it raises the validation
    error; in both cases no provider is called and the world is as it
    was. *)
Theorem fetch_error_precedence {World : Type}
    (self : StockDataLoader.StockDataLoader World) (symbol : string)
    (start_date end_date : option datetime) (frequency : DataFrequency)
    (provider : option string) (kwargs : gmap string pyval)
    (st : StockDataLoader.run_state World) :
  let provider_name :=
    StockDataLoader.or_default provider
      (StockDataLoader.default_provider self) in
  let outcome :=
    StockDataLoader.get_data self symbol start_date end_date frequency
      provider kwargs st in
  (StockDataLoader.providers self !! provider_name = None →
   fst outcome
   = Err (ValueError ("Provider '" +:+ provider_name +:+ "' not found"))
   ∧ StockDataLoader.world (snd outcome) = StockDataLoader.world st)
  ∧ (is_Some (StockDataLoader.providers self !! provider_name) →
     ∀ e, validate_symbol symbol = Err e →
          fst outcome = Err (ValidationError (exn_str e))
          ∧ StockDataLoader.world (snd outcome) = StockDataLoader.world st).
Proof.
  cbv zeta. unfold StockDataLoader.get_data. split.
  - by intros ->.
  - intros [p ->] e He. unfold new_MarketDataRequest. by rewrite He.
Qed.

(** ** The Yahoo provider *)

Section YahooFacts.
Import YahooFinanceProvider.

Lemma positions_lookup (c : string) (cols pre : list Column) :
  omap (fun k => (pre ++ cols) !! k) (positions c cols (length pre))
  = List.filter (fun x => bool_decide (col_name x = c)) cols.
Proof.
  revert pre. induction cols as [|x t IH]; intros pre; simpl; [done|].
  rewrite omap_app.
  replace (pre ++ x :: t) with ((pre ++ [x]) ++ t) by by rewrite <- app_assoc.
  replace (S (length pre)) with (length (pre ++ [x]))
    by (rewrite length_app; simpl; lia).
  rewrite IH. case_bool_decide; simpl; [|done].
  rewrite <- app_assoc. simpl. by rewrite list_lookup_middle.
Qed.

Lemma omap_flat_map {A B C} (f : B → option C) (g : A → list B) (l : list A) :
  omap f (flat_map g l) = flat_map (fun a => omap f (g a)) l.
Proof.
  induction l as [|a l IH]; simpl; [done|]. by rewrite omap_app, IH.
Qed.

(** The columns of a selection: for each label in turn, the columns that
    carry it. *)
Lemma select_columns_columns (names : list string) (df : DataFrame) :
  df_columns (select_columns names df)
  = flat_map
      (fun c => List.filter (fun x => bool_decide (col_name x = c))
                  (df_columns df)) names.
Proof.
  unfold select_columns. simpl. rewrite omap_flat_map.
  apply flat_map_ext. intros c. apply (positions_lookup c (df_columns df) []).
Qed.

Lemma select_columns_elem (names : list string) (df : DataFrame) (c : string) :
  c ∈ columns (select_columns names df) ↔ c ∈ names ∧ c ∈ columns df.
Proof.
  unfold columns. rewrite select_columns_columns.
  rewrite !list_elem_of_In, !in_map_iff. split.
  - intros (x & <- & (n & Hn & Hx)%in_flat_map).
    apply filter_In in Hx as [Hx Hb]. apply bool_decide_eq_true in Hb.
    split; [by rewrite Hb | by exists x].
  - intros [Hn (x & <- & Hx)]. exists x. split; [done|].
    apply in_flat_map. exists (col_name x). split; [done|].
    apply filter_In. split; [done|]. by apply bool_decide_eq_true.
Qed.

Lemma filter_none_in {A} (p : A → bool) (l : list A) :
  (∀ x, In x l → p x = false) → List.filter p l = [].
Proof.
  induction l as [|x l IH]; intros H; simpl; [done|].
  rewrite (H x) by by left. apply IH. intros y Hy. apply H. by right.
Qed.

Lemma filter_label_nodup (c : string) (cols : list string) :
  NoDup cols → c ∈ cols →
  List.filter (fun n => bool_decide (n = c)) cols = [c].
Proof.
  induction 1 as [|n cols Hn Hnd IH]; intros Hc.
  - by apply not_elem_of_nil in Hc.
  - simpl. case_bool_decide as E.
    + subst n. f_equal. apply filter_none_in. intros m Hm.
      apply bool_decide_eq_false. intros ->. by apply Hn, list_elem_of_In.
    + apply IH. apply elem_of_cons in Hc as [->|]; done.
Qed.

(** With distinct labels a selection has the selected labels, in the
    order of the selection. *)
Lemma select_columns_nodup (names : list string) (df : DataFrame) :
  NoDup (columns df) → (∀ c, c ∈ names → c ∈ columns df) →
  columns (select_columns names df) = names.
Proof.
  intros Hnd Hall. unfold columns in *. rewrite select_columns_columns.
  induction names as [|c names IH]; simpl; [done|].
  rewrite map_app, IH by (intros; apply Hall; by right). clear IH.
  assert (map col_name
            (List.filter (fun x => bool_decide (col_name x = c)) (df_columns df))
          = List.filter (fun n => bool_decide (n = c))
              (map col_name (df_columns df))) as ->.
  { clear. induction (df_columns df) as [|x t IHt]; simpl; [done|].
    destruct (bool_decide (col_name x = c)); simpl; by rewrite IHt. }
  rewrite filter_label_nodup; [done | done |]. apply Hall. by left.
Qed.

(** The loop that adds the missing required columns. *)
Lemma add_missing_columns (none_cell : Z) (req : list string)
    (df : DataFrame) :
  let out :=
    foldl (fun data col =>
             if has_column col data then data
             else add_column none_cell col data) df req in
  (∀ c, c ∈ columns out ↔ c ∈ columns df ∨ c ∈ req)
  ∧ (NoDup (columns df) → NoDup (columns out))
  ∧ idx_dtype out = idx_dtype df
  ∧ map label (df_rows out) = map label (df_rows df).
Proof.
  cbv zeta. revert df. induction req as [|col req IH]; intros df; simpl.
  - repeat split; try done; [by left | intros [?|H]; [done|]].
    by apply not_elem_of_nil in H.
  - destruct (IH (if has_column col df then df
                  else add_column none_cell col df))
      as (Hc & Hnd & Hi & Hl). clear IH.
    unfold has_column in *. case_bool_decide as Hcol.
    + split; [|by repeat split].
      intros c. rewrite Hc, elem_of_cons.
      split; [tauto|]. intros [?|[->|?]]; tauto.
    + assert (columns (add_column none_cell col df) = columns df ++ [col])
        as Hadd by (unfold columns, add_column; simpl; by rewrite map_app).
      split; [|split; [|split]].
      * intros c. rewrite Hc, Hadd, elem_of_app, list_elem_of_singleton,
          elem_of_cons. tauto.
      * intros H. apply Hnd. rewrite Hadd. apply NoDup_app.
        split; [done|]. split; [|apply NoDup_singleton].
        intros c Hin ->%list_elem_of_singleton. done.
      * by rewrite Hi.
      * rewrite Hl. unfold add_column. simpl. by rewrite map_map.
Qed.

End YahooFacts.

Lemma standardize_inv (none_cell : Z) (df : DataFrame) :
  let out := YahooFinanceProvider._standardize_columns none_cell df in
  (∀ c, c ∈ required_columns → c ∈ columns out)
  ∧ (∀ c, c ∈ columns out → c ∈ required_columns ∨ c = "adj_close")
  ∧ idx_dtype out = idx_dtype df
  ∧ map label (df_rows out) = map label (df_rows df)
  ∧ (NoDup (columns (YahooFinanceProvider.rename_columns df)) →
     columns out
     = if has_column "adj_close" (YahooFinanceProvider.rename_columns df)
       then required_columns ++ ["adj_close"] else required_columns).
Proof.
  cbv zeta. unfold YahooFinanceProvider._standardize_columns.
  destruct (add_missing_columns none_cell required_columns
              (YahooFinanceProvider.rename_columns df))
    as (Hc & Hnd & Hi & Hl). cbv zeta in Hc, Hnd, Hi, Hl.
  set (full := foldl _ _ required_columns) in *.
  set (names := if has_column "adj_close" full
                then required_columns ++ ["adj_close"] else required_columns).
  assert (∀ c, c ∈ names → c ∈ columns full) as Hnames.
  { intros c. unfold names, has_column. case_bool_decide as Ha.
    - rewrite elem_of_app, list_elem_of_singleton. intros [?| ->]; [|done].
      apply Hc. by right.
    - intros ?. apply Hc. by right. }
  assert (has_column "adj_close" full
          = has_column "adj_close" (YahooFinanceProvider.rename_columns df))
    as Hadj.
  { unfold has_column. apply bool_decide_ext. rewrite Hc.
    split; [|by left]. intros [?|H]; [done|].
    exfalso. revert H. change ("adj_close" ∉ required_columns).
    unfold required_columns. not_in_list. }
  split; [|split; [|split; [|split]]].
  - intros c Hreq. apply select_columns_elem. split.
    + unfold names. destruct (has_column _ _); [|done].
      apply elem_of_app. by left.
    + apply Hc. by right.
  - intros c [Hn _]%select_columns_elem. unfold names in Hn.
    destruct (has_column _ _); [|by left].
    apply elem_of_app in Hn as [?| ->%list_elem_of_singleton]; [by left|].
    by right.
  - done.
  - unfold YahooFinanceProvider.select_columns. simpl.
    rewrite map_map. simpl. exact Hl.
  - intros Hdf. rewrite select_columns_nodup; [|by apply Hnd|done].
    unfold names. by rewrite Hadj.
Qed.

(** The standardized table passes the column check and has as many
    rows as the raw one. *)
Lemma standardize_passes_check (none_cell : Z) (df : DataFrame) :
  missing_columns (YahooFinanceProvider._standardize_columns none_cell df) = []
  ∧ len (YahooFinanceProvider._standardize_columns none_cell df) = len df.
Proof.
  destruct (standardize_inv none_cell df) as (Hreq & _ & _ & Hl & _).
  cbv zeta in Hreq, Hl. split.
  - destruct (missing_columns _) as [|c l] eqn:E; [done|].
    assert (c ∈ missing_columns
                  (YahooFinanceProvider._standardize_columns none_cell df))
      as Hin by (rewrite E; by left).
    apply missing_columns_spec in Hin as [Hc Hn]. by apply Hreq in Hc.
  - unfold len. apply (f_equal length) in Hl. by rewrite !length_map in Hl.
Qed.

(** X23: the table that [_standardize_columns] returns has every required
    column, so it passes the column check of a save; it has no column
    other than the required ones and [adj_close], so the dividend and
    split columns are dropped; it has the index and the rows of the input;
    and when the renamed labels are distinct its columns are exactly the
    required ones in their order, followed by [adj_close] if there is
    one. *)
Theorem standardized_columns (none_cell : Z) (df : DataFrame) :
  let out := YahooFinanceProvider._standardize_columns none_cell df in
  missing_columns out = []
  ∧ (∀ c, c ∈ columns out → c ∈ required_columns ∨ c = "adj_close")
  ∧ idx_dtype out = idx_dtype df
  ∧ map label (df_rows out) = map label (df_rows df)
  ∧ (NoDup (columns (YahooFinanceProvider.rename_columns df)) →
     columns out
     = if has_column "adj_close" (YahooFinanceProvider.rename_columns df)
       then required_columns ++ ["adj_close"] else required_columns).
Proof.
  cbv zeta. destruct (standardize_inv none_cell df) as (_ & Hrest).
  cbv zeta in Hrest. split; [|exact Hrest].
  apply standardize_passes_check.
Qed.

Lemma interval_of_frequency (f : DataFrequency) :
  YahooFinanceProvider.dict_get YahooFinanceProvider.FREQUENCY_MAPPING f "1d"
  = if decide (f = HOUR_4) then "1d" else value f.
Proof. by destruct f. Qed.

(** X24: a record that the Yahoo provider returns was fetched for the
    window of the request, where a missing end is the clock and a missing
    start is 365 days before the end, at the interval of the requested
    frequency, except that [4h], which the mapping lacks, is fetched as
    [1d] while the metadata still say [4h]; its table is the standardized
    one and has every required column; its metadata carry the symbol,
    the window and the number of rows; and nothing is logged. *)
Theorem yahoo_fetch_outcome
    (history : string → datetime → datetime → string → result DataFrame)
    (info : string → result (gmap string pyval))
    (now : datetime) (none_cell : Z)
    (request : MarketDataRequest) (md : MarketData) (log : list string) :
  YahooFinanceProvider.get_data history info now none_cell request
  = (Ok md, log) →
  let end_date := default now (end_date request) in
  ∃ start raw meta,
    (start_date request = Some start
     ∨ (start_date request = None
        ∧ wall start = (wall end_date - 365 * 86400000000)%Z
        ∧ tzinfo start = tzinfo end_date))
    ∧ history (req_symbol request) start end_date
        (if decide (frequency request = HOUR_4) then "1d"
         else value (frequency request)) = Ok raw
    ∧ YahooFinanceProvider.empty raw = false
    ∧ log = []
    ∧ symbol md = req_symbol request
    ∧ data md = YahooFinanceProvider._standardize_columns none_cell raw
    ∧ missing_columns (data md) = []
    ∧ metadata md = Some meta
    ∧ meta !! "provider" = Some (VStr "Yahoo Finance")
    ∧ meta !! "symbol" = Some (VStr (symbol md))
    ∧ meta !! "frequency" = Some (VStr (value (frequency request)))
    ∧ meta !! "start_date" = Some (VStr (isoformat start))
    ∧ meta !! "end_date" = Some (VStr (isoformat end_date))
    ∧ meta !! "rows_count" = Some (VInt (Z.of_nat (len raw))).
Proof.
  unfold YahooFinanceProvider.get_data.
  destruct (YahooFinanceProvider.fetch _ _ _ _ _) as [md'|e] eqn:H; [|done].
  intros [= <- <-]. cbv zeta. unfold YahooFinanceProvider.fetch in H.
  rewrite interval_of_frequency in H.
  assert (∃ start,
    (start_date request = Some start
     ∨ (start_date request = None
        ∧ wall start = (wall (default now (end_date request))
                        - 365 * 86400000000)%Z
        ∧ tzinfo start = tzinfo (default now (end_date request))))
    ∧ match start_date request with
      | Some d => Ok d
      | None => YahooFinanceProvider.minus_days
                  (default now (end_date request)) 365
      end = Ok start) as (start & Hstart & Hs).
  { destruct (start_date request) as [d|]; [exists d; by split; [left|]|].
    unfold YahooFinanceProvider.minus_days in *.
    destruct (_ <? _)%Z; [by simpl in H|].
    eexists. split; [right|done]. done. }
  rewrite Hs in H. simpl in H.
  destruct (history _ _ _ _) as [raw|] eqn:Hh; simpl in H; [|done].
  destruct (YahooFinanceProvider.empty raw) eqn:He; [done|].
  destruct (info _) as [i|]; simpl in H; [|done].
  unfold new_MarketData in H. case_bool_decide; [done|].
  injection H as <-. exists start, raw. eexists. simpl.
  destruct (standardize_passes_check none_cell raw) as (Hm & Hlen).
  repeat split; try done.
  rewrite !lookup_insert_ne, lookup_insert_eq by done. by rewrite Hlen.
Qed.

Lemma yahoo_fetch_outcome_witness :
  ∃ md start raw meta,
    (start_date four_hour_request = Some start
     ∨ (start_date four_hour_request = None
        ∧ wall start = (wall (january 9) - 365 * 86400000000)%Z
        ∧ tzinfo start = tzinfo (january 9)))
    ∧ yahoo_history "AAPL" start (january 9) "1d" = Ok raw
    ∧ YahooFinanceProvider.empty raw = false
    ∧ @nil string = []
    ∧ symbol md = "AAPL"
    ∧ data md = YahooFinanceProvider._standardize_columns 0 raw
    ∧ missing_columns (data md) = []
    ∧ metadata md = Some meta
    ∧ meta !! "provider" = Some (VStr "Yahoo Finance")
    ∧ meta !! "symbol" = Some (VStr (symbol md))
    ∧ meta !! "frequency" = Some (VStr "4h")
    ∧ meta !! "start_date" = Some (VStr (isoformat start))
    ∧ meta !! "end_date" = Some (VStr (isoformat (january 9)))
    ∧ meta !! "rows_count" = Some (VInt (Z.of_nat (len raw))).
Proof.
  eexists.
  eapply (yahoo_fetch_outcome yahoo_history yahoo_info (january 9) 0
            four_hour_request _ []).
  vm_compute. reflexivity.
Defined.

(** X25: a fetch from Yahoo that fails logs one line, which names the
    symbol and the message of the exception, and raises that exception;
    a fetch that succeeds logs nothing; and, for a request that gives
    its start, a table without rows or without columns is a failure with
    a [ValueError] that names the symbol, whatever [info] would have
    returned. *)
Theorem yahoo_failures_logged
    (history : string → datetime → datetime → string → result DataFrame)
    (info : string → result (gmap string pyval))
    (now : datetime) (none_cell : Z) (request : MarketDataRequest) :
  let outcome :=
    YahooFinanceProvider.get_data history info now none_cell request in
  (∀ e, fst outcome = Err e →
        snd outcome = ["Error fetching data for " +:+ req_symbol request
                       +:+ ": " +:+ exn_str e])
  ∧ (is_Ok (fst outcome) = true ↔ snd outcome = [])
  ∧ (∀ start raw,
       start_date request = Some start →
       history (req_symbol request) start (default now (end_date request))
         (if decide (frequency request = HOUR_4) then "1d"
          else value (frequency request)) = Ok raw →
       YahooFinanceProvider.empty raw = true →
       fst outcome
       = Err (ValueError ("No data found for symbol " +:+ req_symbol request))).
Proof.
  cbv zeta. unfold YahooFinanceProvider.get_data.
  split; [|split].
  - intros e. destruct (YahooFinanceProvider.fetch _ _ _ _ _); simpl; [done|].
    by intros [= ->].
  - by destruct (YahooFinanceProvider.fetch _ _ _ _ _).
  - intros start raw Hs Hh He. unfold YahooFinanceProvider.fetch.
    rewrite interval_of_frequency, Hs. simpl. rewrite Hh. simpl.
    by rewrite He.
Qed.

(** X26: a record whose metadata carry its symbol under [symbol], as
    those of the Yahoo provider do, comes back with that symbol and those
    metadata when it is saved with [save_data_with_timeframe] and the
    file is loaded with [load_from_file] without a symbol: the symbol of
    the metadata wins over the file name. *)
Theorem symbol_round_trip
    (to_datetime : dtype → list Z → result (option timezone * list Z))
    (read_parquet read_csv : string → result DataFrame)
    (read_json : string → option (gmap string pyval))
    (mkdir : string → option exn)
    (md : MarketData) (m : gmap string pyval)
    (directory : string) (f : DataFrequency) (format : string)
    (disk disk' : gmap string file) (path : string) (md' : MarketData) :
  metadata md = Some m →
  m !! "symbol" = Some (VStr (symbol md)) →
  LoaderOps.save_data_with_timeframe to_datetime mkdir md directory f format
    disk = (Ok path, disk') →
  reads_json read_json disk' →
  LoaderOps.load_from_file to_datetime read_parquet read_csv read_json path
    None = Ok md' →
  symbol md' = symbol md ∧ metadata md' = metadata md.
Proof.
  intros Hm Hsym (ext & as_file & _ & _ & df & _ & _ & Hside & _)
           %save_data_with_timeframe_ok_inv Hreads Hload.
  assert (truthy_dict (metadata md) = true) as Ht.
  { rewrite Hm. simpl. apply negb_true_iff, bool_decide_eq_false.
    intros ->. by rewrite lookup_empty in Hsym. }
  rewrite Ht, Hm in Hside. specialize (Hreads (metadata_path path)).
  rewrite Hside in Hreads. simpl in Hreads.
  unfold LoaderOps.load_from_file, load_from_parquet, load_from_csv in Hload.
  assert (∃ df', _create_from_loaded_data to_datetime read_json df' path None
                 = Ok md') as [df' Hdf].
  { repeat case_bool_decide; [| |done].
    - destruct (read_parquet _) as [df'|]; [by exists df' | done].
    - destruct (read_csv _) as [df'|]; [by exists df' | done]. }
  unfold _create_from_loaded_data, _load_metadata in Hdf.
  fold (metadata_path path) in Hdf. rewrite Hreads in Hdf.
  unfold _extract_symbol_from_metadata_or_filename in Hdf.
  rewrite <- Hm, Ht, Hm in Hdf. simpl in Hdf. rewrite Hsym in Hdf.
  unfold new_MarketData in Hdf.
  destruct (is_datetime_index df'); simpl in Hdf.
  - case_bool_decide; [done|]. injection Hdf as <-. by rewrite Hm.
  - destruct (to_datetime _ _) as [idx|]; simpl in Hdf; [|done].
    case_bool_decide; [done|]. injection Hdf as <-. by rewrite Hm.
Qed.

Lemma symbol_round_trip_witness :
  ∃ md',
    LoaderOps.load_from_file no_datetime read_one_row read_one_row
      (json_of tagged_disk) "data/test_1d.parquet" None = Ok md'
    ∧ symbol md' = "TEST".
Proof.
  eexists. split; [vm_compute; reflexivity|].
  refine (proj1 (symbol_round_trip no_datetime read_one_row read_one_row
                   (json_of tagged_disk) mkdir_ok tagged_days
                   {["symbol" := VStr "TEST"]} "data" DAILY "parquet" ∅
                   tagged_disk "data/test_1d.parquet" _
                   eq_refl _ _ (json_of_reads _) _)).
  - vm_compute. reflexivity.
  - vm_compute. reflexivity.
  - vm_compute. reflexivity.
Defined.
